(** * Time_AI front end: the two page scripts, embedded and verified

    The repository holds two browser scripts that call the same HTTP API
    ([/courses], [/search], [/schedule]) and render the JSON they receive:

    - [src/frontend/app.js]  (module [App]):  [render], [loadAll], [doSearch];
    - the page script with [apiGet], [apiPost], [renderCourses],
      [renderAssignments] and the three click handlers (module [Main]).

    Both are embedded shallowly.  JavaScript values are an inductive type,
    strings are sequences of UTF-16 code units, numbers are integers or
    binary64 floats.
    A handler is a computation over an explicit world (the DOM nodes the
    script touches and the chronological list of its effects: requests,
    alerts, console lines) that either returns or throws, keeping the
    effects done before the throw.  The built-ins whose behaviour belongs to
    the browser and not to the repository (JSON.parse, JSON.stringify,
    number formatting, the URL constructor, the members of the built-in
    prototypes, the wording of engine errors) are the fields of a [Host]
    record; every theorem holds for every host.  The network is a function
    from the request to its outcome.

    What the model takes for granted:
    - one handler runs at a time, from any world; an [await] is a sequential
      step, and two handlers in flight at once are not interleaved;
    - the elements the scripts look up by id are in the page;
    - the page is served over http, as the comments of both scripts say,
      so that the URL constructor accepts its origin as base;
    - markup assigned to [innerHTML] is kept as the assigned string: the
      HTML parser of the browser is not modelled.

    The file goes: strings, values and built-ins; the world and its monad;
    the two scripts; a host and inputs for concrete runs; the vocabulary of
    the claims; the proofs, claim by claim. *)

From Stdlib Require Import List NArith ZArith Ascii Bool Lia.
From Stdlib Require String.
Import String.StringSyntax.
Delimit Scope string_scope with string.
Bind Scope string_scope with String.string.
From Stdlib Require Import PrimFloat SpecFloat FloatOps.
Import ListNotations.

Set Warnings "-register-all".

Local Open Scope N_scope.
Local Open Scope list_scope.

(** ** Strings *)

(** A JavaScript string: its UTF-16 code units. *)
Definition jsstring := list N.

Definition cont (a : ascii) : N := N.land (N_of_ascii a) 63.

(** The code units of a literal of this file, which is written in UTF-8. *)
Fixpoint lit (s : String.string) : jsstring :=
  match s with
  | String.EmptyString => []
  | String.String a s1 =>
    let n := N_of_ascii a in
    if n <? 128 then n :: lit s1
    else
      match s1 with
      | String.EmptyString => [65533]
      | String.String b s2 =>
        if n <? 224 then (N.land n 31 * 64 + cont b) :: lit s2
        else
          match s2 with
          | String.EmptyString => [65533]
          | String.String c s3 =>
            if n <? 240 then
              (N.land n 15 * 4096 + cont b * 64 + cont c) :: lit s3
            else
              match s3 with
              | String.EmptyString => [65533]
              | String.String d s4 =>
                let cp := N.land n 7 * 262144 + cont b * 4096
                          + cont c * 64 + cont d - 65536 in
                (55296 + cp / 1024) :: (56320 + cp mod 1024) :: lit s4
              end
          end
      end
  end.

Fixpoint str_eqb (s t : jsstring) : bool :=
  match s, t with
  | [], [] => true
  | a :: s', b :: t' => (a =? b) && str_eqb s' t'
  | _, _ => false
  end.

Definition is_empty (s : jsstring) : bool :=
  match s with [] => true | _ => false end.

(** [xs.join(sep)] on an array of strings. *)
Fixpoint join (sep : jsstring) (xs : list jsstring) : jsstring :=
  match xs with
  | [] => []
  | [x] => x
  | x :: rest => x ++ sep ++ join sep rest
  end.

(** WhiteSpace and LineTerminator code points, the set [trim] strips. *)
Definition is_ws (c : N) : bool :=
  ((9 <=? c) && (c <=? 13)) || (c =? 32) || (c =? 160) || (c =? 5760)
  || ((8192 <=? c) && (c <=? 8202)) || (c =? 8232) || (c =? 8233)
  || (c =? 8239) || (c =? 8287) || (c =? 12288) || (c =? 65279).

Fixpoint drop_ws (s : jsstring) : jsstring :=
  match s with
  | c :: s' => if is_ws c then drop_ws s' else s
  | [] => []
  end.

(** [s.trim()] *)
Definition trim (s : jsstring) : jsstring :=
  rev (drop_ws (rev (drop_ws s))).

(** [s.split(sep)] for a separator of one code unit: the current piece is
    accumulated in [cur]. *)
Fixpoint split_from (sep : N) (cur : jsstring) (s : jsstring)
  : list jsstring :=
  match s with
  | [] => [rev cur]
  | c :: s' =>
    if c =? sep then rev cur :: split_from sep [] s'
    else split_from sep (c :: cur) s'
  end.

Definition split (sep : N) (s : jsstring) : list jsstring :=
  split_from sep [] s.

Definition digit (d : N) : N := 48 + d.

Fixpoint of_uint (u : Decimal.uint) : jsstring :=
  match u with
  | Decimal.Nil => []
  | Decimal.D0 u' => digit 0 :: of_uint u'
  | Decimal.D1 u' => digit 1 :: of_uint u'
  | Decimal.D2 u' => digit 2 :: of_uint u'
  | Decimal.D3 u' => digit 3 :: of_uint u'
  | Decimal.D4 u' => digit 4 :: of_uint u'
  | Decimal.D5 u' => digit 5 :: of_uint u'
  | Decimal.D6 u' => digit 6 :: of_uint u'
  | Decimal.D7 u' => digit 7 :: of_uint u'
  | Decimal.D8 u' => digit 8 :: of_uint u'
  | Decimal.D9 u' => digit 9 :: of_uint u'
  end.

(** The decimal numeral of an array index. *)
Definition str_of_nat (n : nat) : jsstring := of_uint (Nat.to_uint n).

(** The index a property name denotes, when it is a canonical numeral. *)
Fixpoint digits_value (acc : N) (s : jsstring) : option N :=
  match s with
  | [] => Some acc
  | c :: s' =>
    if (48 <=? c) && (c <=? 57) then digits_value (acc * 10 + (c - 48)) s'
    else None
  end.

Definition to_index (s : jsstring) : option nat :=
  match s with
  | [] => None
  | [48] => Some 0%nat
  | 48 :: _ => None
  | _ =>
    match digits_value 0 s with
    | Some n => if n <? 4294967295 then Some (N.to_nat n) else None
    | None => None
    end
  end.

(** ** Values, errors and results *)

(** A number.  The scripts do no arithmetic: their numbers are array
    lengths, the literals 8, 50 and 1, and what JSON.parse and [Number()]
    give, and they are only printed, tested for truth and sent.  An integer
    is kept as the integer it is, any other binary64 value as the float. *)
Inductive JsNumber :=
| Int (z : Z)
| Flt (x : float).

(** A value: what JSON.parse produces, [undefined] (a property read that
    finds nothing), and [JNative id], a built-in function or prototype object
    reached along the prototype chain.  The properties of an object are kept
    in the order [Object.keys] lists them. *)
Inductive JsValue :=
| JUndefined
| JNull
| JBool (b : bool)
| JNum (x : JsNumber)
| JStr (s : jsstring)
| JArr (items : list JsValue)
| JObj (props : list (jsstring * JsValue))
| JNative (id : jsstring).

(** A thrown error object: its [name] and its [message]. *)
Record JsError := mkError { err_name : jsstring; err_message : jsstring }.

(** [new Error(msg)] *)
Definition Error (msg : jsstring) : JsError := mkError (lit "Error") msg.

(** The outcome of an expression: a value, or a thrown error. *)
Inductive result (A : Type) :=
| Ok (a : A)
| Throw (e : JsError).
Arguments Ok {A} a.
Arguments Throw {A} e.

Definition rbind {A B} (r : result A) (k : A -> result B) : result B :=
  match r with
  | Ok a => k a
  | Throw e => Throw e
  end.

(** The errors the engine itself raises in these scripts. *)
Inductive Fault :=
| ReadOfNullish (v : JsValue) (key : jsstring)
| KeysOfNullish (v : JsValue)
| NotAFunction (v : JsValue) (callee : jsstring)
| NotPrimitive
| MalformedURI.

(** The browser's built-ins. *)
Record Host := {
  (** [JSON.parse(text)]: the value, or a SyntaxError *)
  JSON_parse : jsstring -> result JsValue;
  (** [JSON.stringify(value)] of a request payload *)
  JSON_stringify : JsValue -> jsstring;
  (** Number::toString, the decimal text of a number *)
  Number_toString : JsNumber -> jsstring;
  (** StringToNumber, what [Number(s)] is for a string *)
  StringToNumber : jsstring -> JsNumber;
  (** [new URL(path, base).href] for the origin of the page as base *)
  URL_href : jsstring -> jsstring -> jsstring;
  (** the member a property read finds on the built-in prototypes of a value
      when the value has no own property of that name *)
  inherited : JsValue -> jsstring -> option jsstring;
  (** the text a built-in function or prototype object converts to *)
  native_text : jsstring -> jsstring;
  (** the message of an engine error *)
  fault_message : Fault -> jsstring
}.

Definition fault_name (f : Fault) : jsstring :=
  match f with
  | MalformedURI => lit "URIError"
  | _ => lit "TypeError"
  end.

Section Builtins.

Variable host : Host.

Definition fault {A} (f : Fault) : result A :=
  Throw (mkError (fault_name f) (fault_message host f)).

(** The number of an array or string length. *)
Definition num_of_nat (n : nat) : JsNumber := Int (Z.of_nat n).

(** A number is false when it is 0 or NaN. *)
Definition num_truthy (x : JsNumber) : bool :=
  match x with
  | Int z => negb (z =? 0)%Z
  | Flt x => negb (PrimFloat.is_zero x || PrimFloat.is_nan x)
  end.

(** ToBoolean *)
Definition truthy (v : JsValue) : bool :=
  match v with
  | JUndefined | JNull => false
  | JBool b => b
  | JNum x => num_truthy x
  | JStr s => negb (is_empty s)
  | JArr _ | JObj _ | JNative _ => true
  end.

(** [v == null]: null or undefined *)
Definition nullish (v : JsValue) : bool :=
  match v with
  | JUndefined | JNull => true
  | _ => false
  end.

(** [a ?? b] for a [b] without effects *)
Definition nullish_or (a b : JsValue) : JsValue :=
  if nullish a then b else a.

(** [a || b] for a [b] without effects *)
Definition js_or (a b : JsValue) : JsValue :=
  if truthy a then a else b.

Fixpoint assoc (k : jsstring) (props : list (jsstring * JsValue))
  : option JsValue :=
  match props with
  | [] => None
  | (k', v) :: rest => if str_eqb k k' then Some v else assoc k rest
  end.

(** The own property [k] of a value. *)
Definition get_own (v : JsValue) (k : jsstring) : option JsValue :=
  match v with
  | JObj props => assoc k props
  | JArr items =>
    if str_eqb k (lit "length") then Some (JNum (num_of_nat (length items)))
    else match to_index k with
         | Some i => nth_error items i
         | None => None
         end
  | JStr s =>
    if str_eqb k (lit "length") then Some (JNum (num_of_nat (length s)))
    else match to_index k with
         | Some i => option_map (fun c => JStr [c]) (nth_error s i)
         | None => None
         end
  | _ => None
  end.

(** [v[k]] and [v.k]: the own property, else the inherited member, else
    [undefined]; a TypeError on null and undefined. *)
Definition get_prop (v : JsValue) (k : jsstring) : result JsValue :=
  match v with
  | JUndefined | JNull => fault (ReadOfNullish v k)
  | _ =>
    match get_own v k with
    | Some x => Ok x
    | None =>
      match inherited host v k with
      | Some id => Ok (JNative id)
      | None => Ok JUndefined
      end
    end
  end.

(** [Object.keys(v)] *)
Definition Object_keys (v : JsValue) : result (list jsstring) :=
  match v with
  | JUndefined | JNull => fault (KeysOfNullish v)
  | JObj props => Ok (map fst props)
  | JArr items => Ok (map str_of_nat (seq 0 (length items)))
  | JStr s => Ok (map str_of_nat (seq 0 (length s)))
  | _ => Ok []
  end.

(** The results of a list of conversions, left to right, up to the first
    that throws. *)
Fixpoint collect {A} (rs : list (result A)) : result (list A) :=
  match rs with
  | [] => Ok []
  | r :: rest =>
    rbind r (fun a => rbind (collect rest) (fun l => Ok (a :: l)))
  end.

(** ToString, as a template literal applies it.  An array converts by
    [join(",")]; an object converts to "[object Object]" unless an own
    property shadows [toString], in which case no conversion is left and
    the engine throws. *)
Fixpoint ToString (v : JsValue) : result jsstring :=
  match v with
  | JUndefined => Ok (lit "undefined")
  | JNull => Ok (lit "null")
  | JBool true => Ok (lit "true")
  | JBool false => Ok (lit "false")
  | JNum x => Ok (Number_toString host x)
  | JStr s => Ok s
  | JArr items =>
    rbind (collect (map (fun x => if nullish x then Ok [] else ToString x)
                        items))
          (fun parts => Ok (join (lit ",") parts))
  | JObj props =>
    match assoc (lit "toString") props with
    | Some _ => fault NotPrimitive
    | None => Ok (lit "[object Object]")
    end
  | JNative id => Ok (native_text host id)
  end.

(** [items.join(sep)] on an array *)
Definition array_join (sep : jsstring) (items : list JsValue)
  : result jsstring :=
  rbind (collect (map (fun x => if nullish x then Ok [] else ToString x)
                      items))
        (fun parts => Ok (join sep parts)).

(** [Number(v)] *)
Definition ToNumber (v : JsValue) : result JsNumber :=
  match v with
  | JUndefined => Ok (Flt nan)
  | JNull => Ok (Int 0)
  | JBool true => Ok (Int 1)
  | JBool false => Ok (Int 0)
  | JNum x => Ok x
  | JStr s => Ok (StringToNumber host s)
  | _ => rbind (ToString v) (fun s => Ok (StringToNumber host s))
  end.

Definition hex_digit (n : N) : N := if n <? 10 then 48 + n else 55 + n.

Definition percent (byte : N) : jsstring :=
  [37; hex_digit (byte / 16); hex_digit (byte mod 16)].

Definition utf8 (cp : N) : list N :=
  if cp <? 128 then [cp]
  else if cp <? 2048 then [192 + cp / 64; 128 + cp mod 64]
  else if cp <? 65536 then
    [224 + cp / 4096; 128 + (cp / 64) mod 64; 128 + cp mod 64]
  else
    [240 + cp / 262144; 128 + (cp / 4096) mod 64;
     128 + (cp / 64) mod 64; 128 + cp mod 64].

(** The characters [encodeURIComponent] leaves as they are:
    letters, digits and [- _ . ! ~ * ' ( )]. *)
Definition unreserved (c : N) : bool :=
  ((65 <=? c) && (c <=? 90)) || ((97 <=? c) && (c <=? 122))
  || ((48 <=? c) && (c <=? 57))
  || (c =? 45) || (c =? 95) || (c =? 46) || (c =? 33) || (c =? 126)
  || (c =? 42) || (c =? 39) || (c =? 40) || (c =? 41).

Definition high_surrogate (c : N) : bool := (55296 <=? c) && (c <=? 56319).
Definition low_surrogate (c : N) : bool := (56320 <=? c) && (c <=? 57343).

(** [encodeURIComponent(s)]: the UTF-8 bytes of every other character,
    percent-encoded; a URIError on a lone surrogate. *)
Fixpoint encodeURIComponent (s : jsstring) : result jsstring :=
  match s with
  | [] => Ok []
  | c :: s1 =>
    if unreserved c then
      rbind (encodeURIComponent s1) (fun r => Ok (c :: r))
    else if high_surrogate c then
      match s1 with
      | d :: s2 =>
        if low_surrogate d then
          let cp := 65536 + (c - 55296) * 1024 + (d - 56320) in
          rbind (encodeURIComponent s2)
                (fun r => Ok (concat (map percent (utf8 cp)) ++ r))
        else fault MalformedURI
      | [] => fault MalformedURI
      end
    else if low_surrogate c then fault MalformedURI
    else
      rbind (encodeURIComponent s1)
            (fun r => Ok (concat (map percent (utf8 c)) ++ r))
  end.

End Builtins.

(** A literal that holds double quotes, written here with an apostrophe in
    the place of each (no literal of either script holds an apostrophe). *)
Definition litq (s : String.string) : jsstring :=
  map (fun c => if c =? 39 then 34 else c) (lit s).

(** ** The page, the network and the effects *)

(** A DOM node: markup assigned through [innerHTML], kept as assigned, or an
    element made by [createElement] with the content given to it. *)
Inductive Node :=
| Markup (html : jsstring)
| Element (tag : jsstring) (content : list Node).

(** The content of an element after [el.innerHTML = s]. *)
Definition innerHTML (s : jsstring) : list Node :=
  match s with
  | [] => []
  | _ => [Markup s]
  end.

Inductive Method := GET | POST.

(** What [fetch] is called with. *)
Record Request := mkRequest {
  req_method : Method;
  req_url : jsstring;
  req_headers : list (jsstring * jsstring);
  req_body : option jsstring
}.

(** What [fetch] resolves to: the status, and what reading the body gives. *)
Record Response := mkResponse {
  status : Z;
  text : result jsstring
}.

(** [res.ok]: the status is in the range 200-299. *)
Definition ok (r : Response) : bool :=
  ((200 <=? status r) && (status r <=? 299))%Z.

(** The network: [fetch] rejects, or resolves to a response. *)
Inductive Outcome :=
| Rejected (e : JsError)
| Responded (r : Response).

(** The effects of a script outside the nodes it renders into. *)
Inductive Event :=
| EvFetch (r : Request)
| EvAlert (msg : jsstring)
| EvDebug (args : list JsValue)
| EvError (e : JsError)
| EvUnhandled (e : JsError).

(** The world of a script: its nodes, and its effects oldest first. *)
Record World (D : Type) := mkWorld {
  dom : D;
  events : list Event
}.
Arguments mkWorld {D} dom events.
Arguments dom {D} w.
Arguments events {D} w.

Section Effects.

Context {D : Type}.

(** A computation: from a world to its outcome and the world it leaves.
    A throw keeps the effects done before it. *)
Definition M (A : Type) : Type := World D -> result A * World D.

Definition ret {A} (a : A) : M A := fun w => (Ok a, w).

Definition bind {A B} (m : M A) (k : A -> M B) : M B :=
  fun w =>
    match m w with
    | (Ok a, w') => k a w'
    | (Throw e, w') => (Throw e, w')
    end.

Definition throw {A} (e : JsError) : M A := fun w => (Throw e, w).

Definition lift {A} (r : result A) : M A := fun w => (r, w).

(** [try { body } catch (e) { handler }] *)
Definition try_catch {A} (body : M A) (handler : JsError -> M A) : M A :=
  fun w =>
    match body w with
    | (Ok a, w') => (Ok a, w')
    | (Throw e, w') => handler e w'
    end.

Definition emit (ev : Event) : M unit :=
  fun w => (Ok tt, mkWorld (dom w) (events w ++ [ev])).

Definition get_dom : M D := fun w => (Ok (dom w), w).

Definition update (f : D -> D) : M unit :=
  fun w => (Ok tt, mkWorld (f (dom w)) (events w)).

(** [alert(msg)] *)
Definition alert (msg : jsstring) : M unit := emit (EvAlert msg).

(** [await fetch(...)]: the request leaves, and the network answers. *)
Definition fetch (net : Request -> Outcome) (req : Request) : M Response :=
  bind (emit (EvFetch req))
       (fun _ => match net req with
                 | Rejected e => throw e
                 | Responded r => ret r
                 end).

(** A call of an async function that is not awaited: its effects happen,
    and a rejection is left unhandled. *)
Definition spawn (m : M unit) : M unit :=
  try_catch m (fun e => emit (EvUnhandled e)).

(** [items.forEach(f)] *)
Fixpoint for_each {A} (f : A -> M unit) (items : list A) : M unit :=
  match items with
  | [] => ret tt
  | x :: rest => bind (f x) (fun _ => for_each f rest)
  end.

End Effects.

Arguments M D A : clear implicits.

Declare Scope js_scope.
Delimit Scope js_scope with js.
Notation "x <- m ;; k" := (bind m (fun x => k))
  (at level 61, m at next level, right associativity) : js_scope.
Notation "m ;; k" := (bind m (fun _ => k))
  (at level 61, right associativity) : js_scope.
Local Open Scope js_scope.

(** ** What both scripts share: the cells of a table, reading JSON *)

Section Cells.

Variable host : Host.

(** [c => `<th>${c}</th>`] *)
Definition th (c : jsstring) : jsstring := lit "<th>" ++ c ++ lit "</th>".

(** [c => `<td>${r[c] ?? ""}</td>`] *)
Definition td (r : JsValue) (c : jsstring) : result jsstring :=
  rbind (get_prop host r c) (fun v =>
  rbind (ToString host (nullish_or v (JStr []))) (fun s =>
  Ok (lit "<td>" ++ s ++ lit "</td>"))).

(** ["<tr>" + cols.map(...).join("") + "</tr>"], the header row *)
Definition header_row (cols : list jsstring) : jsstring :=
  lit "<tr>" ++ join [] (map th cols) ++ lit "</tr>".

(** [cols.map(c => ...).join("")], the markup of a body row *)
Definition row_cells (cols : list jsstring) (r : JsValue) : result jsstring :=
  rbind (collect (map (td r) cols)) (fun cells => Ok (join [] cells)).

(** The [tr] element made for a row. *)
Definition tr (cols : list jsstring) (r : JsValue) : result Node :=
  rbind (row_cells cols r) (fun cells =>
  Ok (Element (lit "tr") (innerHTML cells))).

(** [await res.json()] *)
Definition json (res : Response) : result JsValue :=
  rbind (text res) (JSON_parse host).

End Cells.

(** ** src/frontend/app.js *)

Module App.

(** The nodes of the page the script reads and writes: the value of the
    input [#q], the text of [#meta], the content of the head and of the body
    of the table [#tbl]. *)
Record Dom := mkDom {
  q_value : jsstring;
  meta : jsstring;
  thead : list Node;
  tbody : list Node
}.

Definition set_meta (s : jsstring) (d : Dom) : Dom :=
  mkDom (q_value d) s (thead d) (tbody d).
Definition set_thead (c : list Node) (d : Dom) : Dom :=
  mkDom (q_value d) (meta d) c (tbody d).
Definition set_tbody (c : list Node) (d : Dom) : Dom :=
  mkDom (q_value d) (meta d) (thead d) c.
(** [tbody.appendChild(n)] *)
Definition append_tbody (n : Node) (d : Dom) : Dom :=
  mkDom (q_value d) (meta d) (thead d) (tbody d ++ [n]).

Section Script.

Variable host : Host.
Variable net : Request -> Outcome.

(** [const API = ""] *)
Definition API : jsstring := lit "".

(** [function render(rows)], lines 3-15 *)
Definition render (rows : JsValue) : M Dom unit :=
  update (set_thead (innerHTML (lit ""))) ;;
  update (set_tbody (innerHTML (lit ""))) ;;
  len <- lift (get_prop host rows (lit "length")) ;;
  if negb (truthy len) then
    update (set_thead (innerHTML (lit "<tr><th>No data</th></tr>")))
  else
    first <- lift (get_prop host rows (lit "0")) ;;
    cols <- lift (Object_keys host first) ;;
    update (set_thead (innerHTML (header_row cols))) ;;
    match rows with
    | JArr items =>
      for_each (fun r => el <- lift (tr host cols r) ;;
                         update (append_tbody el))
               items
    | _ => lift (fault host (NotAFunction rows (lit "rows.forEach")))
    end.

(** [`${API}/courses?limit=100`] *)
Definition courses_url : jsstring := API ++ lit "/courses?limit=100".

(** [`${API}/search?q=${encodeURIComponent(q)}&limit=100`] *)
Definition search_url (enc : jsstring) : jsstring :=
  API ++ lit "/search?q=" ++ enc ++ lit "&limit=100".

(** [async function loadAll()], lines 17-22 *)
Definition loadAll : M Dom unit :=
  res <- fetch net (mkRequest GET courses_url [] None) ;;
  data <- lift (json host res) ;;
  len <- lift (get_prop host data (lit "length")) ;;
  n <- lift (ToString host len) ;;
  update (set_meta (lit "표시: " ++ n ++ lit "건")) ;;
  render data.

(** [async function doSearch()], lines 24-31 *)
Definition doSearch : M Dom unit :=
  d <- get_dom ;;
  let q := trim (q_value d) in
  if negb (truthy (JStr q)) then spawn loadAll
  else
    enc <- lift (encodeURIComponent host q) ;;
    res <- fetch net (mkRequest GET (search_url enc) [] None) ;;
    data <- lift (json host res) ;;
    total <- lift (get_prop host data (lit "total")) ;;
    n <- lift (ToString host total) ;;
    update (set_meta (lit "검색결과: " ++ n ++ lit "건")) ;;
    results <- lift (get_prop host data (lit "results")) ;;
    render results.

End Script.

End App.

(** ** The page script with the API helpers and the three buttons *)

Module Main.

(** The nodes of the page the script reads and writes: the values of the
    form controls, the text of [coursesInfo], and the content of
    [coursesWrap], [summary] and [assignmentsWrap]. *)
Record Dom := mkDom {
  q_value : jsstring;
  days_value : jsstring;
  blocks_value : jsstring;
  minutes_value : jsstring;
  noFri_checked : bool;
  prefMorning_checked : bool;
  prefCompact_checked : bool;
  weight_value : jsstring;
  reqKo_value : jsstring;
  coursesInfo : jsstring;
  coursesWrap : list Node;
  summary : list Node;
  assignmentsWrap : list Node
}.

Definition set_coursesInfo (s : jsstring) (d : Dom) : Dom :=
  mkDom (q_value d) (days_value d) (blocks_value d) (minutes_value d)
        (noFri_checked d) (prefMorning_checked d) (prefCompact_checked d)
        (weight_value d) (reqKo_value d)
        s (coursesWrap d) (summary d) (assignmentsWrap d).
Definition set_coursesWrap (c : list Node) (d : Dom) : Dom :=
  mkDom (q_value d) (days_value d) (blocks_value d) (minutes_value d)
        (noFri_checked d) (prefMorning_checked d) (prefCompact_checked d)
        (weight_value d) (reqKo_value d)
        (coursesInfo d) c (summary d) (assignmentsWrap d).
Definition set_summary (c : list Node) (d : Dom) : Dom :=
  mkDom (q_value d) (days_value d) (blocks_value d) (minutes_value d)
        (noFri_checked d) (prefMorning_checked d) (prefCompact_checked d)
        (weight_value d) (reqKo_value d)
        (coursesInfo d) (coursesWrap d) c (assignmentsWrap d).
Definition set_assignmentsWrap (c : list Node) (d : Dom) : Dom :=
  mkDom (q_value d) (days_value d) (blocks_value d) (minutes_value d)
        (noFri_checked d) (prefMorning_checked d) (prefCompact_checked d)
        (weight_value d) (reqKo_value d)
        (coursesInfo d) (coursesWrap d) (summary d) c.

(** [obj.k = v] on an object literal under construction *)
Fixpoint set_props (k : jsstring) (v : JsValue)
  (props : list (jsstring * JsValue)) : list (jsstring * JsValue) :=
  match props with
  | [] => [(k, v)]
  | (k', v') :: rest =>
    if str_eqb k k' then (k, v) :: rest else (k', v') :: set_props k v rest
  end.

Definition set_prop (o : JsValue) (k : jsstring) (v : JsValue) : JsValue :=
  match o with
  | JObj props => JObj (set_props k v props)
  | _ => o
  end.

Section Script.

Variable host : Host.
Variable net : Request -> Outcome.

(** [const BASE = location.origin] *)
Variable BASE : jsstring.

(** [async function apiGet(path)], lines 24-34 *)
Definition apiGet (path : jsstring) : M Dom JsValue :=
  let url := URL_href host path BASE in
  emit (EvDebug [JStr (lit "GET"); JStr url]) ;;
  res <- fetch net (mkRequest GET url [] None) ;;
  txt <- lift (text res) ;;
  (if negb (ok res) then
     try_catch
       (j <- lift (JSON_parse host txt) ;;
        detail <- lift (get_prop host j (lit "detail")) ;;
        msg <- (if truthy detail then ret detail
                else message <- lift (get_prop host j (lit "message")) ;;
                     ret (js_or message (JStr txt))) ;;
        m <- lift (ToString host msg) ;;
        throw (Error m))
       (fun _ => throw (Error txt))
   else ret tt) ;;
  lift (JSON_parse host txt).

(** [async function apiPost(path, body)], lines 36-50 *)
Definition apiPost (path : jsstring) (body : JsValue) : M Dom JsValue :=
  let url := URL_href host path BASE in
  emit (EvDebug [JStr (lit "POST"); JStr url; body]) ;;
  res <- fetch net (mkRequest POST url
             [(lit "Content-Type", lit "application/json")]
             (Some (JSON_stringify host body))) ;;
  txt <- lift (text res) ;;
  (if negb (ok res) then
     try_catch
       (j <- lift (JSON_parse host txt) ;;
        detail <- lift (get_prop host j (lit "detail")) ;;
        msg <- (if truthy detail then ret detail
                else message <- lift (get_prop host j (lit "message")) ;;
                     ret (js_or message (JStr txt))) ;;
        m <- lift (ToString host msg) ;;
        throw (Error m))
       (fun _ => throw (Error txt))
   else ret tt) ;;
  lift (JSON_parse host txt).

(** The default of a parameter declared [= null]: it replaces an argument
    that is missing or [undefined]. *)
Definition or_null (v : JsValue) : JsValue :=
  match v with
  | JUndefined => JNull
  | _ => v
  end.

(** [total == null ? `총 ${list.length}건` : `검색 결과 ${total}건`],
    line 55 *)
Definition courses_info (list total : JsValue) : result jsstring :=
  if nullish total then
    rbind (get_prop host list (lit "length")) (fun len =>
    rbind (ToString host len) (fun n =>
    Ok (lit "총 " ++ n ++ lit "건")))
  else
    rbind (ToString host total) (fun n =>
    Ok (lit "검색 결과 " ++ n ++ lit "건")).

(** [function renderCourses(list, total = null)], lines 53-77 *)
Definition renderCourses (list total : JsValue) : M Dom unit :=
  let total := or_null total in
  update (set_coursesWrap (innerHTML (lit ""))) ;;
  info <- lift (courses_info list total) ;;
  update (set_coursesInfo info) ;;
  len <- lift (get_prop host list (lit "length")) ;;
  if negb (truthy len) then
    update (set_coursesWrap
              (innerHTML (litq "<div class='muted'>결과 없음</div>")))
  else
    first <- lift (get_prop host list (lit "0")) ;;
    cols <- lift (Object_keys host (js_or first (JObj []))) ;;
    let thead := Element (lit "thead") (innerHTML (header_row cols)) in
    rows <- lift (match list with
                  | JArr items => collect (map (tr host cols) items)
                  | _ => fault host (NotAFunction list (lit "list.forEach"))
                  end) ;;
    let tbody := Element (lit "tbody") rows in
    let table := Element (lit "table") [thead; tbody] in
    update (fun d => set_coursesWrap (coursesWrap d ++ [table]) d).

(** The row of one assignment, lines 91-98 *)
Definition assignment_row (a : JsValue) : result jsstring :=
  rbind (get_prop host a (lit "course_id")) (fun course_id =>
  rbind (ToString host course_id) (fun s1 =>
  rbind (get_prop host a (lit "session_index")) (fun session_index =>
  rbind (ToString host session_index) (fun s2 =>
  rbind (get_prop host a (lit "day")) (fun day =>
  rbind (ToString host day) (fun s3 =>
  rbind (get_prop host a (lit "block")) (fun block =>
  rbind (ToString host block) (fun s4 =>
  rbind (get_prop host a (lit "room_id")) (fun room_id =>
  rbind (ToString host room_id) (fun s5 =>
  Ok (lit "
        <tr>
          <td>" ++ s1 ++ lit "</td>
          <td>" ++ s2 ++ litq "</td>
          <td><span class='pill'>" ++ s3 ++ lit "</span></td>
          <td>" ++ s4 ++ lit "</td>
          <td>" ++ s5 ++ lit "</td>
        </tr>"))))))))))).

(** [function renderAssignments(assignments)], lines 79-101 *)
Definition renderAssignments (assignments : JsValue) : M Dom unit :=
  update (set_assignmentsWrap (innerHTML (lit ""))) ;;
  empty <- (if negb (truthy assignments) then ret true
            else len <- lift (get_prop host assignments (lit "length")) ;;
                 ret (negb (truthy len))) ;;
  if (empty : bool) then
    update (set_assignmentsWrap
              (innerHTML
                 (litq "<div class='muted'>배정 결과가 없습니다.</div>")))
  else
    rows <- lift (match assignments with
                  | JArr items => collect (map assignment_row items)
                  | _ => fault host (NotAFunction assignments (lit "assignments.map"))
                  end) ;;
    let table := Element (lit "table") (innerHTML (lit "
    <thead>
      <tr><th>course_id</th><th>session</th><th>day</th><th>block</th><th>room</th></tr>
    </thead>
    <tbody>
      " ++ join (lit "") rows ++ lit "
    </tbody>")) in
    update (fun d => set_assignmentsWrap (assignmentsWrap d ++ [table]) d).

(** [s => s.trim()] over [days.value.split(",")], then [filter(Boolean)] *)
Definition grid_days (days : jsstring) : list jsstring :=
  filter (fun s => truthy (JStr s)) (map trim (split 44 days)).

(** The payload the schedule button builds, lines 128-141 *)
Definition schedule_payload (d : Dom) : result JsValue :=
  let payload := JObj [] in
  let reqText := trim (match js_or (JStr (reqKo_value d)) (JStr (lit "")) with
                       | JStr s => s
                       | _ => []
                       end) in
  if truthy (JStr reqText) then
    Ok (set_prop payload (lit "requirements_ko") (JStr reqText))
  else
    let payload :=
      set_prop payload (lit "grid_days")
               (JArr (map JStr (grid_days (days_value d)))) in
    rbind (ToNumber host (js_or (JStr (blocks_value d)) (JNum (Int 8))))
    (fun blocks =>
    let payload := set_prop payload (lit "blocks_per_day") (JNum blocks) in
    rbind (ToNumber host (js_or (JStr (minutes_value d)) (JNum (Int 50))))
    (fun minutes =>
    let payload := set_prop payload (lit "block_minutes") (JNum minutes) in
    let payload :=
      set_prop payload (lit "hard_no_friday_evening")
               (JBool (negb (negb (noFri_checked d)))) in
    let payload :=
      set_prop payload (lit "soft_prefer_morning")
               (JBool (negb (negb (prefMorning_checked d)))) in
    let payload :=
      set_prop payload (lit "soft_prefer_compact_days")
               (JBool (negb (negb (prefCompact_checked d)))) in
    rbind (ToNumber host (js_or (JStr (weight_value d)) (JNum (Int 1))))
    (fun weight =>
    Ok (set_prop payload (lit "soft_weight") (JNum weight))))).

(** [x ?? "?"] in the summary line *)
Definition or_unknown (v : JsValue) : result jsstring :=
  ToString host (nullish_or v (JStr (lit "?"))).

(** The markup of the summary, lines 145-150 *)
Definition summary_markup (res : JsValue) : result jsstring :=
  rbind (get_prop host res (lit "summary")) (fun summary =>
  let s := js_or summary (JObj []) in
  rbind (get_prop host s (lit "courses")) (fun courses =>
  rbind (or_unknown courses) (fun s1 =>
  rbind (get_prop host s (lit "rooms")) (fun rooms =>
  rbind (or_unknown rooms) (fun s2 =>
  rbind (get_prop host s (lit "instructors")) (fun instructors =>
  rbind (or_unknown instructors) (fun s3 =>
  rbind (get_prop host s (lit "days")) (fun days =>
  rbind (match days with
         | JArr items => array_join host (lit ",") items
         | _ => Ok (lit "")
         end) (fun s4 =>
  rbind (get_prop host s (lit "blocks_per_day")) (fun blocks_per_day =>
  rbind (or_unknown blocks_per_day) (fun s5 =>
  Ok (litq "
      <div class='muted'>
        과목 " ++ s1 ++ lit "개 · 방 " ++ s2 ++ lit "개 · 강사 " ++ s3 ++ lit "명 ·
        " ++ s4 ++ lit " / 일일 " ++ s5 ++ lit "교시
      </div>")))))))))))).

(** [res.solution?.assignments || []] *)
Definition solution_assignments (res : JsValue) : result JsValue :=
  rbind (get_prop host res (lit "solution")) (fun solution =>
  rbind (if nullish solution then Ok JUndefined
         else get_prop host solution (lit "assignments")) (fun assignments =>
  Ok (js_or assignments (JArr [])))).

(** The paths of the three requests. *)
Definition courses_path : jsstring := lit "/courses?limit=100&offset=0".
Definition search_path (enc : jsstring) : jsstring :=
  lit "/search?q=" ++ enc ++ lit "&limit=100&offset=0".
Definition schedule_path : jsstring := lit "/schedule".

(** The click handler of [btnAll], lines 104-112 *)
Definition btnAll_click : M Dom unit :=
  try_catch
    (data <- apiGet courses_path ;;
     renderCourses data JUndefined)
    (fun e =>
       emit (EvError e) ;;
       alert (lit "불러오기 실패: " ++ err_message e)).

(** The click handler of [btnSearch], lines 114-124 *)
Definition btnSearch_click : M Dom unit :=
  d <- get_dom ;;
  let kw := trim (match js_or (JStr (q_value d)) (JStr (lit "")) with
                  | JStr s => s
                  | _ => []
                  end) in
  if negb (truthy (JStr kw)) then alert (lit "키워드를 입력하세요.")
  else
    try_catch
      (enc <- lift (encodeURIComponent host kw) ;;
       data <- apiGet (search_path enc) ;;
       results <- lift (get_prop host data (lit "results")) ;;
       total <- lift (get_prop host data (lit "total")) ;;
       renderCourses results total)
      (fun e =>
         emit (EvError e) ;;
         alert (lit "검색 실패: " ++ err_message e)).

(** The click handler of [btnSchedule], lines 126-157 *)
Definition btnSchedule_click : M Dom unit :=
  try_catch
    (d <- get_dom ;;
     payload <- lift (schedule_payload d) ;;
     res <- apiPost schedule_path payload ;;
     markup <- lift (summary_markup res) ;;
     update (set_summary (innerHTML markup)) ;;
     assignments <- lift (solution_assignments res) ;;
     renderAssignments assignments)
    (fun e =>
       emit (EvError e) ;;
       alert (lit "배정 실패: " ++ err_message e)).

End Script.

End Main.

(** ** A host for the concrete runs

    The runs below need one browser to run in.  [Ref.host] implements the
    built-ins on the fragment the runs use: JSON without fractions and
    exponents, numbers that are integers below 10^21, request paths the URL
    constructor leaves as they are, the members of [Object.prototype], and
    the engine messages as V8 words them. *)

Module Ref.

Definition syntax_error : JsError :=
  mkError (lit "SyntaxError") (lit "Unexpected token in JSON").

Definition json_ws (c : N) : bool :=
  (c =? 32) || (c =? 9) || (c =? 10) || (c =? 13).

Fixpoint skip_ws (s : jsstring) : jsstring :=
  match s with
  | c :: s' => if json_ws c then skip_ws s' else s
  | [] => []
  end.

Definition hex_value (c : N) : option N :=
  if (48 <=? c) && (c <=? 57) then Some (c - 48)
  else if (65 <=? c) && (c <=? 70) then Some (c - 55)
  else if (97 <=? c) && (c <=? 102) then Some (c - 87)
  else None.

(** The characters of a string literal up to its closing quote. *)
Fixpoint parse_chars (acc : jsstring) (s : jsstring)
  : option (jsstring * jsstring) :=
  match s with
  | [] => None
  | 34 :: rest => Some (rev acc, rest)
  | 92 :: 117 :: a :: b :: c :: d :: rest =>
    match hex_value a, hex_value b, hex_value c, hex_value d with
    | Some x, Some y, Some z, Some t =>
      parse_chars ((x * 4096 + y * 256 + z * 16 + t) :: acc) rest
    | _, _, _, _ => None
    end
  | 92 :: e :: rest =>
    match e with
    | 34 | 92 | 47 => parse_chars (e :: acc) rest
    | 98 => parse_chars (8 :: acc) rest
    | 102 => parse_chars (12 :: acc) rest
    | 110 => parse_chars (10 :: acc) rest
    | 114 => parse_chars (13 :: acc) rest
    | 116 => parse_chars (9 :: acc) rest
    | _ => None
    end
  | c :: rest => if c <? 32 then None else parse_chars (c :: acc) rest
  end.

Fixpoint parse_digits (acc : Z) (s : jsstring) : Z * jsstring :=
  match s with
  | c :: rest =>
    if (48 <=? c) && (c <=? 57)
    then parse_digits (acc * 10 + Z.of_N (c - 48))%Z rest
    else (acc, s)
  | [] => (acc, [])
  end.

Definition is_digit (c : N) : bool := (48 <=? c) && (c <=? 57).

(** An integer literal: no leading zero, no fraction, no exponent. *)
Definition parse_int (neg : bool) (s : jsstring)
  : option (JsValue * jsstring) :=
  match s with
  | 48 :: d :: _ => if is_digit d then None
                    else Some (JNum (if neg then Flt (-0)%float else Int 0),
                               tl s)
  | c :: _ =>
    if is_digit c then
      let (z, rest) := parse_digits 0 s in
      match rest with
      | 46 :: _ | 101 :: _ | 69 :: _ => None
      | _ => Some (JNum (Int (if neg then - z else z)), rest)
      end
    else None
  | [] => None
  end.

(** The property [k] defined on an object under construction: an index
    goes among the indices in ascending order, any other name at the end,
    and a name already there keeps its place. *)
Fixpoint define (k : jsstring) (v : JsValue)
  (props : list (jsstring * JsValue)) : list (jsstring * JsValue) :=
  match props with
  | [] => [(k, v)]
  | (k', v') :: rest =>
    if str_eqb k k' then (k, v) :: rest
    else
      match to_index k, to_index k' with
      | Some i, Some j =>
        if (i <? j)%nat then (k, v) :: props
        else (k', v') :: define k v rest
      | Some _, None => (k, v) :: props
      | None, _ => (k', v') :: define k v rest
      end
  end.

Fixpoint drop_prefix (p s : jsstring) : option jsstring :=
  match p, s with
  | [], _ => Some s
  | a :: p', b :: s' => if a =? b then drop_prefix p' s' else None
  | _ :: _, [] => None
  end.

(** A JSON value at the head of [s], and what follows it. *)
Fixpoint parse_value (fuel : nat) (s : jsstring)
  : option (JsValue * jsstring) :=
  match fuel with
  | O => None
  | S fuel' =>
    match skip_ws s with
    | 110 :: _ =>
      option_map (fun r => (JNull, r)) (drop_prefix (lit "null") (skip_ws s))
    | 116 :: _ =>
      option_map (fun r => (JBool true, r))
                 (drop_prefix (lit "true") (skip_ws s))
    | 102 :: _ =>
      option_map (fun r => (JBool false, r))
                 (drop_prefix (lit "false") (skip_ws s))
    | 34 :: rest =>
      option_map (fun p => (JStr (fst p), snd p)) (parse_chars [] rest)
    | 45 :: rest => parse_int true rest
    | 91 :: rest =>
      match skip_ws rest with
      | 93 :: rest' => Some (JArr [], rest')
      | _ => parse_items fuel' [] rest
      end
    | 123 :: rest =>
      match skip_ws rest with
      | 125 :: rest' => Some (JObj [], rest')
      | _ => parse_members fuel' [] rest
      end
    | _ => parse_int false (skip_ws s)
    end
  end
with parse_items (fuel : nat) (acc : list JsValue) (s : jsstring)
  : option (JsValue * jsstring) :=
  match fuel with
  | O => None
  | S fuel' =>
    match parse_value fuel' s with
    | Some (v, rest) =>
      match skip_ws rest with
      | 44 :: rest' => parse_items fuel' (v :: acc) rest'
      | 93 :: rest' => Some (JArr (rev (v :: acc)), rest')
      | _ => None
      end
    | None => None
    end
  end
with parse_members (fuel : nat) (acc : list (jsstring * JsValue))
  (s : jsstring) : option (JsValue * jsstring) :=
  match fuel with
  | O => None
  | S fuel' =>
    match skip_ws s with
    | 34 :: rest =>
      match parse_chars [] rest with
      | Some (k, rest1) =>
        match skip_ws rest1 with
        | 58 :: rest2 =>
          match parse_value fuel' rest2 with
          | Some (v, rest3) =>
            match skip_ws rest3 with
            | 44 :: rest4 => parse_members fuel' (define k v acc) rest4
            | 125 :: rest4 => Some (JObj (define k v acc), rest4)
            | _ => None
            end
          | None => None
          end
        | _ => None
        end
      | None => None
      end
    | _ => None
    end
  end.

Definition JSON_parse (s : jsstring) : result JsValue :=
  match parse_value (S (length s)) s with
  | Some (v, rest) =>
    match skip_ws rest with
    | [] => Ok v
    | _ => Throw syntax_error
    end
  | None => Throw syntax_error
  end.

(** The decimal numeral of a natural number. *)
Definition decimal (z : Z) : jsstring := of_uint (N.to_uint (Z.to_N z)).

(** The digits of [r / d] after the point, [r < d], zeros at the end
    left out. *)
Fixpoint fraction (fuel : nat) (r d : Z) : jsstring :=
  match fuel with
  | O => []
  | S fuel' =>
    if (r =? 0)%Z then []
    else digit (Z.to_N (r * 10 / d)) :: fraction fuel' ((r * 10) mod d) d
  end.

(** Number::toString, exact on the integers below 10^21 and on the fractions
    whose shortest numeral is their full expansion. *)
Definition Number_toString (x : JsNumber) : jsstring :=
  match x with
  | Int z => (if (z <? 0)%Z then lit "-" else []) ++ decimal (Z.abs z)
  | Flt x =>
    match Prim2SF x with
    | S754_nan => lit "NaN"
    | S754_infinity false => lit "Infinity"
    | S754_infinity true => lit "-Infinity"
    | S754_zero _ => lit "0"
    | S754_finite neg m e =>
      (if neg then lit "-" else []) ++
      (if (0 <=? e)%Z then decimal (Z.pos m * 2 ^ e)
       else
         let d := (2 ^ (- e))%Z in
         decimal (Z.pos m / d) ++
         (if (Z.pos m mod d =? 0)%Z then []
          else lit "." ++ fraction (Z.to_nat (- e)) (Z.pos m mod d) d))
    end
  end.

(** StringToNumber on decimal integers: blank is 0, anything else NaN. *)
Definition StringToNumber (s : jsstring) : JsNumber :=
  match trim s with
  | [] => Int 0
  | 45 :: t =>
    match t, parse_digits 0 t with
    | _ :: _, (z, []) => Int (- z)
    | _, _ => Flt nan
    end
  | t =>
    match parse_digits 0 t with
    | (z, []) => Int z
    | _ => Flt nan
    end
  end.

Definition hex_lower (n : N) : N := if n <? 10 then 48 + n else 87 + n.

(** A backslash, [u] and four hexadecimal digits. *)
Definition unicode_escape (c : N) : jsstring :=
  [92; 117; hex_lower (c / 4096); hex_lower ((c / 256) mod 16);
   hex_lower ((c / 16) mod 16); hex_lower (c mod 16)].

(** The characters of a quoted JSON string: a backslash before a quote and
    a backslash, the short escapes of the control characters. *)
Fixpoint quote_chars (s : jsstring) : jsstring :=
  match s with
  | [] => []
  | c :: rest =>
    if (c =? 34) || (c =? 92) then 92 :: c :: quote_chars rest
    else if c =? 8 then 92 :: 98 :: quote_chars rest
    else if c =? 12 then 92 :: 102 :: quote_chars rest
    else if c =? 10 then 92 :: 110 :: quote_chars rest
    else if c =? 13 then 92 :: 114 :: quote_chars rest
    else if c =? 9 then 92 :: 116 :: quote_chars rest
    else if c <? 32 then unicode_escape c ++ quote_chars rest
    else if high_surrogate c then
      match rest with
      | d :: rest' =>
        if low_surrogate d then c :: d :: quote_chars rest'
        else unicode_escape c ++ quote_chars rest
      | [] => unicode_escape c
      end
    else if low_surrogate c then unicode_escape c ++ quote_chars rest
    else c :: quote_chars rest
  end.

Definition quote (s : jsstring) : jsstring := [34] ++ quote_chars s ++ [34].

Fixpoint somes {A} (l : list (option A)) : list A :=
  match l with
  | [] => []
  | Some a :: rest => a :: somes rest
  | None :: rest => somes rest
  end.

(** [JSON.stringify(v)]; the empty text where JSON.stringify gives
    [undefined]. *)
Fixpoint JSON_stringify (v : JsValue) : jsstring :=
  match v with
  | JUndefined | JNative _ => []
  | JNull => lit "null"
  | JBool true => lit "true"
  | JBool false => lit "false"
  | JNum (Flt x) =>
    if PrimFloat.is_finite x then Number_toString (Flt x) else lit "null"
  | JNum x => Number_toString x
  | JStr s => quote s
  | JArr items =>
    lit "[" ++
    join (lit ",")
         (map (fun x => match x with
                        | JUndefined | JNative _ => lit "null"
                        | _ => JSON_stringify x
                        end) items)
    ++ lit "]"
  | JObj props =>
    lit "{" ++
    join (lit ",")
         (somes (map (fun kv =>
                        match kv with
                        | (k, JUndefined) | (k, JNative _) => None
                        | (k, x) => Some (quote k ++ lit ":" ++ JSON_stringify x)
                        end) props))
    ++ lit "}"
  end.

(** [new URL(path, base).href] for a path that starts with a slash and
    holds no character the URL parser escapes. *)
Definition URL_href (path base : jsstring) : jsstring := base ++ path.

(** The function members of [Object.prototype]. *)
Definition object_functions : list jsstring :=
  [lit "hasOwnProperty"; lit "isPrototypeOf"; lit "propertyIsEnumerable";
   lit "toLocaleString"; lit "toString"; lit "valueOf";
   lit "__defineGetter__"; lit "__defineSetter__";
   lit "__lookupGetter__"; lit "__lookupSetter__"].

(** The constructor of a value. *)
Definition class_name (v : JsValue) : jsstring :=
  match v with
  | JArr _ => lit "Array"
  | JStr _ => lit "String"
  | JNum _ => lit "Number"
  | JBool _ => lit "Boolean"
  | JNative _ => lit "Function"
  | _ => lit "Object"
  end.

(** What a value inherits from [Object.prototype]; the members of the more
    specific prototypes (of arrays, strings, ...) are not listed. *)
Definition inherited (v : JsValue) (k : jsstring) : option jsstring :=
  if existsb (str_eqb k) object_functions then Some k
  else if str_eqb k (lit "constructor") then Some (class_name v)
  else if str_eqb k (lit "__proto__")
       then Some (class_name v ++ lit ".prototype")
  else None.

(** The text of a built-in: a prototype object converts as the object it
    is, a function to its native source text. *)
Definition native_text (id : jsstring) : jsstring :=
  if str_eqb id (lit "Object.prototype") then lit "[object Object]"
  else if str_eqb id (lit "Array.prototype") then lit ""
  else if str_eqb id (lit "String.prototype") then lit ""
  else if str_eqb id (lit "Number.prototype") then lit "0"
  else if str_eqb id (lit "Boolean.prototype") then lit "false"
  else if str_eqb id (lit "Function.prototype")
       then lit "function () { [native code] }"
  else lit "function " ++ id ++ lit "() { [native code] }".

Definition nullish_text (v : JsValue) : jsstring :=
  match v with
  | JNull => lit "null"
  | _ => lit "undefined"
  end.

Definition fault_message (f : Fault) : jsstring :=
  match f with
  | ReadOfNullish v key =>
    lit "Cannot read properties of " ++ nullish_text v
    ++ lit " (reading '" ++ key ++ lit "')"
  | KeysOfNullish _ => lit "Cannot convert undefined or null to object"
  | NotAFunction _ callee => callee ++ lit " is not a function"
  | NotPrimitive => lit "Cannot convert object to primitive value"
  | MalformedURI => lit "URI malformed"
  end.

Definition host : Host :=
  Build_Host JSON_parse JSON_stringify Number_toString StringToNumber
             URL_href inherited native_text fault_message.

End Ref.

(** ** What the claims speak of *)

(** The requests among the effects, oldest first. *)
Fixpoint fetches (evs : list Event) : list Request :=
  match evs with
  | [] => []
  | EvFetch r :: rest => r :: fetches rest
  | _ :: rest => fetches rest
  end.

(** The alerts among the effects, oldest first. *)
Fixpoint alerts (evs : list Event) : list jsstring :=
  match evs with
  | [] => []
  | EvAlert msg :: rest => msg :: alerts rest
  | _ :: rest => alerts rest
  end.

(** The requests a computation adds to those of the world it starts in. *)
Definition sends {D A} (m : M D A) (w : World D) (reqs : list Request)
  : Prop :=
  fetches (events (snd (m w))) = fetches (events w) ++ reqs.

(** A computation that sends nothing. *)
Definition quiet {D A} (m : M D A) : Prop := forall w, sends m w [].

(** [s] cut at the first [sep]: what is before, and what is after. *)
Fixpoint cut (sep : N) (s : jsstring) : jsstring * option jsstring :=
  match s with
  | [] => ([], None)
  | c :: rest =>
    if c =? sep then ([], Some rest)
    else let (a, b) := cut sep rest in (c :: a, b)
  end.

(** The parameters of the query of a URL: what follows the first [?], cut
    at each [&], each piece cut at its first [=]. *)
Definition query_params (url : jsstring) : list (jsstring * jsstring) :=
  match snd (cut 63 url) with
  | None => []
  | Some query =>
    map (fun piece =>
           let (name, value) := cut 61 piece in
           (name, match value with Some v => v | None => [] end))
        (split 38 query)
  end.

Definition has_param (name : jsstring) (url : jsstring) : bool :=
  existsb (fun p => str_eqb (fst p) name) (query_params url).

(** A row object: a JSON object whose values convert to strings, as the
    cells of a table row have to. *)
Definition row_object (host : Host) (v : JsValue) : Prop :=
  exists props,
    v = JObj props /\
    Forall (fun kv => exists s, ToString host (snd kv) = Ok s) props.

(** A string of whitespace only; the empty string is one. *)
Definition blank (s : jsstring) : bool := forallb is_ws s.

(** The ways a request fails for the page script: the network rejects it,
    the body cannot be read, the status is outside 200-299, or the body of
    a 2xx response is not JSON.  The second argument is the error the
    failure is reported with. *)
Inductive fails (host : Host) : Outcome -> JsError -> Prop :=
| network_error e :
    fails host (Rejected e) e
| unreadable_body res e :
    text res = Throw e ->
    fails host (Responded res) e
| bad_status res txt :
    ok res = false -> text res = Ok txt ->
    fails host (Responded res) (Error txt)
| malformed_json res txt e :
    ok res = true -> text res = Ok txt -> JSON_parse host txt = Throw e ->
    fails host (Responded res) e.

(** What a call of [apiGet] or [apiPost] comes to, by the outcome of its
    request. *)
Definition api_result (host : Host) (o : Outcome) : result JsValue :=
  match o with
  | Rejected e => Throw e
  | Responded res =>
    rbind (text res) (fun txt =>
    if ok res then JSON_parse host txt else Throw (Error txt))
  end.

(** The request of [apiGet(path)] and of [apiPost(path, body)]. *)
Definition get_request (host : Host) (BASE path : jsstring) : Request :=
  mkRequest GET (URL_href host path BASE) [] None.

Definition post_request (host : Host) (BASE path : jsstring)
  (body : JsValue) : Request :=
  mkRequest POST (URL_href host path BASE)
            [(lit "Content-Type", lit "application/json")]
            (Some (JSON_stringify host body)).

(** The value of the cell of column [c] in row [r] is null or undefined. *)
Definition empty_valued (host : Host) (r : JsValue) (c : jsstring) : Prop :=
  exists v, get_prop host r c = Ok v /\ nullish v = true.

(** The keyword of a search and the free-text requirements of a schedule,
    as the handlers read them: the value of the control, trimmed. *)
Definition keyword (d : Main.Dom) : jsstring := trim (Main.q_value d).
Definition requirements (d : Main.Dom) : jsstring :=
  trim (Main.reqKo_value d).

(** [Number(value || fallback)] for the value of a form control. *)
Definition number_or (host : Host) (value : jsstring) (fallback : Z)
  : JsNumber :=
  match value with
  | [] => Int fallback
  | _ => StringToNumber host value
  end.

(** The two bodies of a schedule request. *)
Definition free_text_body (d : Main.Dom) : JsValue :=
  JObj [(lit "requirements_ko", JStr (requirements d))].

Definition structured_body (host : Host) (d : Main.Dom) : JsValue :=
  JObj [(lit "grid_days", JArr (map JStr (Main.grid_days (Main.days_value d))));
        (lit "blocks_per_day", JNum (number_or host (Main.blocks_value d) 8));
        (lit "block_minutes", JNum (number_or host (Main.minutes_value d) 50));
        (lit "hard_no_friday_evening", JBool (Main.noFri_checked d));
        (lit "soft_prefer_morning", JBool (Main.prefMorning_checked d));
        (lit "soft_prefer_compact_days", JBool (Main.prefCompact_checked d));
        (lit "soft_weight", JNum (number_or host (Main.weight_value d) 1))].

Definition schedule_body (host : Host) (d : Main.Dom) : JsValue :=
  match requirements d with
  | [] => structured_body host d
  | _ => free_text_body d
  end.

(** The two requests of app.js. *)
Definition app_courses_request : Request :=
  mkRequest GET App.courses_url [] None.
Definition app_search_request (enc : jsstring) : Request :=
  mkRequest GET (App.search_url enc) [] None.

(** The console line and the request a helper leaves behind. *)
Definition get_trace (host : Host) (BASE path : jsstring) : list Event :=
  [EvDebug [JStr (lit "GET"); JStr (URL_href host path BASE)];
   EvFetch (get_request host BASE path)].

Definition post_trace (host : Host) (BASE path : jsstring) (body : JsValue)
  : list Event :=
  [EvDebug [JStr (lit "POST"); JStr (URL_href host path BASE); body];
   EvFetch (post_request host BASE path body)].

(** What a [catch] of the page script adds: the console line and the
    alert, the handler's words followed by the message of the error. *)
Definition caught (prefix : jsstring) (e : JsError) : list Event :=
  [EvError e; EvAlert (prefix ++ err_message e)].


(** The header a table shows for the columns [keys]: one row holding one
    [th] per key, in the order of the keys, each with the key as its text. *)
Definition header_markup (keys : list jsstring) : jsstring :=
  lit "<tr>"
  ++ concat (map (fun k => lit "<th>" ++ k ++ lit "</th>") keys)
  ++ lit "</tr>".

(** The text of the cell of the item [r] under the key [k]: nothing when
    what [r] has there is null or undefined, else that value as a string. *)
Definition cell_text (host : Host) (r : JsValue) (k : jsstring)
  : result jsstring :=
  match get_prop host r k with
  | Ok v => if nullish v then Ok [] else ToString host v
  | Throw e => Throw e
  end.

(** The markup of a row whose cells hold [texts]: one [td] per text, in
    order. *)
Definition row_markup (texts : list jsstring) : jsstring :=
  concat (map (fun t => lit "<td>" ++ t ++ lit "</td>") texts).

(** [el] is the row of the item [r] in a table with the columns [keys]: a
    [tr] element with one cell per key, in the order of the keys, holding
    the text of [r] under that key. *)
Definition table_row (host : Host) (keys : list jsstring) (r : JsValue)
  (el : Node) : Prop :=
  exists texts,
    Forall2 (fun k t => cell_text host r k = Ok t) keys texts /\
    el = Element (lit "tr") (innerHTML (row_markup texts)).

(** The placeholders of the three renderers. *)
Definition no_data_row : jsstring := lit "<tr><th>No data</th></tr>".
Definition no_results : jsstring := litq "<div class='muted'>결과 없음</div>".
Definition no_assignments : jsstring :=
  litq "<div class='muted'>배정 결과가 없습니다.</div>".

(** ** Concrete inputs *)

Module Sample.

Definition origin : jsstring := lit "http://localhost:8000".

(** A page of the page script with an empty form. *)
Definition page : World Main.Dom :=
  mkWorld (Main.mkDom (lit "") (lit "") (lit "") (lit "") false false false
                      (lit "") (lit "") (lit "") [] [] [])
          [].

(** A page of app.js. *)
Definition app_page : World App.Dom :=
  mkWorld (App.mkDom (lit "") (lit "") [] []) [].

(** A 404 whose body is JSON with a [detail] field. *)
Definition not_found_body : jsstring := litq "{'detail':'Not found'}".

Definition not_found (_ : Request) : Outcome :=
  Responded (mkResponse 404 (Ok not_found_body)).

(** The server cannot be reached. *)
Definition unreachable_error : JsError :=
  mkError (lit "TypeError") (lit "Failed to fetch").

Definition unreachable (_ : Request) : Outcome := Rejected unreachable_error.

(** Two course rows; the second has a null room and no name. *)
Definition course1 : JsValue :=
  JObj [(lit "id", JNum (Int 1)); (lit "name", JStr (lit "AI"))].

Definition course2 : JsValue :=
  JObj [(lit "id", JNum (Int 2)); (lit "room", JNull)].

Definition courses : list JsValue := [course1; course2].

(** Two rows, the first with a column named as a member every object
    inherits, the second without it. *)
Definition inherited_name_rows : list JsValue :=
  [JObj [(lit "toString", JStr (lit "x"))]; JObj []].

(** The server lists the two courses. *)
Definition courses_body : jsstring :=
  litq "[{'id':1,'name':'AI'},{'id':2,'room':null}]".

Definition lists_courses (_ : Request) : Outcome :=
  Responded (mkResponse 200 (Ok courses_body)).

(** A schedule of one session. *)
Definition schedule_reply : jsstring :=
  litq "{'summary':{'courses':1,'rooms':1,'days':['Mon','Tue']},'solution':{'assignments':[{'course_id':'C1','session_index':0,'day':'Mon','block':1,'room_id':'R1'}]}}".

Definition schedules (_ : Request) : Outcome :=
  Responded (mkResponse 200 (Ok schedule_reply)).

(** A search that finds the two courses. *)
Definition search_body : jsstring :=
  litq "{'results':[{'id':1,'name':'AI'},{'id':2,'room':null}],'total':2}".

Definition search_hit (_ : Request) : Outcome :=
  Responded (mkResponse 200 (Ok search_body)).

(** The page script with "AI" typed in the search box, and app.js too. *)
Definition searching : World Main.Dom :=
  mkWorld (Main.mkDom (lit " AI ") (lit "") (lit "") (lit "") false false
                      false (lit "") (lit "") (lit "") [] [] [])
          [].


(** The schedule form left blank but for the days. *)
Definition scheduling : World Main.Dom :=
  mkWorld (Main.mkDom (lit "") (lit "Mon, Tue ,,  ,Wed") (lit "") (lit "")
                      false true false (lit "") (lit "  ") (lit "") [] [] [])
          [].

End Sample.



(** ** What the further properties speak of *)

(** [window.addEventListener("DOMContentLoaded", loadAll)], the last line
    of app.js: the listener runs [loadAll] and nobody awaits it. *)
Definition app_start (host : Host) (net : Request -> Outcome)
  : M App.Dom unit :=
  spawn (App.loadAll host net).

(** [btnAll.click()], the last line of the page script: the click handler
    runs, and nobody awaits it. *)
Definition page_start (host : Host) (net : Request -> Outcome)
  (BASE : jsstring) : M Main.Dom unit :=
  spawn (Main.btnAll_click host net BASE).

(** A computation that leaves the effects as they are. *)
Definition silent {D A} (m : M D A) : Prop :=
  forall w, events (snd (m w)) = events w.

(** The effects a computation adds to those of the world it starts in. *)
Definition adds {D A} (m : M D A) (w : World D) (new : list Event) : Prop :=
  events (snd (m w)) = events w ++ new.

(** How a click of the page script ends: normally, with at most one
    request sent, at most one alert shown and no rejection left
    unhandled. *)
Definition settled (w : World Main.Dom) (r : result unit * World Main.Dom)
  : Prop :=
  fst r = Ok tt /\
  exists new,
    events (snd r) = events w ++ new /\
    (length (fetches new) <= 1)%nat /\
    (length (alerts new) <= 1)%nat /\
    forallb (fun ev => match ev with EvUnhandled _ => false | _ => true end)
            new = true.

(** The rejections left unhandled among the effects, oldest first. *)
Fixpoint unhandled (evs : list Event) : list JsError :=
  match evs with
  | [] => []
  | EvUnhandled e :: rest => e :: unhandled rest
  | _ :: rest => unhandled rest
  end.

(** A request is answered with [v]: the response has a status in 200-299
    and a body that can be read and is the JSON text of [v]. *)
Definition answers (host : Host) (o : Outcome) (v : JsValue) : Prop :=
  exists res txt,
    o = Responded res /\ ok res = true /\ text res = Ok txt /\
    JSON_parse host txt = Ok v.

(** The form controls of the page script, which it only reads. *)
Definition controls (d : Main.Dom) :=
  (Main.q_value d, Main.days_value d, Main.blocks_value d,
   Main.minutes_value d, Main.noFri_checked d, Main.prefMorning_checked d,
   Main.prefCompact_checked d, Main.weight_value d, Main.reqKo_value d).

(** The two halves of its output. *)
Definition courses_part (d : Main.Dom) :=
  (Main.coursesInfo d, Main.coursesWrap d).
Definition schedule_part (d : Main.Dom) :=
  (Main.summary d, Main.assignmentsWrap d).

(** A computation that leaves the part [f] of the page as it was, whether
    it returns or throws. *)
Definition keeps {D A X} (f : D -> X) (m : M D A) : Prop :=
  forall w, f (dom (snd (m w))) = f (dom w).

(** The row of an item over no columns: a [tr] with nothing in it. *)
Definition empty_tr : Node := Element (lit "tr") [].

(** The text a template literal writes for the field [k] of [a]. *)
Definition field_text (host : Host) (a : JsValue) (k : jsstring)
  : result jsstring :=
  rbind (get_prop host a k) (ToString host).

(** The markup of one assignment, given the texts of its five fields. *)
Definition assignment_markup (s1 s2 s3 s4 s5 : jsstring) : jsstring :=
  lit "
        <tr>
          <td>" ++ s1 ++ lit "</td>
          <td>" ++ s2 ++ litq "</td>
          <td><span class='pill'>" ++ s3 ++ lit "</span></td>
          <td>" ++ s4 ++ lit "</td>
          <td>" ++ s5 ++ lit "</td>
        </tr>".

(** The table [renderAssignments] attaches, given the markup of the rows. *)
Definition assignments_table (rows : list jsstring) : Node :=
  Element (lit "table") (innerHTML (lit "
    <thead>
      <tr><th>course_id</th><th>session</th><th>day</th><th>block</th><th>room</th></tr>
    </thead>
    <tbody>
      " ++ join (lit "") rows ++ lit "
    </tbody>")).

(** [x] is shown as the row [row]: the markup of the texts of its fields
    [course_id], [session_index], [day], [block] and [room_id]. *)
Definition shown_as (host : Host) (x : JsValue) (row : jsstring) : Prop :=
  exists s1 s2 s3 s4 s5,
    field_text host x (lit "course_id") = Ok s1 /\
    field_text host x (lit "session_index") = Ok s2 /\
    field_text host x (lit "day") = Ok s3 /\
    field_text host x (lit "block") = Ok s4 /\
    field_text host x (lit "room_id") = Ok s5 /\
    row = assignment_markup s1 s2 s3 s4 s5.

(** What a template literal writes for null and for undefined. *)
Definition nullish_text (v : JsValue) : jsstring :=
  match v with
  | JNull => lit "null"
  | _ => lit "undefined"
  end.

(** The markup of the summary, given the texts of the three counts, of the
    days and of the blocks per day. *)
Definition summary_text (s1 s2 s3 s4 s5 : jsstring) : jsstring :=
  litq "
      <div class='muted'>
        과목 " ++ s1 ++ lit "개 · 방 " ++ s2 ++ lit "개 · 강사 " ++ s3 ++ lit "명 ·
        " ++ s4 ++ lit " / 일일 " ++ s5 ++ lit "교시
      </div>".

(** The names the summary is read by. *)
Definition summary_fields : list jsstring :=
  [lit "courses"; lit "rooms"; lit "instructors"; lit "days";
   lit "blocks_per_day"].


(** The characters that delimit the parts of a query: [& = ? #]. *)
Definition delimiter (c : N) : bool :=
  (c =? 38) || (c =? 61) || (c =? 63) || (c =? 35).

(** A string without delimiters. *)
Definition plain (s : jsstring) : bool :=
  forallb (fun c => negb (delimiter c)) s.

(** A string without the code unit [sep]. *)
Definition free_of (sep : N) (s : jsstring) : bool :=
  forallb (fun c => negb (c =? sep)) s.

(** A day as the payload carries it: not empty, without a comma, and with
    no whitespace around it. *)
Definition clean_day (s : jsstring) : Prop :=
  s <> [] /\ free_of 44 s = true /\ trim s = s.

(** * Proofs *)

(** ** The monad *)

Section MonadFacts.

Context {D : Type}.

Lemma bind_ok {A B} (m : M D A) (k : A -> M D B) w a w' :
  m w = (Ok a, w') -> bind m k w = k a w'.
Proof. intros H. unfold bind. now rewrite H. Qed.

Lemma bind_throw {A B} (m : M D A) (k : A -> M D B) w e w' :
  m w = (Throw e, w') -> bind m k w = (Throw e, w').
Proof. intros H. unfold bind. now rewrite H. Qed.

Lemma try_ok {A} (m : M D A) h w a w' :
  m w = (Ok a, w') -> try_catch m h w = (Ok a, w').
Proof. intros H. unfold try_catch. now rewrite H. Qed.

Lemma try_throw {A} (m : M D A) h w e w' :
  m w = (Throw e, w') -> try_catch m h w = h e w'.
Proof. intros H. unfold try_catch. now rewrite H. Qed.

Lemma fetches_app evs evs' : fetches (evs ++ evs') = fetches evs ++ fetches evs'.
Proof.
  induction evs as [|ev evs IH]; simpl; [reflexivity|].
  destruct ev; simpl; now rewrite IH.
Qed.

Lemma quiet_ret {A} (a : A) : quiet (D:=D) (ret a).
Proof. intros w. unfold sends. simpl. now rewrite app_nil_r. Qed.

Lemma quiet_throw {A} e : quiet (@throw D A e).
Proof. intros w. unfold sends. simpl. now rewrite app_nil_r. Qed.

Lemma quiet_lift {A} (r : result A) : quiet (D:=D) (lift r).
Proof. intros w. unfold sends. simpl. now rewrite app_nil_r. Qed.

Lemma quiet_update (f : D -> D) : quiet (update f).
Proof. intros w. unfold sends. simpl. now rewrite app_nil_r. Qed.

Lemma quiet_get_dom : quiet (@get_dom D).
Proof. intros w. unfold sends. simpl. now rewrite app_nil_r. Qed.

Lemma quiet_emit ev :
  (forall r, ev <> EvFetch r) -> quiet (D:=D) (emit ev).
Proof.
  intros H w. unfold sends. simpl. rewrite fetches_app. f_equal.
  destruct ev; try reflexivity. now destruct (H r).
Qed.

Lemma quiet_alert msg : quiet (D:=D) (alert msg).
Proof. apply quiet_emit. discriminate. Qed.

Lemma quiet_bind {A B} (m : M D A) (k : A -> M D B) :
  quiet m -> (forall a, quiet (k a)) -> quiet (bind m k).
Proof.
  intros Hm Hk w. unfold sends, bind.
  specialize (Hm w). unfold sends in Hm.
  destruct (m w) as [[a|e] w'] eqn:E; simpl in *.
  - rewrite (Hk a w'). rewrite Hm. now rewrite !app_nil_r.
  - exact Hm.
Qed.

Lemma quiet_try {A} (m : M D A) h :
  quiet m -> (forall e, quiet (h e)) -> quiet (try_catch m h).
Proof.
  intros Hm Hh w. unfold sends, try_catch.
  specialize (Hm w). unfold sends in Hm.
  destruct (m w) as [[a|e] w'] eqn:E; simpl in *.
  - exact Hm.
  - rewrite (Hh e w'). rewrite Hm. now rewrite !app_nil_r.
Qed.

Lemma quiet_for_each {A} (f : A -> M D unit) items :
  (forall a, quiet (f a)) -> quiet (for_each f items).
Proof.
  intros Hf. induction items as [|x rest IH]; simpl.
  - apply quiet_ret.
  - apply quiet_bind; [apply Hf | intros _; exact IH].
Qed.

Lemma sends_fetch net req (w : World D) : sends (fetch net req) w [req].
Proof.
  unfold sends, fetch, bind. simpl.
  destruct (net req); simpl; now rewrite fetches_app.
Qed.

(** One request, then no more. *)
Lemma sends_then_quiet {A B} (m : M D A) (k : A -> M D B) w reqs :
  sends m w reqs -> (forall a, quiet (k a)) -> sends (bind m k) w reqs.
Proof.
  intros Hm Hk. unfold sends, bind in *.
  destruct (m w) as [[a|e] w'] eqn:E; simpl in *.
  - rewrite (Hk a w'). rewrite Hm. now rewrite app_nil_r.
  - exact Hm.
Qed.

End MonadFacts.

(** ** The API helpers *)

Section ApiFacts.

Variable host : Host.
Variable net : Request -> Outcome.
Variable BASE : jsstring.

(** The non-2xx branch of both helpers: whatever the [try] block does, it
    ends in a throw, which the [catch] of the same statement takes. *)
Lemma error_branch (txt : jsstring) (w : World Main.Dom) :
  try_catch
    (j <- lift (JSON_parse host txt) ;;
     detail <- lift (get_prop host j (lit "detail")) ;;
     msg <- (if truthy detail then ret detail
             else message <- lift (get_prop host j (lit "message")) ;;
                  ret (js_or message (JStr txt))) ;;
     m <- lift (ToString host msg) ;;
     throw (Error m))
    (fun _ => throw (Error txt)) w
  = (Throw (A:=unit) (Error txt), w).
Proof.
  unfold try_catch, bind, lift, throw, ret.
  destruct (JSON_parse host txt) as [j|e]; [|reflexivity].
  destruct (get_prop host j (lit "detail")) as [detail|e]; [|reflexivity].
  destruct (truthy detail).
  - destruct (ToString host detail); reflexivity.
  - destruct (get_prop host j (lit "message")) as [message|e]; [|reflexivity].
    destruct (ToString host (js_or message (JStr txt))); reflexivity.
Qed.

Lemma apiGet_eq path w :
  Main.apiGet host net BASE path w =
  (api_result host (net (get_request host BASE path)),
   mkWorld (dom w)
           (events w ++ [EvDebug [JStr (lit "GET");
                                  JStr (URL_href host path BASE)];
                         EvFetch (get_request host BASE path)])).
Proof.
  unfold Main.apiGet, get_request.
  set (req := mkRequest GET (URL_href host path BASE) [] None).
  unfold bind at 1. simpl.
  unfold bind at 1. unfold fetch at 1. unfold bind at 1. simpl.
  rewrite <- app_assoc. simpl.
  destruct (net req) as [e|res]; simpl; [reflexivity|].
  unfold bind at 1. unfold lift at 1.
  destruct (text res) as [txt|e]; simpl; [|reflexivity].
  unfold bind at 1.
  destruct (ok res); simpl.
  - reflexivity.
  - now rewrite error_branch.
Qed.

Lemma apiPost_eq path body w :
  Main.apiPost host net BASE path body w =
  (api_result host (net (post_request host BASE path body)),
   mkWorld (dom w)
           (events w ++ [EvDebug [JStr (lit "POST");
                                  JStr (URL_href host path BASE); body];
                         EvFetch (post_request host BASE path body)])).
Proof.
  unfold Main.apiPost, post_request.
  set (req := mkRequest POST _ _ _).
  unfold bind at 1. simpl.
  unfold bind at 1. unfold fetch at 1. unfold bind at 1. simpl.
  rewrite <- app_assoc. simpl.
  destruct (net req) as [e|res]; simpl; [reflexivity|].
  unfold bind at 1. unfold lift at 1.
  destruct (text res) as [txt|e]; simpl; [|reflexivity].
  unfold bind at 1.
  destruct (ok res); simpl.
  - reflexivity.
  - now rewrite error_branch.
Qed.

Lemma fails_api_result o e : fails host o e -> api_result host o = Throw e.
Proof.
  intros H. destruct H as [e|res e Ht|res txt Hok Ht|res txt e Hok Ht Hp];
    simpl; try rewrite Ht; simpl; try rewrite Hok; auto.
Qed.

End ApiFacts.

(** ** Concrete runs *)

(** A click on the load-all button, answered with the two courses. *)
Example load_all_run :
  Main.btnAll_click Ref.host Sample.lists_courses Sample.origin Sample.page
  = (Ok tt,
     mkWorld
       (Main.set_coursesWrap
          [Element (lit "table")
             [Element (lit "thead")
                [Markup (lit "<tr><th>id</th><th>name</th></tr>")];
              Element (lit "tbody")
                [Element (lit "tr") [Markup (lit "<td>1</td><td>AI</td>")];
                 Element (lit "tr") [Markup (lit "<td>2</td><td></td>")]]]]
          (Main.set_coursesInfo (lit "총 2건") (dom Sample.page)))
       (get_trace Ref.host Sample.origin Main.courses_path)).
Proof. vm_compute. reflexivity. Qed.

(** A click on the schedule button, answered with a schedule. *)
Example schedule_run :
  let w := snd (Main.btnSchedule_click Ref.host Sample.schedules
                                       Sample.origin Sample.scheduling) in
  Main.summary (dom w)
  = [Markup (litq "
      <div class='muted'>
        과목 1개 · 방 1개 · 강사 ?명 ·
        Mon,Tue / 일일 ?교시
      </div>")] /\
  Main.assignmentsWrap (dom w)
  = [Element (lit "table")
       [Markup (litq "
    <thead>
      <tr><th>course_id</th><th>session</th><th>day</th><th>block</th><th>room</th></tr>
    </thead>
    <tbody>
      
        <tr>
          <td>C1</td>
          <td>0</td>
          <td><span class='pill'>Mon</span></td>
          <td>1</td>
          <td>R1</td>
        </tr>
    </tbody>")]] /\
  alerts (events w) = [].
Proof. vm_compute. repeat split. Qed.

(** The page of app.js loading, answered with the two courses. *)
Example app_load_run :
  App.loadAll Ref.host Sample.lists_courses Sample.app_page
  = (Ok tt,
     mkWorld
       (App.mkDom (lit "") (lit "표시: 2건")
          [Markup (lit "<tr><th>id</th><th>name</th></tr>")]
          [Element (lit "tr") [Markup (lit "<td>1</td><td>AI</td>")];
           Element (lit "tr") [Markup (lit "<td>2</td><td></td>")]])
       [EvFetch app_courses_request]).
Proof. vm_compute. reflexivity. Qed.

(** ** C1: the message of a failed request *)

(** For a response outside 200-299 both helpers throw an error whose message
    is the text of the body, whether or not that text is JSON. *)
Lemma api_error_raw host net BASE path body res txt w :
  ok res = false -> text res = Ok txt ->
  (net (get_request host BASE path) = Responded res ->
   fst (Main.apiGet host net BASE path w) = Throw (Error txt)) /\
  (net (post_request host BASE path body) = Responded res ->
   fst (Main.apiPost host net BASE path body w) = Throw (Error txt)).
Proof.
  intros Hok Ht. split; intros Hn.
  - rewrite apiGet_eq, Hn. simpl. now rewrite Ht, Hok.
  - rewrite apiPost_eq, Hn. simpl. now rewrite Ht, Hok.
Qed.

(** C1.  The claim: for a failed response whose body is JSON with a [detail]
    or [message] field, the error thrown by [apiGet] and [apiPost] has that
    field's value as its message.  The code at a 404 with the body
    [{"detail":"Not found"}]: the body parses, its [detail] is "Not found",
    and both helpers throw an error whose message is the whole body text,
    not "Not found": the error made from the field is thrown inside the
    [try] whose [catch] replaces it. *)
Theorem C1_detail_is_lost :
  JSON_parse Ref.host Sample.not_found_body
    = Ok (JObj [(lit "detail", JStr (lit "Not found"))]) /\
  fst (Main.apiGet Ref.host Sample.not_found Sample.origin
                   Main.courses_path Sample.page)
    = Throw (Error Sample.not_found_body) /\
  fst (Main.apiPost Ref.host Sample.not_found Sample.origin
                    Main.schedule_path (JObj []) Sample.page)
    = Throw (Error Sample.not_found_body) /\
  Sample.not_found_body <> lit "Not found".
Proof.
  split; [vm_compute; reflexivity|].
  destruct (api_error_raw Ref.host Sample.not_found Sample.origin
              Main.courses_path (JObj [])
              (mkResponse 404 (Ok Sample.not_found_body))
              Sample.not_found_body Sample.page eq_refl eq_refl) as [Hg _].
  destruct (api_error_raw Ref.host Sample.not_found Sample.origin
              Main.schedule_path (JObj [])
              (mkResponse 404 (Ok Sample.not_found_body))
              Sample.not_found_body Sample.page eq_refl eq_refl) as [_ Hp].
  split; [apply Hg; reflexivity|].
  split; [apply Hp; reflexivity|].
  vm_compute. discriminate.
Qed.

(** ** C4: rendering an empty list *)



(** ** C3, C10: the rows and cells of a table *)

Section TableFacts.

Variable host : Host.

Lemma assoc_In k props v :
  assoc k props = Some v -> exists k', In (k', v) props.
Proof.
  induction props as [|[k1 v1] rest IH]; simpl; [discriminate|].
  destruct (str_eqb k k1).
  - intros [= <-]. exists k1. now left.
  - intros H. destruct (IH H) as [k' Hin]. exists k'. now right.
Qed.

(** Every cell of a row object converts. *)
Lemma td_row_object r c :
  row_object host r -> exists cell, td host r c = Ok cell.
Proof.
  intros (props & -> & Hp). unfold td, get_prop. cbn [get_own].
  destruct (assoc c props) as [v|] eqn:Ha.
  - cbn [rbind]. destruct (assoc_In _ _ _ Ha) as [k' Hin].
    rewrite Forall_forall in Hp. destruct (Hp _ Hin) as [s Hs].
    cbn [snd] in Hs. unfold nullish_or.
    destruct (nullish v).
    + eexists. cbn [ToString rbind]. reflexivity.
    + rewrite Hs. eexists. cbn [rbind]. reflexivity.
  - destruct (inherited host (JObj props) c); cbn [rbind nullish_or nullish];
      eexists; cbn [ToString rbind]; reflexivity.
Qed.

Lemma collect_map_ok {A B} (f : A -> result B) (l : list A) :
  (forall x, In x l -> exists y, f x = Ok y) ->
  exists ys, collect (map f l) = Ok ys /\
             Forall2 (fun x y => f x = Ok y) l ys.
Proof.
  induction l as [|x rest IH]; intros H.
  - exists []. split; [reflexivity|constructor].
  - destruct (H x (or_introl eq_refl)) as [y Hy].
    destruct IH as (ys & Hc & Hf).
    { intros x' Hx'. apply H. now right. }
    exists (y :: ys). split.
    + cbn [map collect]. rewrite Hy. cbn [rbind]. rewrite Hc. reflexivity.
    + now constructor.
Qed.

Lemma tr_row_object cols r :
  row_object host r -> exists el, tr host cols r = Ok el.
Proof.
  intros Hr. unfold tr, row_cells.
  destruct (collect_map_ok (td host r) cols) as (cells & Hc & _).
  { intros c _. now apply td_row_object. }
  rewrite Hc. cbn [rbind]. eexists. reflexivity.
Qed.

Lemma trs_row_objects cols rows :
  Forall (row_object host) rows ->
  exists trs, collect (map (tr host cols) rows) = Ok trs /\
              Forall2 (fun r el => tr host cols r = Ok el) rows trs.
Proof.
  intros H. apply collect_map_ok. intros r Hr.
  apply tr_row_object. rewrite Forall_forall in H. now apply H.
Qed.

Lemma length_truthy {A} (x : A) rest :
  truthy (JNum (num_of_nat (length (x :: rest)))) = true.
Proof.
  unfold truthy, num_truthy, num_of_nat.
  destruct (Z.eqb_spec (Z.of_nat (length (x :: rest))) 0) as [E|]; [|reflexivity].
  cbn [length] in E. lia.
Qed.

Lemma get_length items :
  get_prop host (JArr items) (lit "length")
  = Ok (JNum (num_of_nat (length items))).
Proof. reflexivity. Qed.

Lemma get_first x rest :
  get_prop host (JArr (x :: rest)) (lit "0") = Ok x.
Proof. reflexivity. Qed.

(** The loop of [render]: one [tr] appended to the body per item. *)
Lemma for_each_trs cols rows trs (w : World App.Dom) :
  Forall2 (fun r el => tr host cols r = Ok el) rows trs ->
  for_each (fun r => el <- lift (tr host cols r) ;;
                     update (App.append_tbody el)) rows w
  = (Ok tt, mkWorld (App.set_tbody (App.tbody (dom w) ++ trs) (dom w))
                    (events w)).
Proof.
  intros H. revert w. induction H as [|r el rows trs Hr _ IH]; intros w.
  - destruct w as [[q m th tb] evs]. cbn [for_each ret dom events].
    unfold App.set_tbody. cbn. now rewrite app_nil_r.
  - cbn [for_each]. unfold bind at 1. unfold bind at 1. unfold lift at 1.
    rewrite Hr. cbn [update]. rewrite IH.
    destruct w as [[q m th tb] evs]. unfold App.set_tbody, App.append_tbody.
    cbn. now rewrite <- app_assoc.
Qed.

Lemma render_rows first rest cols trs (w : World App.Dom) :
  Object_keys host first = Ok cols ->
  Forall2 (fun r el => tr host cols r = Ok el) (first :: rest) trs ->
  App.render host (JArr (first :: rest)) w
  = (Ok tt, mkWorld (App.mkDom (App.q_value (dom w)) (App.meta (dom w))
                               [Markup (header_row cols)] trs)
                    (events w)).
Proof.
  intros Hk Htrs. unfold App.render.
  unfold bind at 1. cbn [update].
  unfold bind at 1. cbn [update].
  unfold bind at 1. unfold lift at 1. rewrite get_length.
  rewrite length_truthy. cbn [negb].
  unfold bind at 1. unfold lift at 1. rewrite get_first.
  unfold bind at 1. unfold lift at 1. rewrite Hk.
  unfold bind at 1. cbn [update].
  rewrite (for_each_trs cols _ trs) by exact Htrs.
  destruct w as [[q m th tb] evs]. reflexivity.
Qed.

Lemma renderCourses_rows first rest total info cols trs
  (w : World Main.Dom) :
  truthy first = true ->
  Object_keys host first = Ok cols ->
  Main.courses_info host (JArr (first :: rest)) (Main.or_null total)
    = Ok info ->
  Forall2 (fun r el => tr host cols r = Ok el) (first :: rest) trs ->
  collect (map (tr host cols) (first :: rest)) = Ok trs ->
  Main.renderCourses host (JArr (first :: rest)) total w
  = (Ok tt,
     mkWorld (Main.set_coursesWrap
                [Element (lit "table")
                   [Element (lit "thead") [Markup (header_row cols)];
                    Element (lit "tbody") trs]]
                (Main.set_coursesInfo info (dom w)))
             (events w)).
Proof.
  intros Ht Hk Hinfo _ Hc. unfold Main.renderCourses.
  unfold bind at 1. cbn [update].
  unfold bind at 1. unfold lift at 1. rewrite Hinfo.
  unfold bind at 1. cbn [update].
  unfold bind at 1. unfold lift at 1. rewrite get_length.
  rewrite length_truthy. cbn [negb].
  unfold bind at 1. unfold lift at 1. rewrite get_first.
  unfold js_or. rewrite Ht.
  unfold bind at 1. unfold lift at 1. rewrite Hk.
  unfold bind at 1. unfold lift at 1. rewrite Hc.
  destruct w as [[] evs]. reflexivity.
Qed.

End TableFacts.

Lemma Ok_inj {A} (a b : A) : Ok a = Ok b -> a = b.
Proof. now intros [=]. Qed.

(** The helpers of the scripts write the markup of the vocabulary. *)
Lemma join_concat (xs : list jsstring) : join [] xs = concat xs.
Proof.
  induction xs as [|x rest IH]; [reflexivity|].
  destruct rest as [|y rest].
  - cbn [join concat]. now rewrite app_nil_r.
  - change (join [] (x :: y :: rest)) with (x ++ [] ++ join [] (y :: rest)).
    rewrite IH. reflexivity.
Qed.

Lemma header_row_markup cols : header_row cols = header_markup cols.
Proof.
  unfold header_row, header_markup. rewrite join_concat.
  unfold th. reflexivity.
Qed.

Lemma td_cell_text host r c cell :
  td host r c = Ok cell ->
  exists t, cell_text host r c = Ok t /\
            cell = lit "<td>" ++ t ++ lit "</td>".
Proof.
  unfold td, cell_text.
  destruct (get_prop host r c) as [v|e]; cbn [rbind]; [|discriminate].
  unfold nullish_or. destruct (nullish v).
  - cbn [ToString rbind]. intros H. apply Ok_inj in H. subst cell.
    now exists [].
  - destruct (ToString host v) as [t|e]; cbn [rbind]; [|discriminate].
    intros H. apply Ok_inj in H. subst cell. now exists t.
Qed.

Lemma tds_cell_texts host r cols cells :
  collect (map (td host r) cols) = Ok cells ->
  exists texts,
    Forall2 (fun k t => cell_text host r k = Ok t) cols texts /\
    cells = map (fun t => lit "<td>" ++ t ++ lit "</td>") texts.
Proof.
  revert cells. induction cols as [|c cols IH]; intros cells;
    cbn [map collect].
  - intros H. apply Ok_inj in H. subst cells.
    exists []. split; [constructor|reflexivity].
  - destruct (td host r c) as [cell|e] eqn:Hc; cbn [rbind]; [|discriminate].
    destruct (collect (map (td host r) cols)) as [rest|e];
      cbn [rbind]; [|discriminate].
    intros H. apply Ok_inj in H. subst cells.
    destruct (td_cell_text host r c cell Hc) as (t & Ht & ->).
    destruct (IH rest eq_refl) as (texts & Hf & ->).
    exists (t :: texts). split; [now constructor|reflexivity].
Qed.

Lemma tr_table_row host cols r el :
  tr host cols r = Ok el -> table_row host cols r el.
Proof.
  unfold tr, row_cells. intros H.
  destruct (collect (map (td host r) cols)) as [cells|e] eqn:Hc;
    cbn [rbind] in H; [|discriminate].
  apply Ok_inj in H. subst el.
  destruct (tds_cell_texts host r cols cells Hc) as (texts & Hf & ->).
  exists texts. split; [exact Hf|].
  rewrite join_concat. reflexivity.
Qed.

Lemma trs_table_rows host cols rows trs :
  Forall2 (fun r el => tr host cols r = Ok el) rows trs ->
  Forall2 (table_row host cols) rows trs.
Proof.
  intros H. induction H as [|r el rows trs Hr _ IH]; constructor.
  - now apply tr_table_row.
  - exact IH.
Qed.

(** C3.  For a non-empty list of row objects both renderers succeed.  The
    columns of the table are the keys of the first item, in the order the
    item has them: the head of the table is the header row with one [th]
    per key, in that order.  The body holds exactly one [tr] per item, in
    the order of the list, and the row of an item has one cell per column,
    in the order of the columns, with the text of the item under that
    key. *)
Theorem C3_one_row_per_item host first rest total info
  (wa : World App.Dom) (w : World Main.Dom) :
  Forall (row_object host) (first :: rest) ->
  Main.courses_info host (JArr (first :: rest)) (Main.or_null total)
    = Ok info ->
  exists props trs,
    first = JObj props /\
    Object_keys host first = Ok (map fst props) /\
    length trs = length (first :: rest) /\
    Forall2 (table_row host (map fst props)) (first :: rest) trs /\
    App.render host (JArr (first :: rest)) wa
    = (Ok tt, mkWorld (App.mkDom (App.q_value (dom wa)) (App.meta (dom wa))
                                 [Markup (header_markup (map fst props))]
                                 trs)
                      (events wa)) /\
    Main.renderCourses host (JArr (first :: rest)) total w
    = (Ok tt,
       mkWorld (Main.set_coursesWrap
                  [Element (lit "table")
                     [Element (lit "thead")
                        [Markup (header_markup (map fst props))];
                      Element (lit "tbody") trs]]
                  (Main.set_coursesInfo info (dom w)))
               (events w)).
Proof.
  intros Hrows Hinfo.
  assert (Hfirst : row_object host first) by (now inversion Hrows).
  destruct Hfirst as (props & -> & Hprops).
  destruct (trs_row_objects host (map fst props) _ Hrows) as (trs & Hc & Hf).
  exists props, trs. split; [reflexivity|]. split; [reflexivity|].
  split; [symmetry; exact (Forall2_length Hf)|].
  split; [now apply trs_table_rows|].
  rewrite <- header_row_markup. split.
  - now apply render_rows.
  - now apply renderCourses_rows.
Qed.

Lemma C3_one_row_per_item_witness :
  Forall (row_object Ref.host) Sample.courses /\
  Main.courses_info Ref.host (JArr Sample.courses) (Main.or_null JUndefined)
    = Ok (lit "총 2건") /\
  App.render Ref.host (JArr Sample.courses) Sample.app_page
  = (Ok tt,
     mkWorld (App.mkDom (lit "") (lit "")
                [Markup (lit "<tr><th>id</th><th>name</th></tr>")]
                [Element (lit "tr") [Markup (lit "<td>1</td><td>AI</td>")];
                 Element (lit "tr") [Markup (lit "<td>2</td><td></td>")]])
             []) /\
  Main.coursesWrap
    (dom (snd (Main.renderCourses Ref.host (JArr Sample.courses) JUndefined
                                  Sample.page)))
  = [Element (lit "table")
       [Element (lit "thead")
          [Markup (lit "<tr><th>id</th><th>name</th></tr>")];
        Element (lit "tbody")
          [Element (lit "tr") [Markup (lit "<td>1</td><td>AI</td>")];
           Element (lit "tr") [Markup (lit "<td>2</td><td></td>")]]]].
Proof.
  assert (H1 : Forall (row_object Ref.host) Sample.courses).
  { repeat constructor; eexists; (split; [reflexivity|]);
      repeat constructor; eexists; vm_compute; reflexivity. }
  assert (H2 : Main.courses_info Ref.host (JArr Sample.courses)
                 (Main.or_null JUndefined) = Ok (lit "총 2건"))
    by (vm_compute; reflexivity).
  split; [exact H1|]. split; [exact H2|].
  destruct (C3_one_row_per_item Ref.host Sample.course1 [Sample.course2]
              JUndefined (lit "총 2건") Sample.app_page Sample.page H1 H2)
    as (props & trs & Hp & _ & _ & Hf & Happ & Hmain).
  assert (Ep : props = [(lit "id", JNum (Int 1)); (lit "name", JStr (lit "AI"))])
    by (injection Hp as <-; reflexivity).
  subst props.
  assert (Et : trs = [Element (lit "tr") [Markup (lit "<td>1</td><td>AI</td>")];
                      Element (lit "tr") [Markup (lit "<td>2</td><td></td>")]]).
  { inversion Hf as [|r1 el1 rs1 trs1 (t1 & F1 & E1) Hf1]; subst.
    inversion Hf1 as [|r2 el2 rs2 trs2 (t2 & F2 & E2) Hf2]; subst.
    inversion Hf2; subst.
    inversion F1 as [|k1 a1 ks1 ts1 A1 F1']; subst.
    inversion F1' as [|k2 a2 ks2 ts2 A2 F1'']; subst.
    inversion F1''; subst.
    inversion F2 as [|k3 a3 ks3 ts3 A3 F2']; subst.
    inversion F2' as [|k4 a4 ks4 ts4 A4 F2'']; subst.
    inversion F2''; subst.
    vm_compute in A1, A2, A3, A4.
    apply Ok_inj in A1, A2, A3, A4. subst.
    vm_compute. reflexivity. }
  subst trs. unfold Sample.courses.
  split.
  - rewrite Happ. vm_compute. reflexivity.
  - rewrite Hmain. vm_compute. reflexivity.
Defined.

(** ** C10: the cell of a null or missing value *)

Lemma collect_Forall2 {A B} (f : A -> result B) l ys :
  collect (map f l) = Ok ys -> Forall2 (fun x y => f x = Ok y) l ys.
Proof.
  revert ys. induction l as [|x rest IH]; intros ys; cbn [map collect].
  - intros [= <-]. constructor.
  - destruct (f x) as [y|e] eqn:Hx; cbn [rbind]; [|discriminate].
    destruct (collect (map f rest)) as [ys'|e]; cbn [rbind]; [|discriminate].
    intros [= <-]. constructor; [exact Hx|]. now apply IH.
Qed.

Lemma td_empty_valued host r c :
  empty_valued host r c -> td host r c = Ok (lit "<td></td>").
Proof.
  intros (v & Hv & Hn). unfold td. rewrite Hv. cbn [rbind].
  unfold nullish_or. rewrite Hn. reflexivity.
Qed.

Lemma absent_empty_valued host props c :
  assoc c props = None -> inherited host (JObj props) c = None ->
  empty_valued host (JObj props) c.
Proof.
  intros Ha Hi. exists JUndefined. split; [|reflexivity].
  unfold get_prop. cbn [get_own]. now rewrite Ha, Hi.
Qed.

(** The claim of C10 as it is stated fails: the column "toString" is a key
    of the first item and is absent from the second, and the cell of the
    second row is not empty: the read finds the function every object
    inherits, and its text is rendered. *)
Lemma C10_counterexample :
  Object_keys Ref.host (JObj [(lit "toString", JStr (lit "x"))])
    = Ok [lit "toString"] /\
  assoc (lit "toString") [] = None /\
  App.tbody (dom (snd (App.render Ref.host (JArr Sample.inherited_name_rows)
                                  Sample.app_page)))
    = [Element (lit "tr") [Markup (lit "<td>x</td>")];
       Element (lit "tr")
         [Markup (lit "<td>function toString() { [native code] }</td>")]] /\
  td Ref.host (JObj []) (lit "toString") <> Ok (lit "<td></td>").
Proof.
  split; [vm_compute; reflexivity|].
  split; [reflexivity|].
  split; [vm_compute; reflexivity|].
  vm_compute. discriminate.
Qed.

(** C10, amended.  In every rendered row the cells are those of the columns,
    in order, and the cell of a value that is null or undefined is the empty
    [<td></td>]: neither "null" nor "undefined" is written.  A key that the
    row does not have reads as undefined, and so gives the empty cell,
    when it is not the name of a member the row inherits from its
    prototype. *)
Theorem C10_nullish_cell_is_empty host cols r el :
  tr host cols r = Ok el ->
  exists cells,
    el = Element (lit "tr") (innerHTML (join [] cells)) /\
    Forall2 (fun c cell => td host r c = Ok cell) cols cells /\
    (forall c, empty_valued host r c -> td host r c = Ok (lit "<td></td>")) /\
    (forall c props,
        r = JObj props -> assoc c props = None ->
        inherited host r c = None ->
        empty_valued host r c).
Proof.
  unfold tr, row_cells. intros H.
  destruct (collect (map (td host r) cols)) as [cells|e] eqn:Hc;
    cbn [rbind] in H; [|discriminate].
  injection H as <-. exists cells.
  split; [reflexivity|].
  split; [now apply collect_Forall2|].
  split; [intros c; apply td_empty_valued|].
  intros c props -> Ha Hi. now apply absent_empty_valued.
Qed.

Lemma C10_nullish_cell_is_empty_witness :
  tr Ref.host [lit "id"; lit "name"] Sample.course2
    = Ok (Element (lit "tr") [Markup (lit "<td>2</td><td></td>")]) /\
  td Ref.host Sample.course2 (lit "room") = Ok (lit "<td></td>") /\
  td Ref.host Sample.course2 (lit "name") = Ok (lit "<td></td>").
Proof.
  assert (H : tr Ref.host [lit "id"; lit "name"] Sample.course2
              = Ok (Element (lit "tr") [Markup (lit "<td>2</td><td></td>")]))
    by (vm_compute; reflexivity).
  split; [exact H|].
  destruct (C10_nullish_cell_is_empty Ref.host _ _ _ H)
    as (cells & _ & _ & Hempty & Habsent).
  split.
  - apply Hempty. exists JNull. split; vm_compute; reflexivity.
  - apply Hempty. eapply Habsent; [reflexivity| |]; vm_compute; reflexivity.
Defined.

(** ** The handlers *)

Ltac quiet_step :=
  first
    [ apply quiet_ret | apply quiet_throw | apply quiet_update
    | apply quiet_get_dom | apply quiet_alert | apply quiet_lift
    | apply quiet_emit; discriminate
    | apply quiet_bind; [|intros ?]
    | apply quiet_try; [|intros ?]
    | apply quiet_for_each; intros ?
    | match goal with
      | |- quiet (if ?b then _ else _) => destruct b
      | |- quiet (match ?x with _ => _ end) => destruct x
      end ].

Section HandlerFacts.

Variable host : Host.
Variable net : Request -> Outcome.
Variable BASE : jsstring.

Lemma quiet_renderCourses list total :
  quiet (Main.renderCourses host list total).
Proof. unfold Main.renderCourses. repeat quiet_step. Qed.

Lemma sends_try {D A} (m : M D A) h w reqs :
  sends m w reqs -> (forall e, quiet (h e)) -> sends (try_catch m h) w reqs.
Proof.
  intros Hm Hh. unfold sends, try_catch in *.
  destruct (m w) as [[a|e] w'] eqn:E; cbn [snd] in *.
  - exact Hm.
  - rewrite (Hh e w'). rewrite Hm. now rewrite app_nil_r.
Qed.

Lemma sends_apiGet path w :
  sends (Main.apiGet host net BASE path) w [get_request host BASE path].
Proof.
  unfold sends. rewrite apiGet_eq. cbn [snd events].
  rewrite fetches_app. reflexivity.
Qed.

Lemma sends_apiPost path body w :
  sends (Main.apiPost host net BASE path body) w
        [post_request host BASE path body].
Proof.
  unfold sends. rewrite apiPost_eq. cbn [snd events].
  rewrite fetches_app. reflexivity.
Qed.

Lemma quiet_caught prefix e :
  quiet (D:=Main.Dom)
        (emit (EvError e) ;; alert (prefix ++ err_message e)).
Proof. repeat quiet_step. Qed.

Lemma run_caught prefix e (w : World Main.Dom) :
  (emit (EvError e) ;; alert (prefix ++ err_message e)) w
  = (Ok tt, mkWorld (dom w) (events w ++ caught prefix e)).
Proof.
  unfold alert, bind, emit, caught. cbn [dom events].
  now rewrite <- app_assoc.
Qed.

(** *** Load all *)

Lemma btnAll_sends w :
  sends (Main.btnAll_click host net BASE) w
        [get_request host BASE Main.courses_path].
Proof.
  unfold Main.btnAll_click. apply sends_try; [|intros e; apply quiet_caught].
  apply sends_then_quiet; [apply sends_apiGet|].
  intros data. apply quiet_renderCourses.
Qed.

Lemma btnAll_fails e w :
  api_result host (net (get_request host BASE Main.courses_path)) = Throw e ->
  Main.btnAll_click host net BASE w
  = (Ok tt, mkWorld (dom w)
                    (events w ++ get_trace host BASE Main.courses_path
                              ++ caught (lit "불러오기 실패: ") e)).
Proof.
  intros H. unfold Main.btnAll_click.
  erewrite try_throw.
  2:{ apply bind_throw. rewrite apiGet_eq. rewrite H. reflexivity. }
  rewrite run_caught. cbn [dom events]. unfold get_trace.
  now rewrite <- app_assoc.
Qed.

(** *** Search *)

Lemma or_empty (s : jsstring) :
  match js_or (JStr s) (JStr (lit "")) with
  | JStr s' => s'
  | _ => []
  end = s.
Proof. destruct s; reflexivity. Qed.

Lemma truthy_str (s : jsstring) : truthy (JStr s) = negb (is_empty s).
Proof. reflexivity. Qed.

Lemma btnSearch_blank w :
  keyword (dom w) = [] ->
  Main.btnSearch_click host net BASE w
  = (Ok tt, mkWorld (dom w)
                    (events w ++ [EvAlert (lit "키워드를 입력하세요.")])).
Proof.
  intros Hk. unfold Main.btnSearch_click.
  unfold bind at 1. cbn [get_dom]. rewrite or_empty.
  fold (keyword (dom w)). rewrite Hk. reflexivity.
Qed.

Lemma btnSearch_body c k w :
  keyword (dom w) = c :: k ->
  Main.btnSearch_click host net BASE w
  = try_catch
      (enc <- lift (encodeURIComponent host (c :: k)) ;;
       data <- Main.apiGet host net BASE (Main.search_path enc) ;;
       results <- lift (get_prop host data (lit "results")) ;;
       total <- lift (get_prop host data (lit "total")) ;;
       Main.renderCourses host results total)
      (fun e => emit (EvError e) ;;
                alert (lit "검색 실패: " ++ err_message e)) w.
Proof.
  intros Hk. unfold Main.btnSearch_click.
  unfold bind at 1. cbn [get_dom]. rewrite or_empty.
  fold (keyword (dom w)). rewrite Hk. reflexivity.
Qed.

Lemma btnSearch_sends c k enc w :
  keyword (dom w) = c :: k ->
  encodeURIComponent host (c :: k) = Ok enc ->
  sends (Main.btnSearch_click host net BASE) w
        [get_request host BASE (Main.search_path enc)].
Proof.
  intros Hk He. unfold sends. rewrite (btnSearch_body c k w Hk).
  apply sends_try; [|intros e; apply quiet_caught].
  unfold sends. unfold bind at 1. unfold lift at 1. rewrite He.
  apply sends_then_quiet; [apply sends_apiGet|].
  intros data. repeat quiet_step.
Qed.

Lemma btnSearch_malformed c k e w :
  keyword (dom w) = c :: k ->
  encodeURIComponent host (c :: k) = Throw e ->
  Main.btnSearch_click host net BASE w
  = (Ok tt, mkWorld (dom w) (events w ++ caught (lit "검색 실패: ") e)).
Proof.
  intros Hk He. rewrite (btnSearch_body c k w Hk).
  erewrite try_throw.
  2:{ unfold bind at 1. unfold lift at 1. rewrite He. reflexivity. }
  apply run_caught.
Qed.

Lemma btnSearch_fails c k enc e w :
  keyword (dom w) = c :: k ->
  encodeURIComponent host (c :: k) = Ok enc ->
  api_result host (net (get_request host BASE (Main.search_path enc)))
    = Throw e ->
  Main.btnSearch_click host net BASE w
  = (Ok tt, mkWorld (dom w)
                    (events w ++ get_trace host BASE (Main.search_path enc)
                              ++ caught (lit "검색 실패: ") e)).
Proof.
  intros Hk He H. rewrite (btnSearch_body c k w Hk).
  erewrite try_throw.
  2:{ unfold bind at 1. unfold lift at 1. rewrite He.
      apply bind_throw. rewrite apiGet_eq. rewrite H. reflexivity. }
  rewrite run_caught. cbn [dom events]. unfold get_trace.
  now rewrite <- app_assoc.
Qed.


(** *** Schedule *)

Lemma to_number_or value fallback :
  ToNumber host (js_or (JStr value) (JNum (Int fallback)))
  = Ok (number_or host value fallback).
Proof. destruct value; reflexivity. Qed.

(** The payload the handler builds is one of the two bodies. *)
Lemma schedule_payload_eq d :
  Main.schedule_payload host d = Ok (schedule_body host d).
Proof.
  unfold Main.schedule_payload. rewrite or_empty.
  fold (requirements d). unfold schedule_body, free_text_body.
  destruct (requirements d) as [|c r].
  - rewrite truthy_str. cbn [is_empty negb].
    rewrite !to_number_or. cbn [rbind]. rewrite !negb_involutive.
    unfold structured_body. vm_compute. reflexivity.
  - rewrite truthy_str. cbn [is_empty negb]. vm_compute. reflexivity.
Qed.

Lemma btnSchedule_body w :
  Main.btnSchedule_click host net BASE w
  = try_catch
      (res <- Main.apiPost host net BASE Main.schedule_path
                           (schedule_body host (dom w)) ;;
       markup <- lift (Main.summary_markup host res) ;;
       update (Main.set_summary (innerHTML markup)) ;;
       assignments <- lift (Main.solution_assignments host res) ;;
       Main.renderAssignments host assignments)
      (fun e => emit (EvError e) ;;
                alert (lit "배정 실패: " ++ err_message e)) w.
Proof.
  unfold Main.btnSchedule_click, try_catch.
  unfold bind at 1. cbn [get_dom].
  unfold bind at 1. unfold lift at 1. rewrite schedule_payload_eq.
  reflexivity.
Qed.

Lemma btnSchedule_sends w :
  sends (Main.btnSchedule_click host net BASE) w
        [post_request host BASE Main.schedule_path
                      (schedule_body host (dom w))].
Proof.
  unfold sends. rewrite btnSchedule_body.
  apply sends_try; [|intros e; apply quiet_caught].
  apply sends_then_quiet; [apply sends_apiPost|].
  intros res. repeat quiet_step.
Qed.

Lemma btnSchedule_fails e w :
  api_result host
    (net (post_request host BASE Main.schedule_path
                       (schedule_body host (dom w)))) = Throw e ->
  Main.btnSchedule_click host net BASE w
  = (Ok tt,
     mkWorld (dom w)
             (events w
              ++ post_trace host BASE Main.schedule_path
                            (schedule_body host (dom w))
              ++ caught (lit "배정 실패: ") e)).
Proof.
  intros H. rewrite btnSchedule_body.
  erewrite try_throw.
  2:{ apply bind_throw. rewrite apiPost_eq. rewrite H. reflexivity. }
  rewrite run_caught. cbn [dom events]. unfold post_trace.
  now rewrite <- app_assoc.
Qed.

(** *** app.js *)

Lemma loadAll_sends w :
  sends (App.loadAll host net) w [app_courses_request].
Proof.
  unfold App.loadAll.
  apply sends_then_quiet; [apply sends_fetch|].
  intros res. repeat quiet_step.
Qed.

(** Without a [catch], a failure of [loadAll] is its outcome. *)
Lemma loadAll_fails e w :
  net app_courses_request = Rejected e \/
  (exists res, net app_courses_request = Responded res /\
               json host res = Throw e) ->
  App.loadAll host net w
  = (Throw e, mkWorld (dom w) (events w ++ [EvFetch app_courses_request])).
Proof.
  intros H. unfold App.loadAll, fetch, app_courses_request in *.
  unfold bind at 1. unfold bind at 1. cbn [emit].
  destruct H as [H|(res & H & Hj)]; rewrite H.
  - reflexivity.
  - cbn [ret]. unfold bind at 1. unfold lift at 1. rewrite Hj. reflexivity.
Qed.

Lemma doSearch_blank w :
  trim (App.q_value (dom w)) = [] ->
  App.doSearch host net w = spawn (App.loadAll host net) w.
Proof.
  intros Hq. unfold App.doSearch. unfold bind at 1. cbn [get_dom].
  rewrite Hq. reflexivity.
Qed.

Lemma doSearch_body c q w :
  trim (App.q_value (dom w)) = c :: q ->
  App.doSearch host net w
  = (enc <- lift (encodeURIComponent host (c :: q)) ;;
     res <- fetch net (app_search_request enc) ;;
     data <- lift (json host res) ;;
     total <- lift (get_prop host data (lit "total")) ;;
     n <- lift (ToString host total) ;;
     update (App.set_meta (lit "검색결과: " ++ n ++ lit "건")) ;;
     results <- lift (get_prop host data (lit "results")) ;;
     App.render host results) w.
Proof.
  intros Hq. unfold App.doSearch. unfold bind at 1. cbn [get_dom].
  rewrite Hq. reflexivity.
Qed.

Lemma doSearch_sends_blank w :
  trim (App.q_value (dom w)) = [] ->
  sends (App.doSearch host net) w [app_courses_request].
Proof.
  intros Hq. unfold sends. rewrite (doSearch_blank w Hq).
  apply sends_try; [apply loadAll_sends|].
  intros e. repeat quiet_step.
Qed.

Lemma doSearch_sends c q enc w :
  trim (App.q_value (dom w)) = c :: q ->
  encodeURIComponent host (c :: q) = Ok enc ->
  sends (App.doSearch host net) w [app_search_request enc].
Proof.
  intros Hq He. unfold sends. rewrite (doSearch_body c q w Hq).
  unfold bind at 1. unfold lift at 1. rewrite He.
  apply sends_then_quiet; [apply sends_fetch|].
  intros res. repeat quiet_step.
Qed.

Lemma doSearch_malformed c q e w :
  trim (App.q_value (dom w)) = c :: q ->
  encodeURIComponent host (c :: q) = Throw e ->
  App.doSearch host net w = (Throw e, w).
Proof.
  intros Hq He. rewrite (doSearch_body c q w Hq).
  unfold bind at 1. unfold lift at 1. rewrite He. reflexivity.
Qed.

Lemma doSearch_fails c q enc e w :
  trim (App.q_value (dom w)) = c :: q ->
  encodeURIComponent host (c :: q) = Ok enc ->
  net (app_search_request enc) = Rejected e \/
  (exists res, net (app_search_request enc) = Responded res /\
               json host res = Throw e) ->
  App.doSearch host net w
  = (Throw e,
     mkWorld (dom w) (events w ++ [EvFetch (app_search_request enc)])).
Proof.
  intros Hq He H. rewrite (doSearch_body c q w Hq).
  unfold bind at 1. unfold lift at 1. rewrite He.
  unfold fetch. unfold bind at 1. unfold bind at 1. cbn [emit].
  destruct H as [H|(res & H & Hj)]; rewrite H.
  - reflexivity.
  - cbn [ret]. unfold bind at 1. unfold lift at 1. rewrite Hj. reflexivity.
Qed.

End HandlerFacts.

(** [loadAll] and [doSearch] never read the status of the response. *)
Lemma loadAll_ignores_status host st st' body w :
  App.loadAll host (fun _ => Responded (mkResponse st body)) w
  = App.loadAll host (fun _ => Responded (mkResponse st' body)) w.
Proof. reflexivity. Qed.

Lemma doSearch_ignores_status host st st' body w :
  App.doSearch host (fun _ => Responded (mkResponse st body)) w
  = App.doSearch host (fun _ => Responded (mkResponse st' body)) w.
Proof.
  set (net := fun _ : Request => Responded (mkResponse st body)).
  set (net' := fun _ : Request => Responded (mkResponse st' body)).
  destruct (trim (App.q_value (dom w))) as [|c q] eqn:Hq.
  - rewrite (doSearch_blank host net w Hq), (doSearch_blank host net' w Hq).
    unfold spawn, try_catch, net, net'.
    now rewrite (loadAll_ignores_status host st st' body w).
  - rewrite (doSearch_body host net c q w Hq),
            (doSearch_body host net' c q w Hq).
    destruct (encodeURIComponent host (c :: q)) as [enc|e]; reflexivity.
Qed.

(** ** Rendering a list of row objects, empty or not *)

Section ListFacts.

Variable host : Host.




End ListFacts.

(** ** C7: what a search shows *)




(** ** C2: failures *)

(** The claim of C2 as it is stated fails for app.js: when the server cannot
    be reached [loadAll] ends by throwing the error of [fetch] (nothing
    catches it) and no alert is shown. *)
Lemma C2_counterexample :
  App.loadAll Ref.host Sample.unreachable Sample.app_page
  = (Throw Sample.unreachable_error,
     mkWorld (dom Sample.app_page) [EvFetch app_courses_request]) /\
  alerts (events (snd (App.loadAll Ref.host Sample.unreachable
                                   Sample.app_page))) = [].
Proof. split; vm_compute; reflexivity. Qed.

(** C2, amended.  In the page script every failure of a request (the network
    rejects it, the body cannot be read, the status is not 2xx, the body is
    not JSON) is caught by the handler that issued it: the handler ends
    normally, having logged the error and shown one alert, its own words
    followed by the message of the error, and having sent that one request
    and no other; the page is left as it was.  In app.js nothing is caught:
    when [fetch] rejects or the body is not JSON, [loadAll] and [doSearch]
    end by throwing that error, with one request sent and no alert; and a
    status that is not 2xx is no failure there, the response being treated
    as one with any other status. *)
Theorem C2_failures_caught_in_page_script host net BASE e :
  (forall w,
      fails host (net (get_request host BASE Main.courses_path)) e ->
      Main.btnAll_click host net BASE w
      = (Ok tt, mkWorld (dom w)
                        (events w ++ get_trace host BASE Main.courses_path
                                  ++ caught (lit "불러오기 실패: ") e))) /\
  (forall w c k enc,
      keyword (dom w) = c :: k ->
      encodeURIComponent host (c :: k) = Ok enc ->
      fails host (net (get_request host BASE (Main.search_path enc))) e ->
      Main.btnSearch_click host net BASE w
      = (Ok tt, mkWorld (dom w)
                        (events w
                         ++ get_trace host BASE (Main.search_path enc)
                         ++ caught (lit "검색 실패: ") e))) /\
  (forall w,
      fails host
            (net (post_request host BASE Main.schedule_path
                               (schedule_body host (dom w)))) e ->
      Main.btnSchedule_click host net BASE w
      = (Ok tt, mkWorld (dom w)
                        (events w
                         ++ post_trace host BASE Main.schedule_path
                                       (schedule_body host (dom w))
                         ++ caught (lit "배정 실패: ") e))) /\
  (forall w,
      net app_courses_request = Rejected e \/
      (exists res, net app_courses_request = Responded res /\
                   json host res = Throw e) ->
      App.loadAll host net w
      = (Throw e,
         mkWorld (dom w) (events w ++ [EvFetch app_courses_request]))) /\
  (forall w c q enc,
      trim (App.q_value (dom w)) = c :: q ->
      encodeURIComponent host (c :: q) = Ok enc ->
      net (app_search_request enc) = Rejected e \/
      (exists res, net (app_search_request enc) = Responded res /\
                   json host res = Throw e) ->
      App.doSearch host net w
      = (Throw e,
         mkWorld (dom w) (events w ++ [EvFetch (app_search_request enc)]))) /\
  (forall w st st' body,
      App.loadAll host (fun _ => Responded (mkResponse st body)) w
      = App.loadAll host (fun _ => Responded (mkResponse st' body)) w /\
      App.doSearch host (fun _ => Responded (mkResponse st body)) w
      = App.doSearch host (fun _ => Responded (mkResponse st' body)) w).
Proof.
  split; [|split; [|split; [|split; [|split]]]].
  - intros w H. apply btnAll_fails. now apply fails_api_result.
  - intros w c k enc Hk He H. eapply btnSearch_fails; try eassumption.
    now apply fails_api_result.
  - intros w H. apply btnSchedule_fails. now apply fails_api_result.
  - intros w H. now apply loadAll_fails.
  - intros w c q enc Hq He H. eapply doSearch_fails; eassumption.
  - intros w st st' body. split.
    + apply loadAll_ignores_status.
    + apply doSearch_ignores_status.
Qed.

Lemma C2_failures_caught_in_page_script_witness :
  fails Ref.host
        (Sample.not_found (get_request Ref.host Sample.origin
                                       Main.courses_path))
        (Error Sample.not_found_body) /\
  Main.btnAll_click Ref.host Sample.not_found Sample.origin Sample.page
  = (Ok tt,
     mkWorld (dom Sample.page)
             (get_trace Ref.host Sample.origin Main.courses_path
              ++ caught (lit "불러오기 실패: ")
                        (Error Sample.not_found_body))).
Proof.
  assert (H : fails Ref.host
                (Sample.not_found (get_request Ref.host Sample.origin
                                               Main.courses_path))
                (Error Sample.not_found_body)).
  { unfold Sample.not_found. apply bad_status; reflexivity. }
  split; [exact H|].
  destruct (C2_failures_caught_in_page_script Ref.host Sample.not_found
              Sample.origin (Error Sample.not_found_body)) as (Hall & _).
  rewrite (Hall Sample.page H). reflexivity.
Defined.

(** ** C5, C9: the body of a schedule request *)

Lemma drop_ws_head s c s' : drop_ws s = c :: s' -> is_ws c = false.
Proof.
  induction s as [|a s IH]; cbn [drop_ws]; [discriminate|].
  destruct (is_ws a) eqn:Ha; [exact IH|].
  intros [= <- _]. exact Ha.
Qed.

(** What [trim] returns is empty or is not blank. *)
Lemma trim_not_blank s : trim s <> [] -> blank (trim s) = false.
Proof.
  unfold trim, blank.
  destruct (drop_ws (rev (drop_ws s))) as [|c u] eqn:E.
  - intros H. now destruct H.
  - intros _. cbn [rev]. rewrite forallb_app. cbn [forallb].
    rewrite (drop_ws_head _ _ _ E). cbn [andb]. apply andb_false_r.
Qed.

Lemma grid_days_not_blank days s :
  In s (Main.grid_days days) -> s <> [] /\ blank s = false.
Proof.
  unfold Main.grid_days. intros H. apply filter_In in H.
  destruct H as [Hin Ht]. apply in_map_iff in Hin.
  destruct Hin as (t & <- & _).
  assert (Hne : trim t <> []).
  { intros E. rewrite E in Ht. discriminate. }
  split; [exact Hne|]. now apply trim_not_blank.
Qed.

(** C5.  The one request of a click on the schedule button is a POST to
    [/schedule] whose body is the JSON text of the payload, and the payload
    is one of two objects: when the requirements text is not empty once
    trimmed, the object with the single field [requirements_ko], that text;
    otherwise the object with the seven fields of the form, and no
    [requirements_ko]. *)
Theorem C5_schedule_body_shapes host net BASE (w : World Main.Dom) :
  Main.schedule_payload host (dom w) = Ok (schedule_body host (dom w)) /\
  sends (Main.btnSchedule_click host net BASE) w
        [mkRequest POST (URL_href host Main.schedule_path BASE)
                   [(lit "Content-Type", lit "application/json")]
                   (Some (JSON_stringify host (schedule_body host (dom w))))] /\
  (requirements (dom w) <> [] ->
   schedule_body host (dom w)
   = JObj [(lit "requirements_ko", JStr (requirements (dom w)))]) /\
  (requirements (dom w) = [] ->
   schedule_body host (dom w) = structured_body host (dom w) /\
   Object_keys host (schedule_body host (dom w))
   = Ok [lit "grid_days"; lit "blocks_per_day"; lit "block_minutes";
         lit "hard_no_friday_evening"; lit "soft_prefer_morning";
         lit "soft_prefer_compact_days"; lit "soft_weight"]).
Proof.
  split; [apply schedule_payload_eq|].
  split; [apply btnSchedule_sends|].
  unfold schedule_body, free_text_body. split.
  - intros H. destruct (requirements (dom w)); [now destruct H|reflexivity].
  - intros H. rewrite H. split; reflexivity.
Qed.

Lemma C5_schedule_body_shapes_witness :
  requirements (dom Sample.scheduling) = [] /\
  fetches (events (snd (Main.btnSchedule_click Ref.host Sample.unreachable
                          Sample.origin Sample.scheduling)))
  = [mkRequest POST (lit "http://localhost:8000/schedule")
       [(lit "Content-Type", lit "application/json")]
       (Some (litq "{'grid_days':['Mon','Tue','Wed'],'blocks_per_day':8,'block_minutes':50,'hard_no_friday_evening':false,'soft_prefer_morning':true,'soft_prefer_compact_days':false,'soft_weight':1}"))].
Proof.
  split; [vm_compute; reflexivity|].
  destruct (C5_schedule_body_shapes Ref.host Sample.unreachable Sample.origin
              Sample.scheduling) as (_ & H & _).
  unfold sends in H. rewrite H. vm_compute. reflexivity.
Defined.

(** C9.  With the requirements text blank, so that the structured body is
    built, and the three numeric controls empty, the payload carries
    [blocks_per_day] 8, [block_minutes] 50 and [soft_weight] 1, and it is
    the payload whose JSON text is sent; and whatever the days control
    holds, no string of [grid_days] is empty or made of whitespace only. *)
Theorem C9_schedule_defaults host net BASE (w : World Main.Dom) :
  requirements (dom w) = [] ->
  Main.blocks_value (dom w) = [] ->
  Main.minutes_value (dom w) = [] ->
  Main.weight_value (dom w) = [] ->
  let payload :=
    JObj [(lit "grid_days",
           JArr (map JStr (Main.grid_days (Main.days_value (dom w)))));
          (lit "blocks_per_day", JNum (Int 8));
          (lit "block_minutes", JNum (Int 50));
          (lit "hard_no_friday_evening", JBool (Main.noFri_checked (dom w)));
          (lit "soft_prefer_morning",
           JBool (Main.prefMorning_checked (dom w)));
          (lit "soft_prefer_compact_days",
           JBool (Main.prefCompact_checked (dom w)));
          (lit "soft_weight", JNum (Int 1))] in
  Main.schedule_payload host (dom w) = Ok payload /\
  sends (Main.btnSchedule_click host net BASE) w
        [post_request host BASE Main.schedule_path payload] /\
  forall days s, In s (Main.grid_days days) -> s <> [] /\ blank s = false.
Proof.
  intros Hr Hb Hm Hw payload.
  assert (E : schedule_body host (dom w) = payload).
  { unfold schedule_body, structured_body, payload.
    rewrite Hr, Hb, Hm, Hw. reflexivity. }
  split; [rewrite <- E; apply schedule_payload_eq|].
  split; [rewrite <- E; apply btnSchedule_sends|].
  apply grid_days_not_blank.
Qed.

Lemma C9_schedule_defaults_witness :
  requirements (dom Sample.scheduling) = [] /\
  Main.schedule_payload Ref.host (dom Sample.scheduling)
  = Ok (JObj [(lit "grid_days",
               JArr [JStr (lit "Mon"); JStr (lit "Tue"); JStr (lit "Wed")]);
              (lit "blocks_per_day", JNum (Int 8));
              (lit "block_minutes", JNum (Int 50));
              (lit "hard_no_friday_evening", JBool false);
              (lit "soft_prefer_morning", JBool true);
              (lit "soft_prefer_compact_days", JBool false);
              (lit "soft_weight", JNum (Int 1))]).
Proof.
  assert (Hr : requirements (dom Sample.scheduling) = [])
    by (vm_compute; reflexivity).
  split; [exact Hr|].
  destruct (C9_schedule_defaults Ref.host Sample.unreachable Sample.origin
              Sample.scheduling Hr eq_refl eq_refl eq_refl) as (H & _).
  rewrite H. vm_compute. reflexivity.
Defined.

(** ** C6: the parameters of a courses request *)

(** The claim of C6 as it is stated fails for app.js: the one request of
    [loadAll] is a GET of [/courses?limit=100], a URL with a [limit] and
    without an [offset]. *)
Lemma C6_counterexample :
  fetches (events (snd (App.loadAll Ref.host Sample.lists_courses
                                    Sample.app_page)))
  = [mkRequest GET (lit "/courses?limit=100") [] None] /\
  has_param (lit "limit") (lit "/courses?limit=100") = true /\
  has_param (lit "offset") (lit "/courses?limit=100") = false.
Proof. repeat (split; [vm_compute; reflexivity|]). vm_compute. reflexivity. Qed.

(** C6, amended.  Every GET of [/courses] carries [limit=100].  The request
    of the page script (the load-all button) is for the path
    [/courses?limit=100&offset=0], resolved against the origin, so it
    carries [offset=0] too; the request of app.js ([loadAll], also reached
    from [doSearch] with a blank query) is for [/courses?limit=100], with no
    [offset]. *)
Theorem C6_courses_request_parameters host net BASE :
  (forall w,
      sends (Main.btnAll_click host net BASE) w
            [mkRequest GET (URL_href host Main.courses_path BASE) [] None]) /\
  query_params Main.courses_path
  = [(lit "limit", lit "100"); (lit "offset", lit "0")] /\
  (forall w, sends (App.loadAll host net) w [app_courses_request]) /\
  (forall w,
      trim (App.q_value (dom w)) = [] ->
      sends (App.doSearch host net) w [app_courses_request]) /\
  req_method app_courses_request = GET /\
  query_params (req_url app_courses_request) = [(lit "limit", lit "100")].
Proof.
  split; [intros w; apply btnAll_sends|].
  split; [vm_compute; reflexivity|].
  split; [intros w; apply loadAll_sends|].
  split; [intros w; apply doSearch_sends_blank|].
  split; [reflexivity|]. vm_compute. reflexivity.
Qed.

Lemma C6_courses_request_parameters_witness :
  fetches (events (snd (Main.btnAll_click Ref.host Sample.lists_courses
                          Sample.origin Sample.page)))
  = [mkRequest GET (lit "http://localhost:8000/courses?limit=100&offset=0")
               [] None] /\
  trim (App.q_value (dom Sample.app_page)) = [] /\
  fetches (events (snd (App.doSearch Ref.host Sample.lists_courses
                          Sample.app_page)))
  = [mkRequest GET (lit "/courses?limit=100") [] None].
Proof.
  destruct (C6_courses_request_parameters Ref.host Sample.lists_courses
              Sample.origin) as (Hall & _ & _ & Hblank & _).
  assert (Hq : trim (App.q_value (dom Sample.app_page)) = [])
    by (vm_compute; reflexivity).
  split; [|split; [exact Hq|]].
  - specialize (Hall Sample.page). unfold sends in Hall. rewrite Hall.
    vm_compute. reflexivity.
  - specialize (Hblank Sample.app_page Hq). unfold sends in Hblank.
    rewrite Hblank. vm_compute. reflexivity.
Defined.

(** ** C8: the requests of a click *)

(** The claim of C8 as it is stated fails: a click on the search button of
    the page script with an empty search box sends no request at all; the
    handler asks for a keyword and returns. *)
Lemma C8_counterexample :
  keyword (dom Sample.page) = [] /\
  Main.btnSearch_click Ref.host Sample.search_hit Sample.origin Sample.page
  = (Ok tt, mkWorld (dom Sample.page)
                    [EvAlert (lit "키워드를 입력하세요.")]) /\
  fetches (events (snd (Main.btnSearch_click Ref.host Sample.search_hit
                          Sample.origin Sample.page))) = [].
Proof. repeat (split; [vm_compute; reflexivity|]). vm_compute. reflexivity. Qed.

(** C8, amended.  A click on the load-all button and a click on the schedule
    button send exactly one request each, whatever the page holds.  A click
    on the search button sends exactly one request when the keyword, once
    trimmed, is not empty and [encodeURIComponent] accepts it (when it
    holds a lone surrogate no request is sent: the page script alerts the
    URIError, [doSearch] throws it); with an empty keyword the page script
    sends none (it alerts that a keyword is needed) and [doSearch] of app.js
    sends the one request of [loadAll]. *)
Theorem C8_requests_per_click host net BASE :
  (forall w,
      sends (Main.btnAll_click host net BASE) w
            [get_request host BASE Main.courses_path]) /\
  (forall w,
      sends (Main.btnSchedule_click host net BASE) w
            [post_request host BASE Main.schedule_path
                          (schedule_body host (dom w))]) /\
  (forall w c k enc,
      keyword (dom w) = c :: k ->
      encodeURIComponent host (c :: k) = Ok enc ->
      sends (Main.btnSearch_click host net BASE) w
            [get_request host BASE (Main.search_path enc)]) /\
  (forall w,
      keyword (dom w) = [] ->
      Main.btnSearch_click host net BASE w
      = (Ok tt, mkWorld (dom w)
                        (events w ++ [EvAlert (lit "키워드를 입력하세요.")])) /\
      sends (Main.btnSearch_click host net BASE) w []) /\
  (forall w, sends (App.loadAll host net) w [app_courses_request]) /\
  (forall w c q enc,
      trim (App.q_value (dom w)) = c :: q ->
      encodeURIComponent host (c :: q) = Ok enc ->
      sends (App.doSearch host net) w [app_search_request enc]) /\
  (forall w,
      trim (App.q_value (dom w)) = [] ->
      sends (App.doSearch host net) w [app_courses_request]) /\
  (forall w c k e,
      keyword (dom w) = c :: k ->
      encodeURIComponent host (c :: k) = Throw e ->
      Main.btnSearch_click host net BASE w
      = (Ok tt, mkWorld (dom w) (events w ++ caught (lit "검색 실패: ") e))) /\
  (forall w c q e,
      trim (App.q_value (dom w)) = c :: q ->
      encodeURIComponent host (c :: q) = Throw e ->
      App.doSearch host net w = (Throw e, w)).
Proof.
  split; [intros w; apply btnAll_sends|].
  split; [intros w; apply btnSchedule_sends|].
  split; [intros w c k enc; apply btnSearch_sends|].
  split.
  { intros w Hk. split; [now apply btnSearch_blank|].
    unfold sends. rewrite (btnSearch_blank host net BASE w Hk).
    cbn [snd events]. rewrite fetches_app. reflexivity. }
  split; [intros w; apply loadAll_sends|].
  split; [intros w c q enc; apply doSearch_sends|].
  split; [intros w; apply doSearch_sends_blank|].
  split; [intros w c k e; apply btnSearch_malformed|].
  intros w c q e; apply doSearch_malformed.
Qed.

Lemma C8_requests_per_click_witness :
  keyword (dom Sample.searching) = lit "AI" /\
  encodeURIComponent Ref.host (lit "AI") = Ok (lit "AI") /\
  fetches (events (snd (Main.btnSearch_click Ref.host Sample.search_hit
                          Sample.origin Sample.searching)))
  = [mkRequest GET
       (lit "http://localhost:8000/search?q=AI&limit=100&offset=0")
       [] None].
Proof.
  assert (Hk : keyword (dom Sample.searching) = 65 :: [73])
    by (vm_compute; reflexivity).
  assert (He : encodeURIComponent Ref.host (65 :: [73]) = Ok (lit "AI"))
    by (vm_compute; reflexivity).
  split; [exact Hk|]. split; [exact He|].
  destruct (C8_requests_per_click Ref.host Sample.search_hit Sample.origin)
    as (_ & _ & Hsearch & _).
  specialize (Hsearch Sample.searching 65 [73] (lit "AI") Hk He).
  unfold sends in Hsearch. rewrite Hsearch. vm_compute. reflexivity.
Defined.

(** * Further properties of the two scripts *)

(** ** Computations that leave the effects alone *)

Section SilentFacts.

Context {D : Type}.

Lemma silent_ret {A} (a : A) : silent (D:=D) (ret a).
Proof. intros w. reflexivity. Qed.

Lemma silent_lift {A} (r : result A) : silent (D:=D) (lift r).
Proof. intros w. reflexivity. Qed.

Lemma silent_update (f : D -> D) : silent (update f).
Proof. intros w. reflexivity. Qed.

Lemma silent_bind {A B} (m : M D A) (k : A -> M D B) :
  silent m -> (forall a, silent (k a)) -> silent (bind m k).
Proof.
  intros Hm Hk w. unfold bind. specialize (Hm w).
  destruct (m w) as [[a|e] w'] eqn:E; cbn [snd] in *.
  - now rewrite (Hk a w').
  - exact Hm.
Qed.

Lemma silent_for_each {A} (f : A -> M D unit) items :
  (forall a, silent (f a)) -> silent (for_each f items).
Proof.
  intros Hf. induction items as [|x rest IH]; cbn [for_each].
  - apply silent_ret.
  - apply silent_bind; [apply Hf | intros _; exact IH].
Qed.

Lemma adds_then_silent {A B} (m : M D A) (k : A -> M D B) w new :
  adds m w new -> (forall a, silent (k a)) -> adds (bind m k) w new.
Proof.
  intros Hm Hk. unfold adds, bind in *.
  destruct (m w) as [[a|e] w'] eqn:E; cbn [snd] in *.
  - now rewrite (Hk a w').
  - exact Hm.
Qed.

End SilentFacts.

Section RendererFacts.

Variable host : Host.

Lemma silent_render rows : silent (App.render host rows).
Proof.
  unfold App.render.
  repeat first [ apply silent_bind; [|intros ?]
               | apply silent_for_each; intros ?
               | apply silent_update | apply silent_lift
               | match goal with
                 | |- silent (if ?b then _ else _) => destruct b
                 | |- silent (match ?x with _ => _ end) => destruct x
                 end ].
Qed.

Lemma silent_renderCourses list total :
  silent (Main.renderCourses host list total).
Proof.
  unfold Main.renderCourses.
  repeat first [ apply silent_bind; [|intros ?]
               | apply silent_update | apply silent_lift
               | match goal with
                 | |- silent (if ?b then _ else _) => destruct b
                 end ].
Qed.

Lemma silent_renderAssignments a :
  silent (Main.renderAssignments host a).
Proof.
  unfold Main.renderAssignments.
  repeat first [ apply silent_bind; [|intros ?]
               | apply silent_update | apply silent_lift | apply silent_ret
               | match goal with
                 | |- silent (if ?b then _ else _) => destruct b
                 end ].
Qed.

End RendererFacts.

(** ** The click handlers never throw *)

Section SettledFacts.

Variable host : Host.
Variable net : Request -> Outcome.
Variable BASE : jsstring.

(** A [try] whose body adds [new] and whose [catch] logs and alerts. *)
Lemma try_caught prefix (m : M Main.Dom unit) w new :
  adds m w new ->
  let r := try_catch m (fun e => emit (EvError e) ;;
                                 alert (prefix ++ err_message e)) w in
  fst r = Ok tt /\
  (events (snd r) = events w ++ new \/
   exists e, events (snd r) = events w ++ new ++ caught prefix e).
Proof.
  intros Hm. cbv zeta. unfold adds in Hm. unfold try_catch.
  destruct (m w) as [[[]|e] w'] eqn:E; cbn [snd fst] in *.
  - split; [reflexivity|]. now left.
  - rewrite run_caught. cbn [fst snd events]. split; [reflexivity|].
    right. exists e. rewrite Hm. now rewrite <- app_assoc.
Qed.

Lemma adds_apiGet path w :
  adds (Main.apiGet host net BASE path) w (get_trace host BASE path).
Proof. unfold adds. rewrite apiGet_eq. reflexivity. Qed.

Lemma adds_apiPost path body w :
  adds (Main.apiPost host net BASE path body) w
       (post_trace host BASE path body).
Proof. unfold adds. rewrite apiPost_eq. reflexivity. Qed.

Lemma settled_shape w r trace prefix :
  (length (fetches trace) <= 1)%nat ->
  alerts trace = [] ->
  forallb (fun ev => match ev with EvUnhandled _ => false | _ => true end)
          trace = true ->
  fst r = Ok tt ->
  (events (snd r) = events w ++ trace \/
   exists e, events (snd r) = events w ++ trace ++ caught prefix e) ->
  settled w r.
Proof.
  intros Hf Ha Hu Hr [H|[e H]]; split; try exact Hr.
  - exists trace. rewrite Ha. cbn [length]. repeat split; auto.
  - exists (trace ++ caught prefix e).
    rewrite fetches_app, forallb_app, Hu.
    assert (Hal : alerts (trace ++ caught prefix e)
                  = [prefix ++ err_message e]).
    { clear - Ha. induction trace as [|ev t IH]; [reflexivity|].
      destruct ev; cbn [alerts app] in *; try (now apply IH).
      discriminate. }
    rewrite Hal. cbn [caught fetches forallb length andb app].
    rewrite app_nil_r. repeat split; auto.
Qed.

Lemma btnAll_settled w :
  settled w (Main.btnAll_click host net BASE w).
Proof.
  destruct (try_caught (lit "불러오기 실패: ")
              (data <- Main.apiGet host net BASE Main.courses_path ;;
               Main.renderCourses host data JUndefined)
              w (get_trace host BASE Main.courses_path)) as [Hr Hs].
  { apply adds_then_silent; [apply adds_apiGet|].
    intros data. apply silent_renderCourses. }
  eapply settled_shape; [| | |exact Hr|exact Hs]; reflexivity.
Qed.

Lemma btnSchedule_settled w :
  settled w (Main.btnSchedule_click host net BASE w).
Proof.
  rewrite btnSchedule_body.
  destruct (try_caught (lit "배정 실패: ")
              (res <- Main.apiPost host net BASE Main.schedule_path
                                   (schedule_body host (dom w)) ;;
               markup <- lift (Main.summary_markup host res) ;;
               update (Main.set_summary (innerHTML markup)) ;;
               assignments <- lift (Main.solution_assignments host res) ;;
               Main.renderAssignments host assignments)
              w (post_trace host BASE Main.schedule_path
                            (schedule_body host (dom w)))) as [Hr Hs].
  { apply adds_then_silent; [apply adds_apiPost|].
    intros res.
    repeat first [ apply silent_renderAssignments
                 | apply silent_bind; [|intros ?]
                 | apply silent_update | apply silent_lift ]. }
  eapply settled_shape; [| | |exact Hr|exact Hs]; reflexivity.
Qed.

Lemma btnSearch_settled w :
  settled w (Main.btnSearch_click host net BASE w).
Proof.
  destruct (keyword (dom w)) as [|c k] eqn:Hk.
  - rewrite (btnSearch_blank host net BASE w Hk).
    split; [reflexivity|].
    exists [EvAlert (lit "키워드를 입력하세요.")]. cbn.
    repeat split; auto.
  - destruct (encodeURIComponent host (c :: k)) as [enc|e] eqn:He.
    + rewrite (btnSearch_body host net BASE c k w Hk).
      destruct (try_caught (lit "검색 실패: ")
                  (enc <- lift (encodeURIComponent host (c :: k)) ;;
                   data <- Main.apiGet host net BASE (Main.search_path enc) ;;
                   results <- lift (get_prop host data (lit "results")) ;;
                   total <- lift (get_prop host data (lit "total")) ;;
                   Main.renderCourses host results total)
                  w (get_trace host BASE (Main.search_path enc)))
        as [Hr Hs].
      { unfold adds. unfold bind at 1. unfold lift at 1. rewrite He.
        apply adds_then_silent; [apply adds_apiGet|].
        intros data.
        repeat first [ apply silent_renderCourses
                     | apply silent_bind; [|intros ?]
                     | apply silent_lift ]. }
      eapply settled_shape; [| | |exact Hr|exact Hs]; reflexivity.
    + rewrite (btnSearch_malformed host net BASE c k e w Hk He).
      apply (settled_shape w _ [] (lit "검색 실패: "));
        [cbn; lia|reflexivity|reflexivity|reflexivity|].
      right. exists e. reflexivity.
Qed.

End SettledFacts.

(** X1.  Nothing escapes the [try] of a click handler of the page script:
    whatever the page holds, whatever the network answers and whatever the
    response is, each of the three handlers ends normally, having sent at
    most one request and shown at most one alert, and leaves no rejection
    unhandled. *)
Theorem page_handlers_settle host net BASE (w : World Main.Dom) :
  settled w (Main.btnAll_click host net BASE w) /\
  settled w (Main.btnSearch_click host net BASE w) /\
  settled w (Main.btnSchedule_click host net BASE w).
Proof.
  split; [apply btnAll_settled|].
  split; [apply btnSearch_settled|apply btnSchedule_settled].
Qed.

(** ** Calls nobody awaits *)

Section SpawnFacts.

Context {D : Type}.

Lemma spawn_ok (m : M D unit) w : fst (m w) = Ok tt -> spawn m w = m w.
Proof.
  unfold spawn, try_catch. destruct (m w) as [[[]|e] w']; cbn [fst].
  - reflexivity.
  - discriminate.
Qed.

Lemma spawn_returns (m : M D unit) w : fst (spawn m w) = Ok tt.
Proof.
  unfold spawn, try_catch. destruct (m w) as [[[]|e] w']; reflexivity.
Qed.

End SpawnFacts.

Lemma silent_fetch_rest host (res : Response) :
  silent (data <- lift (json host res) ;;
          len <- lift (get_prop host data (lit "length")) ;;
          n <- lift (ToString host len) ;;
          update (App.set_meta (lit "표시: " ++ n ++ lit "건")) ;;
          App.render host data).
Proof.
  repeat first [ apply silent_render
               | apply silent_bind; [|intros ?]
               | apply silent_update | apply silent_lift ].
Qed.

(** [loadAll] adds its one request to the effects, and nothing else. *)
Lemma adds_loadAll host net w :
  adds (App.loadAll host net) w [EvFetch app_courses_request].
Proof.
  unfold App.loadAll. apply adds_then_silent.
  - unfold adds, fetch, bind, emit, app_courses_request. cbn [dom events].
    destruct (net _); reflexivity.
  - intros res. apply silent_fetch_rest.
Qed.

(** X2.  The page script starts by clicking the load-all button, and the
    call is not awaited; since the handler catches whatever its body
    throws, the start of the page is one run of the handler and leaves no
    rejection unhandled, whatever the network answers. *)
Theorem page_start_is_a_click host net BASE (w : World Main.Dom) :
  page_start host net BASE w = Main.btnAll_click host net BASE w /\
  unhandled (events (snd (page_start host net BASE w)))
  = unhandled (events w).
Proof.
  assert (E : page_start host net BASE w = Main.btnAll_click host net BASE w).
  { unfold page_start. apply spawn_ok. apply btnAll_settled. }
  split; [exact E|]. rewrite E.
  destruct (btnAll_settled host net BASE w) as (_ & new & Hev & _ & _ & Hu).
  rewrite Hev. clear - Hu.
  induction (events w) as [|ev evs IH]; cbn [app unhandled].
  - induction new as [|ev new IH]; [reflexivity|].
    cbn [forallb] in Hu. apply andb_true_iff in Hu. destruct Hu as [H1 H2].
    destruct ev; cbn [unhandled]; try (now apply IH). discriminate.
  - destruct ev; cbn [unhandled]; now rewrite IH.
Qed.

(** X3.  app.js starts [loadAll] from the DOMContentLoaded listener, and
    [doSearch] calls it for a blank query; neither awaits it nor catches.
    Such a call always sends the one request for the courses and never
    alerts; when [loadAll] throws, the error is shown nowhere on the page
    and is left as an unhandled rejection, and the caller still ends
    normally. *)
Theorem unawaited_loadAll host net (w : World App.Dom) :
  fst (app_start host net w) = Ok tt /\
  alerts (events (snd (app_start host net w))) = alerts (events w) /\
  fetches (events (snd (app_start host net w)))
  = fetches (events w) ++ [app_courses_request] /\
  (forall e w',
      App.loadAll host net w = (Throw e, w') ->
      app_start host net w
      = (Ok tt, mkWorld (dom w')
                        (events w ++ [EvFetch app_courses_request;
                                      EvUnhandled e]))) /\
  (trim (App.q_value (dom w)) = [] ->
   App.doSearch host net w = app_start host net w).
Proof.
  pose proof (adds_loadAll host net w) as Ha. unfold adds in Ha.
  assert (Hal : forall evs evs', alerts (evs ++ evs')
                                 = alerts evs ++ alerts evs').
  { intros evs evs'. induction evs as [|ev evs IH]; [reflexivity|].
    destruct ev; cbn [app alerts]; now rewrite IH. }
  split; [apply spawn_returns|].
  unfold app_start, spawn, try_catch.
  destruct (App.loadAll host net w) as [[[]|e] w'] eqn:E; cbn [snd fst] in *.
  - split; [rewrite Ha, Hal; cbn [alerts]; now rewrite app_nil_r|].
    split; [rewrite Ha, fetches_app; reflexivity|].
    split; [intros e w'' [=]|].
    intros Hq. rewrite (doSearch_blank host net w Hq).
    unfold spawn, try_catch. now rewrite E.
  - cbn [emit snd events dom]. rewrite Ha.
    split; [rewrite !Hal; cbn [alerts]; now rewrite !app_nil_r|].
    split; [rewrite !fetches_app; cbn [fetches]; now rewrite app_nil_r|].
    split.
    + intros e0 w0 [= <- <-]. unfold emit. rewrite Ha.
      now rewrite <- app_assoc.
    + intros Hq. rewrite (doSearch_blank host net w Hq).
      unfold spawn, try_catch. rewrite E. reflexivity.
Qed.

Lemma unawaited_loadAll_witness :
  App.loadAll Ref.host Sample.unreachable Sample.app_page
  = (Throw Sample.unreachable_error,
     mkWorld (dom Sample.app_page) [EvFetch app_courses_request]) /\
  trim (App.q_value (dom Sample.app_page)) = [] /\
  App.doSearch Ref.host Sample.unreachable Sample.app_page
  = (Ok tt, mkWorld (dom Sample.app_page)
                    [EvFetch app_courses_request;
                     EvUnhandled Sample.unreachable_error]).
Proof.
  assert (H : App.loadAll Ref.host Sample.unreachable Sample.app_page
              = (Throw Sample.unreachable_error,
                 mkWorld (dom Sample.app_page) [EvFetch app_courses_request]))
    by (vm_compute; reflexivity).
  assert (Hq : trim (App.q_value (dom Sample.app_page)) = [])
    by (vm_compute; reflexivity).
  split; [exact H|]. split; [exact Hq|].
  destruct (unawaited_loadAll Ref.host Sample.unreachable Sample.app_page)
    as (_ & _ & _ & Hthrow & Hblank).
  rewrite (Hblank Hq). exact (Hthrow _ _ H).
Defined.

(** ** What the API helpers return *)

Lemma api_result_answers host o v :
  api_result host o = Ok v <-> answers host o v.
Proof.
  split.
  - destruct o as [e|res]; cbn [api_result]; [discriminate|].
    destruct (text res) as [txt|e] eqn:Ht; cbn [rbind]; [|discriminate].
    destruct (ok res) eqn:Hok; [|discriminate].
    intros Hp. exists res, txt. now repeat split.
  - intros (res & txt & -> & Hok & Ht & Hp).
    cbn [api_result]. rewrite Ht. cbn [rbind]. now rewrite Hok.
Qed.

(** X4.  [apiGet] and [apiPost] return a value exactly when the response
    has a status in 200-299 and a body that is JSON, and the value is then
    what [JSON.parse] makes of the body: no value ever comes from the body
    of an error response.  The page is left as it was, and the console line
    and the request are the only effects. *)
Theorem api_returns_parsed_2xx host net BASE path body
  (w w' : World Main.Dom) (v : JsValue) :
  (Main.apiGet host net BASE path w = (Ok v, w') <->
   answers host (net (get_request host BASE path)) v /\
   w' = mkWorld (dom w) (events w ++ get_trace host BASE path)) /\
  (Main.apiPost host net BASE path body w = (Ok v, w') <->
   answers host (net (post_request host BASE path body)) v /\
   w' = mkWorld (dom w) (events w ++ post_trace host BASE path body)).
Proof.
  split.
  - rewrite apiGet_eq. fold (get_trace host BASE path).
    rewrite <- api_result_answers. split.
    + intros [= H <-]. now split.
    + intros [H ->]. now rewrite H.
  - rewrite apiPost_eq. fold (post_trace host BASE path body).
    rewrite <- api_result_answers. split.
    + intros [= H <-]. now split.
    + intros [H ->]. now rewrite H.
Qed.

Lemma api_returns_parsed_2xx_witness :
  answers Ref.host
          (Sample.lists_courses
             (get_request Ref.host Sample.origin Main.courses_path))
          (JArr Sample.courses) /\
  Main.apiGet Ref.host Sample.lists_courses Sample.origin Main.courses_path
              Sample.page
  = (Ok (JArr Sample.courses),
     mkWorld (dom Sample.page)
             (events Sample.page
              ++ get_trace Ref.host Sample.origin Main.courses_path)).
Proof.
  assert (H : answers Ref.host
                (Sample.lists_courses
                   (get_request Ref.host Sample.origin Main.courses_path))
                (JArr Sample.courses)).
  { exists (mkResponse 200 (Ok Sample.courses_body)), Sample.courses_body.
    split; [reflexivity|]. split; [reflexivity|]. split; [reflexivity|].
    vm_compute. reflexivity. }
  split; [exact H|].
  apply (api_returns_parsed_2xx Ref.host Sample.lists_courses Sample.origin
           Main.courses_path JNull Sample.page).
  split; [exact H|reflexivity].
Defined.

(** ** What a handler leaves alone *)

Section KeepsFacts.

Context {D X : Type}.
Variable f : D -> X.

Lemma keeps_ret {A} (a : A) : keeps f (ret a).
Proof. intros w. reflexivity. Qed.

Lemma keeps_lift {A} (r : result A) : keeps f (lift r).
Proof. intros w. reflexivity. Qed.

Lemma keeps_throw {A} e : keeps f (@throw D A e).
Proof. intros w. reflexivity. Qed.

Lemma keeps_emit ev : keeps f (emit ev).
Proof. intros w. reflexivity. Qed.

Lemma keeps_get_dom : keeps f get_dom.
Proof. intros w. reflexivity. Qed.

Lemma keeps_update g : (forall d, f (g d) = f d) -> keeps f (update g).
Proof. intros H w. apply H. Qed.

Lemma keeps_bind {A B} (m : M D A) (k : A -> M D B) :
  keeps f m -> (forall a, keeps f (k a)) -> keeps f (bind m k).
Proof.
  intros Hm Hk w. unfold bind. specialize (Hm w).
  destruct (m w) as [[a|e] w'] eqn:E; cbn [snd] in *.
  - now rewrite (Hk a w').
  - exact Hm.
Qed.

Lemma keeps_try {A} (m : M D A) h :
  keeps f m -> (forall e, keeps f (h e)) -> keeps f (try_catch m h).
Proof.
  intros Hm Hh w. unfold try_catch. specialize (Hm w).
  destruct (m w) as [[a|e] w'] eqn:E; cbn [snd] in *.
  - exact Hm.
  - now rewrite (Hh e w').
Qed.

Lemma keeps_for_each {A} (g : A -> M D unit) items :
  (forall a, keeps f (g a)) -> keeps f (for_each g items).
Proof.
  intros Hg. induction items as [|x rest IH]; cbn [for_each].
  - apply keeps_ret.
  - apply keeps_bind; [apply Hg | intros _; exact IH].
Qed.

Lemma keeps_fetch net req : keeps f (fetch net req).
Proof.
  intros w. unfold fetch, bind, emit. cbn [dom events].
  destruct (net req); reflexivity.
Qed.

End KeepsFacts.

Ltac keeps_step :=
  first
    [ apply keeps_ret | apply keeps_lift | apply keeps_throw
    | apply keeps_emit | apply keeps_get_dom | apply keeps_fetch
    | apply keeps_update; intros []; reflexivity
    | apply keeps_bind; [|intros ?]
    | apply keeps_try; [|intros ?]
    | apply keeps_for_each; intros ?
    | match goal with
      | |- keeps _ (if ?b then _ else _) => destruct b
      | |- keeps _ (match ?x with _ => _ end) => destruct x
      end ].

Section FrameFacts.

Variable host : Host.
Variable net : Request -> Outcome.
Variable BASE : jsstring.

Lemma keeps_apiGet {X} (f : Main.Dom -> X) path :
  keeps f (Main.apiGet host net BASE path).
Proof. intros w. rewrite apiGet_eq. reflexivity. Qed.

Lemma keeps_apiPost {X} (f : Main.Dom -> X) path body :
  keeps f (Main.apiPost host net BASE path body).
Proof. intros w. rewrite apiPost_eq. reflexivity. Qed.

Lemma renderCourses_keeps list total :
  keeps (fun d => (controls d, schedule_part d))
        (Main.renderCourses host list total).
Proof. unfold Main.renderCourses. repeat keeps_step. Qed.

Lemma renderAssignments_keeps a :
  keeps (fun d => (controls d, courses_part d, Main.summary d))
        (Main.renderAssignments host a).
Proof. unfold Main.renderAssignments. repeat keeps_step. Qed.

Lemma render_keeps rows :
  keeps (fun d => (App.q_value d, App.meta d)) (App.render host rows).
Proof. unfold App.render. repeat keeps_step. Qed.

Lemma btnAll_keeps :
  keeps (fun d => (controls d, schedule_part d))
        (Main.btnAll_click host net BASE).
Proof.
  unfold Main.btnAll_click.
  apply keeps_try; [|intros e; repeat keeps_step].
  apply keeps_bind; [apply keeps_apiGet|intros data].
  apply renderCourses_keeps.
Qed.

Lemma btnSearch_keeps :
  keeps (fun d => (controls d, schedule_part d))
        (Main.btnSearch_click host net BASE).
Proof.
  unfold Main.btnSearch_click.
  apply keeps_bind; [apply keeps_get_dom|intros d].
  match goal with |- keeps _ (if ?b then _ else _) => destruct b end.
  - apply keeps_emit.
  - apply keeps_try; [|intros e; repeat keeps_step].
    apply keeps_bind; [apply keeps_lift|intros enc].
    apply keeps_bind; [apply keeps_apiGet|intros data].
    apply keeps_bind; [apply keeps_lift|intros results].
    apply keeps_bind; [apply keeps_lift|intros total].
    apply renderCourses_keeps.
Qed.

Lemma btnSchedule_keeps :
  keeps (fun d => (controls d, courses_part d))
        (Main.btnSchedule_click host net BASE).
Proof.
  unfold Main.btnSchedule_click.
  apply keeps_try; [|intros e; repeat keeps_step].
  apply keeps_bind; [apply keeps_get_dom|intros d].
  apply keeps_bind; [apply keeps_lift|intros payload].
  apply keeps_bind; [apply keeps_apiPost|intros res].
  apply keeps_bind; [apply keeps_lift|intros markup].
  apply keeps_bind; [apply keeps_update; intros []; reflexivity|intros _].
  apply keeps_bind; [apply keeps_lift|intros a].
  intros w. exact (f_equal fst (renderAssignments_keeps a w)).
Qed.

Lemma loadAll_keeps : keeps App.q_value (App.loadAll host net).
Proof.
  unfold App.loadAll.
  apply keeps_bind; [apply keeps_fetch|intros res].
  apply keeps_bind; [apply keeps_lift|intros data].
  apply keeps_bind; [apply keeps_lift|intros len].
  apply keeps_bind; [apply keeps_lift|intros n].
  apply keeps_bind; [apply keeps_update; intros []; reflexivity|intros _].
  intros w. exact (f_equal fst (render_keeps data w)).
Qed.

Lemma doSearch_keeps : keeps App.q_value (App.doSearch host net).
Proof.
  unfold App.doSearch.
  apply keeps_bind; [apply keeps_get_dom|intros d].
  match goal with |- keeps _ (if ?b then _ else _) => destruct b end.
  - unfold spawn. apply keeps_try; [apply loadAll_keeps|].
    intros e. apply keeps_emit.
  - apply keeps_bind; [apply keeps_lift|intros enc].
    apply keeps_bind; [apply keeps_fetch|intros res].
    apply keeps_bind; [apply keeps_lift|intros data].
    apply keeps_bind; [apply keeps_lift|intros total].
    apply keeps_bind; [apply keeps_lift|intros n].
    apply keeps_bind; [apply keeps_update; intros []; reflexivity|intros _].
    apply keeps_bind; [apply keeps_lift|intros results].
    intros w. exact (f_equal fst (render_keeps results w)).
Qed.

End FrameFacts.

(** X5.  Each handler writes only to its own part of the page, whether it
    succeeds, fails or alerts.  No handler changes a form control; the
    load-all and the search button leave the summary and the assignments as
    they were; the schedule button leaves the count and the table of
    courses as they were; [loadAll] and [doSearch] of app.js leave the
    search box as it was. *)
Theorem handlers_write_their_part host net BASE
  (w : World Main.Dom) (wa : World App.Dom) :
  (let d := dom (snd (Main.btnAll_click host net BASE w)) in
   controls d = controls (dom w) /\
   schedule_part d = schedule_part (dom w)) /\
  (let d := dom (snd (Main.btnSearch_click host net BASE w)) in
   controls d = controls (dom w) /\
   schedule_part d = schedule_part (dom w)) /\
  (let d := dom (snd (Main.btnSchedule_click host net BASE w)) in
   controls d = controls (dom w) /\
   courses_part d = courses_part (dom w)) /\
  App.q_value (dom (snd (App.loadAll host net wa))) = App.q_value (dom wa) /\
  App.q_value (dom (snd (App.doSearch host net wa))) = App.q_value (dom wa).
Proof.
  pose proof (btnAll_keeps host net BASE w) as H1.
  pose proof (btnSearch_keeps host net BASE w) as H2.
  pose proof (btnSchedule_keeps host net BASE w) as H3.
  cbv beta in H1, H2, H3. cbv zeta.
  split; [split; [exact (f_equal fst H1)|exact (f_equal snd H1)]|].
  split; [split; [exact (f_equal fst H2)|exact (f_equal snd H2)]|].
  split; [split; [exact (f_equal fst H3)|exact (f_equal snd H3)]|].
  split; [apply loadAll_keeps|apply doSearch_keeps].
Qed.

(** ** Rendering again *)

Section RenderAgain.

Variable host : Host.

(** [render] starts by emptying the head and the body of the table. *)
Lemma render_from_cleared rows (w : World App.Dom) :
  App.render host rows w
  = App.render host rows
      (mkWorld (App.mkDom (App.q_value (dom w)) (App.meta (dom w)) [] [])
               (events w)).
Proof. destruct w as [[q m th tb] evs]. reflexivity. Qed.

Lemma renderAssignments_from_cleared a (w : World Main.Dom) :
  Main.renderAssignments host a w
  = Main.renderAssignments host a
      (mkWorld (Main.set_assignmentsWrap [] (dom w)) (events w)).
Proof. destruct w as [[] evs]. reflexivity. Qed.

Lemma renderCourses_from_cleared list total info (w : World Main.Dom) :
  Main.courses_info host list (Main.or_null total) = Ok info ->
  Main.renderCourses host list total w
  = Main.renderCourses host list total
      (mkWorld (Main.set_coursesWrap [] (Main.set_coursesInfo info (dom w)))
               (events w)).
Proof.
  intros Hinfo. destruct w as [[] evs]. unfold Main.renderCourses.
  unfold bind at 1. cbn [update dom events].
  unfold bind at 1. unfold lift at 1. rewrite Hinfo.
  reflexivity.
Qed.

Lemma render_again rows rows' (w : World App.Dom) :
  App.render host rows (snd (App.render host rows' w))
  = App.render host rows w.
Proof.
  rewrite render_from_cleared. symmetry. rewrite render_from_cleared.
  pose proof (render_keeps host rows' w) as Hk. cbv beta in Hk.
  injection Hk as -> ->. now rewrite silent_render.
Qed.

Lemma renderAssignments_again a a' (w : World Main.Dom) :
  Main.renderAssignments host a (snd (Main.renderAssignments host a' w))
  = Main.renderAssignments host a w.
Proof.
  rewrite renderAssignments_from_cleared. symmetry.
  rewrite renderAssignments_from_cleared.
  pose proof (renderAssignments_keeps host a' w) as Hk. cbv beta in Hk.
  rewrite silent_renderAssignments.
  destruct (dom (snd (Main.renderAssignments host a' w))), (dom w).
  unfold controls, courses_part in Hk. cbn in Hk.
  injection Hk as <- <- <- <- <- <- <- <- <- <- <- <-. reflexivity.
Qed.

Lemma renderCourses_again list total list' total' info (w : World Main.Dom) :
  Main.courses_info host list (Main.or_null total) = Ok info ->
  Main.renderCourses host list total
    (snd (Main.renderCourses host list' total' w))
  = Main.renderCourses host list total w.
Proof.
  intros Hinfo.
  rewrite (renderCourses_from_cleared list total info _ Hinfo). symmetry.
  rewrite (renderCourses_from_cleared list total info _ Hinfo).
  pose proof (renderCourses_keeps host list' total' w) as Hk. cbv beta in Hk.
  rewrite silent_renderCourses.
  destruct (dom (snd (Main.renderCourses host list' total' w))), (dom w).
  unfold controls, schedule_part in Hk. cbn in Hk.
  injection Hk as <- <- <- <- <- <- <- <- <- <- <-. reflexivity.
Qed.

(** When the count cannot be computed, the wrapper has been emptied and
    the text of the count is the one of the render before. *)
Lemma renderCourses_stale list total e (w : World Main.Dom) :
  Main.courses_info host list (Main.or_null total) = Throw e ->
  Main.renderCourses host list total w
  = (Throw e, mkWorld (Main.set_coursesWrap [] (dom w)) (events w)).
Proof.
  intros Hinfo. unfold Main.renderCourses.
  unfold bind at 1. cbn [update dom events].
  unfold bind at 1. unfold lift at 1. rewrite Hinfo. reflexivity.
Qed.

End RenderAgain.

(** X6.  What a renderer shows is decided by its last call alone.  [render]
    and [renderAssignments] give the same page and the same outcome
    whether or not something was rendered before, for every argument, also
    one on which they throw.  [renderCourses] does so whenever the text of
    the count can be computed; when it cannot (the list is [null] or
    [undefined], or the total has no string conversion), the call throws
    with the wrapper emptied and the count of the render before left in
    place. *)
Theorem last_render_wins host :
  (forall rows rows' (w : World App.Dom),
      App.render host rows (snd (App.render host rows' w))
      = App.render host rows w) /\
  (forall a a' (w : World Main.Dom),
      Main.renderAssignments host a (snd (Main.renderAssignments host a' w))
      = Main.renderAssignments host a w) /\
  (forall list total list' total' info (w : World Main.Dom),
      Main.courses_info host list (Main.or_null total) = Ok info ->
      Main.renderCourses host list total
        (snd (Main.renderCourses host list' total' w))
      = Main.renderCourses host list total w) /\
  (forall list total e (w : World Main.Dom),
      Main.courses_info host list (Main.or_null total) = Throw e ->
      Main.renderCourses host list total w
      = (Throw e, mkWorld (Main.set_coursesWrap [] (dom w)) (events w))).
Proof.
  split; [apply render_again|].
  split; [apply renderAssignments_again|].
  split; [apply renderCourses_again|apply renderCourses_stale].
Qed.

Lemma last_render_wins_witness :
  Main.courses_info Ref.host (JArr []) (Main.or_null JUndefined)
  = Ok (lit "총 0건") /\
  Main.courses_info Ref.host JNull (Main.or_null JUndefined)
  = fault Ref.host (ReadOfNullish JNull (lit "length")) /\
  (let shown :=
     snd (Main.renderCourses Ref.host (JArr Sample.courses) JUndefined
                             Sample.page) in
   Main.renderCourses Ref.host (JArr []) JUndefined shown
   = Main.renderCourses Ref.host (JArr []) JUndefined Sample.page /\
   let left := dom (snd (Main.renderCourses Ref.host JNull JUndefined shown)) in
   Main.coursesWrap left = [] /\ Main.coursesInfo left = lit "총 2건").
Proof.
  assert (H0 : Main.courses_info Ref.host (JArr []) (Main.or_null JUndefined)
               = Ok (lit "총 0건")) by (vm_compute; reflexivity).
  assert (H1 : Main.courses_info Ref.host JNull (Main.or_null JUndefined)
               = fault Ref.host (ReadOfNullish JNull (lit "length")))
    by (vm_compute; reflexivity).
  split; [exact H0|]. split; [exact H1|].
  destruct (last_render_wins Ref.host) as (_ & _ & Hok & Hstale).
  cbv zeta. split.
  - exact (Hok (JArr []) JUndefined (JArr Sample.courses) JUndefined _
               Sample.page H0).
  - unfold fault in H1. rewrite (Hstale JNull JUndefined _ _ H1).
    split; vm_compute; reflexivity.
Defined.

(** ** A row that cannot be rendered *)

Section FailingRow.

Variable host : Host.

Lemma collect_stops {A B} (f : A -> result B) pre bad post ys e :
  Forall2 (fun x y => f x = Ok y) pre ys ->
  f bad = Throw e ->
  collect (map f (pre ++ bad :: post)) = Throw e.
Proof.
  intros Hpre Hbad. induction Hpre as [|x y pre ys Hx _ IH].
  - cbn [app map collect]. rewrite Hbad. reflexivity.
  - cbn [app map collect]. rewrite Hx. cbn [rbind]. rewrite IH. reflexivity.
Qed.

(** The loop of [render] stops at the first row that throws, with the rows
    before it appended. *)
Lemma for_each_stops cols pre bad post trs e (w : World App.Dom) :
  Forall2 (fun r el => tr host cols r = Ok el) pre trs ->
  tr host cols bad = Throw e ->
  for_each (fun r => el <- lift (tr host cols r) ;;
                     update (App.append_tbody el)) (pre ++ bad :: post) w
  = (Throw e, mkWorld (App.set_tbody (App.tbody (dom w) ++ trs) (dom w))
                      (events w)).
Proof.
  intros Hpre Hbad. revert w.
  induction Hpre as [|r el pre trs Hr _ IH]; intros w.
  - cbn [app for_each]. unfold bind at 1. unfold bind at 1. unfold lift at 1.
    rewrite Hbad. destruct w as [[q m th tb] evs].
    unfold App.set_tbody. cbn. now rewrite app_nil_r.
  - cbn [app for_each]. unfold bind at 1. unfold bind at 1. unfold lift at 1.
    rewrite Hr. cbn [update]. rewrite IH.
    destruct w as [[q m th tb] evs]. unfold App.set_tbody, App.append_tbody.
    cbn. now rewrite <- app_assoc.
Qed.

Lemma render_stops first rest cols pre bad post trs e (w : World App.Dom) :
  first :: rest = pre ++ bad :: post ->
  Object_keys host first = Ok cols ->
  Forall2 (fun r el => tr host cols r = Ok el) pre trs ->
  tr host cols bad = Throw e ->
  App.render host (JArr (first :: rest)) w
  = (Throw e, mkWorld (App.mkDom (App.q_value (dom w)) (App.meta (dom w))
                                 [Markup (header_row cols)] trs)
                      (events w)).
Proof.
  intros Hsplit Hk Hpre Hbad. unfold App.render.
  unfold bind at 1. cbn [update].
  unfold bind at 1. cbn [update].
  unfold bind at 1. unfold lift at 1. rewrite get_length.
  rewrite length_truthy. cbn [negb].
  unfold bind at 1. unfold lift at 1. rewrite get_first.
  unfold bind at 1. unfold lift at 1. rewrite Hk.
  unfold bind at 1. cbn [update].
  rewrite Hsplit.
  rewrite (for_each_stops cols pre bad post trs e _ Hpre Hbad).
  destruct w as [[q m th tb] evs]. reflexivity.
Qed.

Lemma renderCourses_stops first rest total info cols pre bad post trs e
  (w : World Main.Dom) :
  first :: rest = pre ++ bad :: post ->
  Object_keys host (js_or first (JObj [])) = Ok cols ->
  Main.courses_info host (JArr (first :: rest)) (Main.or_null total)
    = Ok info ->
  Forall2 (fun r el => tr host cols r = Ok el) pre trs ->
  tr host cols bad = Throw e ->
  Main.renderCourses host (JArr (first :: rest)) total w
  = (Throw e,
     mkWorld (Main.set_coursesWrap [] (Main.set_coursesInfo info (dom w)))
             (events w)).
Proof.
  intros Hsplit Hk Hinfo Hpre Hbad. unfold Main.renderCourses.
  unfold bind at 1. cbn [update].
  unfold bind at 1. unfold lift at 1. rewrite Hinfo.
  unfold bind at 1. cbn [update].
  unfold bind at 1. unfold lift at 1. rewrite get_length.
  rewrite length_truthy. cbn [negb].
  unfold bind at 1. unfold lift at 1. rewrite get_first.
  unfold bind at 1. unfold lift at 1. rewrite Hk.
  unfold bind at 1. unfold lift at 1. rewrite Hsplit.
  rewrite (collect_stops (tr host cols) pre bad post trs e Hpre Hbad).
  destruct w as [[] evs]. reflexivity.
Qed.

End FailingRow.

(** X7.  When a row of a list cannot be rendered (a cell has no string
    conversion, or the item is [null]), both renderers throw the error of
    that row, but they leave different pages: [render] of app.js has
    written the header and appended the rows before the failing one, and
    they stay; [renderCourses] builds its table aside and attaches it last,
    so the wrapper stays empty under the count already written. *)
Theorem failing_row_partial_or_nothing host first rest total info cols
  pre bad post trs e (wa : World App.Dom) (w : World Main.Dom) :
  first :: rest = pre ++ bad :: post ->
  truthy first = true ->
  Object_keys host first = Ok cols ->
  Main.courses_info host (JArr (first :: rest)) (Main.or_null total)
    = Ok info ->
  Forall2 (fun r el => tr host cols r = Ok el) pre trs ->
  tr host cols bad = Throw e ->
  App.render host (JArr (first :: rest)) wa
  = (Throw e, mkWorld (App.mkDom (App.q_value (dom wa)) (App.meta (dom wa))
                                 [Markup (header_row cols)] trs)
                      (events wa)) /\
  Main.renderCourses host (JArr (first :: rest)) total w
  = (Throw e,
     mkWorld (Main.set_coursesWrap [] (Main.set_coursesInfo info (dom w)))
             (events w)).
Proof.
  intros Hsplit Ht Hk Hinfo Hpre Hbad. split.
  - now apply (render_stops host first rest cols pre bad post).
  - apply (renderCourses_stops host first rest total info cols pre bad post
             trs); try assumption.
    unfold js_or. now rewrite Ht.
Qed.

Lemma failing_row_partial_or_nothing_witness :
  let rows := [Sample.course1; JNull; Sample.course2] in
  let e := mkError (lit "TypeError")
                   (fault_message Ref.host (ReadOfNullish JNull (lit "id"))) in
  tr Ref.host [lit "id"; lit "name"] JNull = Throw e /\
  App.render Ref.host (JArr rows) Sample.app_page
  = (Throw e,
     mkWorld (App.mkDom (lit "") (lit "")
                [Markup (lit "<tr><th>id</th><th>name</th></tr>")]
                [Element (lit "tr") [Markup (lit "<td>1</td><td>AI</td>")]])
             []) /\
  Main.renderCourses Ref.host (JArr rows) JUndefined Sample.page
  = (Throw e,
     mkWorld (Main.set_coursesWrap []
                (Main.set_coursesInfo (lit "총 3건") (dom Sample.page)))
             []).
Proof.
  cbv zeta.
  assert (Hbad : tr Ref.host [lit "id"; lit "name"] JNull
                 = Throw (mkError (lit "TypeError")
                            (fault_message Ref.host
                               (ReadOfNullish JNull (lit "id")))))
    by (vm_compute; reflexivity).
  split; [exact Hbad|].
  assert (Hpre : Forall2 (fun r el => tr Ref.host [lit "id"; lit "name"] r
                                      = Ok el)
                   [Sample.course1]
                   [Element (lit "tr")
                      [Markup (lit "<td>1</td><td>AI</td>")]]).
  { constructor; [vm_compute; reflexivity|constructor]. }
  assert (Hk : Object_keys Ref.host Sample.course1
               = Ok [lit "id"; lit "name"]) by (vm_compute; reflexivity).
  assert (Hinfo : Main.courses_info Ref.host
                    (JArr [Sample.course1; JNull; Sample.course2])
                    (Main.or_null JUndefined) = Ok (lit "총 3건"))
    by (vm_compute; reflexivity).
  destruct (failing_row_partial_or_nothing Ref.host Sample.course1
              [JNull; Sample.course2] JUndefined (lit "총 3건")
              [lit "id"; lit "name"] [Sample.course1] JNull [Sample.course2]
              _ _ Sample.app_page Sample.page
              eq_refl eq_refl Hk Hinfo Hpre Hbad) as [Ha Hm].
  split.
  - rewrite Ha. vm_compute. reflexivity.
  - exact Hm.
Defined.

(** ** A list whose first item has no keys to give *)

Section FirstItem.

Variable host : Host.

Lemma tr_no_columns r : tr host [] r = Ok empty_tr.
Proof. reflexivity. Qed.

Lemma collect_no_columns items :
  collect (map (tr host []) items) = Ok (map (fun _ => empty_tr) items).
Proof.
  induction items as [|r rest IH]; [reflexivity|].
  cbn [map collect]. rewrite tr_no_columns. cbn [rbind]. rewrite IH.
  reflexivity.
Qed.

Lemma renderCourses_falsy_first first rest total info (w : World Main.Dom) :
  truthy first = false ->
  Main.courses_info host (JArr (first :: rest)) (Main.or_null total)
    = Ok info ->
  Main.renderCourses host (JArr (first :: rest)) total w
  = (Ok tt,
     mkWorld (Main.set_coursesWrap
                [Element (lit "table")
                   [Element (lit "thead") [Markup (lit "<tr></tr>")];
                    Element (lit "tbody")
                            (map (fun _ => empty_tr) (first :: rest))]]
                (Main.set_coursesInfo info (dom w)))
             (events w)).
Proof.
  intros Ht Hinfo. unfold Main.renderCourses.
  unfold bind at 1. cbn [update].
  unfold bind at 1. unfold lift at 1. rewrite Hinfo.
  unfold bind at 1. cbn [update].
  unfold bind at 1. unfold lift at 1. rewrite get_length.
  rewrite length_truthy. cbn [negb].
  unfold bind at 1. unfold lift at 1. rewrite get_first.
  unfold js_or. rewrite Ht.
  change (Object_keys host (JObj [])) with (Ok (A:=list jsstring) []).
  unfold bind at 1. unfold lift at 1.
  unfold bind at 1. unfold lift at 1. rewrite collect_no_columns.
  destruct w as [[] evs]. reflexivity.
Qed.

Lemma render_nullish_first first rest (w : World App.Dom) :
  nullish first = true ->
  App.render host (JArr (first :: rest)) w
  = (fault host (KeysOfNullish first),
     mkWorld (App.mkDom (App.q_value (dom w)) (App.meta (dom w)) [] [])
             (events w)).
Proof.
  intros Hn. unfold App.render.
  unfold bind at 1. cbn [update].
  unfold bind at 1. cbn [update].
  unfold bind at 1. unfold lift at 1. rewrite get_length.
  rewrite length_truthy. cbn [negb].
  unfold bind at 1. unfold lift at 1. rewrite get_first.
  unfold bind at 1. unfold lift at 1.
  destruct w as [[q m th tb] evs].
  destruct first; try discriminate; reflexivity.
Qed.

End FirstItem.

(** X8.  The guard [list[0] || {}] of [renderCourses]: when the first item
    of a non-empty list is falsy ([null], [0], [false] or the empty
    string), the table has no columns, so it is drawn with an empty header
    row and one empty [tr] per item, whatever the other items hold, and
    nothing is thrown.  [render] of app.js has no guard: for a first item
    that is [null] it throws the TypeError of [Object.keys] and leaves the
    table empty. *)
Theorem first_item_guard host first rest total info
  (w : World Main.Dom) (wa : World App.Dom) :
  truthy first = false ->
  Main.courses_info host (JArr (first :: rest)) (Main.or_null total)
    = Ok info ->
  Main.renderCourses host (JArr (first :: rest)) total w
  = (Ok tt,
     mkWorld (Main.set_coursesWrap
                [Element (lit "table")
                   [Element (lit "thead") [Markup (lit "<tr></tr>")];
                    Element (lit "tbody")
                            (map (fun _ => empty_tr) (first :: rest))]]
                (Main.set_coursesInfo info (dom w)))
             (events w)) /\
  (nullish first = true ->
   App.render host (JArr (first :: rest)) wa
   = (fault host (KeysOfNullish first),
      mkWorld (App.mkDom (App.q_value (dom wa)) (App.meta (dom wa)) [] [])
              (events wa))).
Proof.
  intros Ht Hinfo. split.
  - now apply renderCourses_falsy_first.
  - intros Hn. now apply render_nullish_first.
Qed.

Lemma first_item_guard_witness :
  let rows := [JNull; Sample.course1] in
  Main.coursesWrap
    (dom (snd (Main.renderCourses Ref.host (JArr rows) JUndefined
                                  Sample.page)))
  = [Element (lit "table")
       [Element (lit "thead") [Markup (lit "<tr></tr>")];
        Element (lit "tbody") [empty_tr; empty_tr]]] /\
  fst (Main.renderCourses Ref.host (JArr rows) JUndefined Sample.page)
  = Ok tt /\
  fst (App.render Ref.host (JArr rows) Sample.app_page)
  = fault Ref.host (KeysOfNullish JNull).
Proof.
  cbv zeta.
  assert (Hinfo : Main.courses_info Ref.host (JArr [JNull; Sample.course1])
                    (Main.or_null JUndefined) = Ok (lit "총 2건"))
    by (vm_compute; reflexivity).
  destruct (first_item_guard Ref.host JNull [Sample.course1] JUndefined
              (lit "총 2건") Sample.page Sample.app_page eq_refl Hinfo)
    as [Hm Ha].
  rewrite Hm, (Ha eq_refl).
  split; [vm_compute; reflexivity|]. split; reflexivity.
Defined.

(** ** The table of assignments *)

Section AssignmentFacts.

Variable host : Host.

Lemma assignment_row_eq a :
  Main.assignment_row host a
  = rbind (field_text host a (lit "course_id")) (fun s1 =>
    rbind (field_text host a (lit "session_index")) (fun s2 =>
    rbind (field_text host a (lit "day")) (fun s3 =>
    rbind (field_text host a (lit "block")) (fun s4 =>
    rbind (field_text host a (lit "room_id")) (fun s5 =>
    Ok (assignment_markup s1 s2 s3 s4 s5)))))).
Proof.
  unfold Main.assignment_row, field_text.
  destruct (get_prop host a (lit "course_id")) as [v1|]; [|reflexivity].
  cbn [rbind]. destruct (ToString host v1); [|reflexivity].
  cbn [rbind].
  destruct (get_prop host a (lit "session_index")) as [v2|]; [|reflexivity].
  cbn [rbind]. destruct (ToString host v2); [|reflexivity].
  cbn [rbind].
  destruct (get_prop host a (lit "day")) as [v3|]; [|reflexivity].
  cbn [rbind]. destruct (ToString host v3); [|reflexivity].
  cbn [rbind].
  destruct (get_prop host a (lit "block")) as [v4|]; [|reflexivity].
  cbn [rbind]. destruct (ToString host v4); [|reflexivity].
  cbn [rbind].
  destruct (get_prop host a (lit "room_id")) as [v5|]; [|reflexivity].
  cbn [rbind]. unfold assignment_markup.
  destruct (ToString host v5); reflexivity.
Qed.

Lemma assignment_row_shown a row :
  Main.assignment_row host a = Ok row <-> shown_as host a row.
Proof.
  rewrite assignment_row_eq. unfold shown_as. split.
  - destruct (field_text host a (lit "course_id")) as [s1|];
      cbn [rbind]; [|discriminate].
    destruct (field_text host a (lit "session_index")) as [s2|];
      cbn [rbind]; [|discriminate].
    destruct (field_text host a (lit "day")) as [s3|];
      cbn [rbind]; [|discriminate].
    destruct (field_text host a (lit "block")) as [s4|];
      cbn [rbind]; [|discriminate].
    destruct (field_text host a (lit "room_id")) as [s5|];
      cbn [rbind]; [|discriminate].
    intros [= <-]. exists s1, s2, s3, s4, s5. now repeat split.
  - intros (s1 & s2 & s3 & s4 & s5 & -> & -> & -> & -> & -> & ->).
    reflexivity.
Qed.

(** Every field of a row object has a text. *)
Lemma field_text_row_object r k :
  row_object host r -> exists s, field_text host r k = Ok s.
Proof.
  intros (props & -> & Hp). unfold field_text, get_prop. cbn [get_own].
  destruct (assoc k props) as [v|] eqn:Ha.
  - cbn [rbind]. destruct (assoc_In _ _ _ Ha) as [k' Hin].
    rewrite Forall_forall in Hp. exact (Hp _ Hin).
  - destruct (inherited host (JObj props) k); cbn [rbind ToString];
      eexists; reflexivity.
Qed.

Lemma assignment_row_object r :
  row_object host r -> exists row, Main.assignment_row host r = Ok row.
Proof.
  intros Hr. rewrite assignment_row_eq.
  destruct (field_text_row_object r (lit "course_id") Hr) as [s1 ->].
  destruct (field_text_row_object r (lit "session_index") Hr) as [s2 ->].
  destruct (field_text_row_object r (lit "day") Hr) as [s3 ->].
  destruct (field_text_row_object r (lit "block") Hr) as [s4 ->].
  destruct (field_text_row_object r (lit "room_id") Hr) as [s5 ->].
  cbn [rbind]. eexists. reflexivity.
Qed.

Lemma renderAssignments_rows a rest rows (w : World Main.Dom) :
  collect (map (Main.assignment_row host) (a :: rest)) = Ok rows ->
  Main.renderAssignments host (JArr (a :: rest)) w
  = (Ok tt,
     mkWorld (Main.set_assignmentsWrap [assignments_table rows] (dom w))
             (events w)).
Proof.
  intros Hc. unfold Main.renderAssignments.
  unfold bind at 1. cbn [update].
  unfold bind at 1. cbn [truthy negb].
  unfold bind at 1. unfold lift at 1. rewrite get_length.
  rewrite length_truthy. cbn [negb ret].
  unfold bind at 1. unfold lift at 1. rewrite Hc.
  destruct w as [[] evs]. reflexivity.
Qed.

(** A field whose value is null or undefined is written out in words. *)
Lemma field_text_nullish a k v :
  get_prop host a k = Ok v -> nullish v = true ->
  field_text host a k = Ok (nullish_text v).
Proof.
  intros Hv Hn. unfold field_text. rewrite Hv.
  destruct v; try discriminate; reflexivity.
Qed.

End AssignmentFacts.

(** X9.  For a non-empty list of assignments that are row objects,
    [renderAssignments] succeeds and leaves one table in the wrapper, with
    the fixed header of five columns and one row per assignment, in the
    order of the list; each row is the markup of the texts of the five
    fields of its assignment.  The cells have no guard against missing
    values: where a cell of the table of courses is empty, a field that is
    [null] or missing is written here as the word null or undefined. *)
Theorem assignments_one_row_each host a rest (w : World Main.Dom) :
  Forall (row_object host) (a :: rest) ->
  (exists rows,
      length rows = length (a :: rest) /\
      Forall2 (shown_as host) (a :: rest) rows /\
      Main.renderAssignments host (JArr (a :: rest)) w
      = (Ok tt,
         mkWorld (Main.set_assignmentsWrap [assignments_table rows] (dom w))
                 (events w))) /\
  (forall x k v,
      get_prop host x k = Ok v -> nullish v = true ->
      field_text host x k = Ok (nullish_text v) /\
      td host x k = Ok (lit "<td></td>")).
Proof.
  intros Hrows. split.
  - destruct (collect_map_ok (Main.assignment_row host) (a :: rest))
      as (rows & Hc & Hf).
    { intros x Hx. apply assignment_row_object.
      rewrite Forall_forall in Hrows. now apply Hrows. }
    exists rows. split; [symmetry; exact (Forall2_length Hf)|]. split.
    + clear - Hf. induction Hf as [|x row l rows Hx _ IH]; constructor.
      * now apply assignment_row_shown.
      * exact IH.
    + now apply renderAssignments_rows.
  - intros x k v Hv Hn. split.
    + now apply field_text_nullish.
    + apply td_empty_valued. now exists v.
Qed.

Lemma assignments_one_row_each_witness :
  let a := JObj [(lit "course_id", JStr (lit "C1")); (lit "day", JNull)] in
  Forall (row_object Ref.host) [a] /\
  get_prop Ref.host a (lit "day") = Ok JNull /\
  (exists rows,
      length rows = 1%nat /\
      Forall2 (shown_as Ref.host) [a] rows /\
      Main.renderAssignments Ref.host (JArr [a]) Sample.page
      = (Ok tt,
         mkWorld (Main.set_assignmentsWrap [assignments_table rows]
                                           (dom Sample.page))
                 [])) /\
  field_text Ref.host a (lit "day") = Ok (lit "null") /\
  td Ref.host a (lit "day") = Ok (lit "<td></td>").
Proof.
  cbv zeta.
  assert (H : Forall (row_object Ref.host)
                [JObj [(lit "course_id", JStr (lit "C1"));
                       (lit "day", JNull)]]).
  { repeat constructor; eexists; (split; [reflexivity|]);
      repeat constructor; eexists; vm_compute; reflexivity. }
  assert (Hd : get_prop Ref.host
                 (JObj [(lit "course_id", JStr (lit "C1"));
                        (lit "day", JNull)]) (lit "day") = Ok JNull)
    by (vm_compute; reflexivity).
  split; [exact H|]. split; [exact Hd|].
  destruct (assignments_one_row_each Ref.host _ [] Sample.page H)
    as [Hrows Hcell].
  split; [exact Hrows|].
  exact (Hcell _ _ _ Hd eq_refl).
Defined.

(** ** What the schedule button shows *)

Lemma innerHTML_markup s : is_empty s = false -> innerHTML s = [Markup s].
Proof. destruct s; [discriminate|reflexivity]. Qed.

Lemma summary_text_markup s1 s2 s3 s4 s5 :
  innerHTML (summary_text s1 s2 s3 s4 s5)
  = [Markup (summary_text s1 s2 s3 s4 s5)].
Proof.
  apply innerHTML_markup. unfold summary_text.
  match goal with
  | |- is_empty (?p ++ _) = false =>
    assert (Hp : is_empty p = false) by (vm_compute; reflexivity);
    destruct p; [discriminate Hp|reflexivity]
  end.
Qed.

Section ScheduleFacts.

Variable host : Host.
Variable net : Request -> Outcome.
Variable BASE : jsstring.

(** Without a summary every count is a question mark and no day is
    listed. *)
Lemma summary_markup_unknown res sm :
  get_prop host res (lit "summary") = Ok sm ->
  truthy sm = false ->
  Forall (fun k => inherited host (JObj []) k = None) summary_fields ->
  Main.summary_markup host res
  = Ok (summary_text (lit "?") (lit "?") (lit "?") (lit "") (lit "?")).
Proof.
  intros Hs Ht Hi. unfold Main.summary_markup. rewrite Hs. cbn [rbind].
  unfold js_or. rewrite Ht.
  unfold summary_fields in Hi.
  pose proof (Forall_inv Hi) as H1. apply Forall_inv_tail in Hi.
  pose proof (Forall_inv Hi) as H2. apply Forall_inv_tail in Hi.
  pose proof (Forall_inv Hi) as H3. apply Forall_inv_tail in Hi.
  pose proof (Forall_inv Hi) as H4. apply Forall_inv_tail in Hi.
  pose proof (Forall_inv Hi) as H5. cbv beta in H1, H2, H3, H4, H5.
  unfold get_prop. cbn [get_own assoc].
  rewrite H1, H2, H3, H4, H5. unfold summary_text. reflexivity.
Qed.

Lemma solution_assignments_none res sol :
  get_prop host res (lit "solution") = Ok sol ->
  nullish sol = true ->
  Main.solution_assignments host res = Ok (JArr []).
Proof.
  intros Hs Hn. unfold Main.solution_assignments. rewrite Hs. cbn [rbind].
  rewrite Hn. reflexivity.
Qed.

Lemma renderAssignments_empty (w : World Main.Dom) :
  Main.renderAssignments host (JArr []) w
  = (Ok tt, mkWorld (Main.set_assignmentsWrap [Markup no_assignments] (dom w))
                    (events w)).
Proof. destruct w as [[] evs]. vm_compute. reflexivity. Qed.

(** The handler after a response that was read as [res]. *)
Lemma btnSchedule_answered res w :
  api_result host
    (net (post_request host BASE Main.schedule_path
                       (schedule_body host (dom w)))) = Ok res ->
  Main.btnSchedule_click host net BASE w
  = try_catch
      (markup <- lift (Main.summary_markup host res) ;;
       update (Main.set_summary (innerHTML markup)) ;;
       assignments <- lift (Main.solution_assignments host res) ;;
       Main.renderAssignments host assignments)
      (fun e => emit (EvError e) ;;
                alert (lit "배정 실패: " ++ err_message e))
      (mkWorld (dom w)
               (events w ++ post_trace host BASE Main.schedule_path
                                       (schedule_body host (dom w)))).
Proof.
  intros H. rewrite btnSchedule_body. unfold try_catch.
  erewrite bind_ok; [reflexivity|].
  rewrite apiPost_eq, H. reflexivity.
Qed.

Lemma renderAssignments_stops x rest e (w : World Main.Dom) :
  collect (map (Main.assignment_row host) (x :: rest)) = Throw e ->
  Main.renderAssignments host (JArr (x :: rest)) w
  = (Throw e, mkWorld (Main.set_assignmentsWrap [] (dom w)) (events w)).
Proof.
  intros Hc. unfold Main.renderAssignments.
  unfold bind at 1. cbn [update].
  unfold bind at 1. cbn [truthy negb].
  unfold bind at 1. unfold lift at 1. rewrite get_length.
  rewrite length_truthy. cbn [negb ret].
  unfold bind at 1. unfold lift at 1. rewrite Hc.
  reflexivity.
Qed.

Lemma schedule_summary_fails res e w :
  api_result host
    (net (post_request host BASE Main.schedule_path
                       (schedule_body host (dom w)))) = Ok res ->
  Main.summary_markup host res = Throw e ->
  Main.btnSchedule_click host net BASE w
  = (Ok tt,
     mkWorld (dom w)
             (events w
              ++ post_trace host BASE Main.schedule_path
                            (schedule_body host (dom w))
              ++ caught (lit "배정 실패: ") e)).
Proof.
  intros H Hm. rewrite (btnSchedule_answered res w H).
  erewrite try_throw.
  2:{ unfold bind at 1. unfold lift at 1. rewrite Hm. reflexivity. }
  rewrite run_caught. cbn [dom events]. now rewrite <- app_assoc.
Qed.

Lemma schedule_summary_stays res markup w :
  api_result host
    (net (post_request host BASE Main.schedule_path
                       (schedule_body host (dom w)))) = Ok res ->
  Main.summary_markup host res = Ok markup ->
  Main.summary (dom (snd (Main.btnSchedule_click host net BASE w)))
  = innerHTML markup.
Proof.
  intros H Hm. rewrite (btnSchedule_answered res w H).
  set (w1 := mkWorld _ _).
  set (w2 := mkWorld (Main.set_summary (innerHTML markup) (dom w1))
                     (events w1)).
  assert (E : Main.summary (dom w2) = innerHTML markup)
    by (destruct w as [[] evs]; reflexivity).
  rewrite <- E.
  assert (K : keeps Main.summary
                (assignments <- lift (Main.solution_assignments host res) ;;
                 Main.renderAssignments host assignments)).
  { apply keeps_bind; [apply keeps_lift|intros a].
    intros w0. exact (f_equal snd (renderAssignments_keeps host a w0)). }
  specialize (K w2).
  unfold try_catch.
  unfold bind at 1. unfold lift at 1. rewrite Hm.
  unfold bind at 1. cbn [update]. fold w2.
  destruct ((assignments <- lift (Main.solution_assignments host res) ;;
             Main.renderAssignments host assignments) w2)
    as [[[]|e] w3]; cbn [snd] in *.
  - exact K.
  - rewrite run_caught. exact K.
Qed.

Lemma schedule_no_solution res markup sol w :
  api_result host
    (net (post_request host BASE Main.schedule_path
                       (schedule_body host (dom w)))) = Ok res ->
  Main.summary_markup host res = Ok markup ->
  get_prop host res (lit "solution") = Ok sol ->
  nullish sol = true ->
  Main.btnSchedule_click host net BASE w
  = (Ok tt,
     mkWorld (Main.set_assignmentsWrap [Markup no_assignments]
                (Main.set_summary (innerHTML markup) (dom w)))
             (events w ++ post_trace host BASE Main.schedule_path
                                     (schedule_body host (dom w)))).
Proof.
  intros H Hm Hs Hn. rewrite (btnSchedule_answered res w H).
  unfold try_catch.
  unfold bind at 1. unfold lift at 1. rewrite Hm.
  unfold bind at 1. cbn [update].
  unfold bind at 1. unfold lift at 1.
  rewrite (solution_assignments_none res sol Hs Hn).
  rewrite renderAssignments_empty. reflexivity.
Qed.

Lemma schedule_row_fails res markup x rest e w :
  api_result host
    (net (post_request host BASE Main.schedule_path
                       (schedule_body host (dom w)))) = Ok res ->
  Main.summary_markup host res = Ok markup ->
  Main.solution_assignments host res = Ok (JArr (x :: rest)) ->
  collect (map (Main.assignment_row host) (x :: rest)) = Throw e ->
  Main.btnSchedule_click host net BASE w
  = (Ok tt,
     mkWorld (Main.set_assignmentsWrap []
                (Main.set_summary (innerHTML markup) (dom w)))
             (events w
              ++ post_trace host BASE Main.schedule_path
                            (schedule_body host (dom w))
              ++ caught (lit "배정 실패: ") e)).
Proof.
  intros H Hm Hs Hc. rewrite (btnSchedule_answered res w H).
  erewrite try_throw.
  2:{ unfold bind at 1. unfold lift at 1. rewrite Hm.
      unfold bind at 1. cbn [update].
      unfold bind at 1. unfold lift at 1. rewrite Hs.
      apply (renderAssignments_stops x rest e). exact Hc. }
  rewrite run_caught. cbn [dom events]. now rewrite <- app_assoc.
Qed.

End ScheduleFacts.

(** X10.  A schedule reply that is an object without a summary and without
    a solution (or with either set to [null]) is no error: the handler
    ends normally without an alert, the summary shows a question mark for
    every count and no day, and the wrapper of the assignments holds the
    placeholder.  (The host is one where an empty object inherits no member
    named as a field of the summary, as in every browser.) *)
Theorem schedule_reply_without_parts host net BASE res sm sol
  (w : World Main.Dom) :
  api_result host
    (net (post_request host BASE Main.schedule_path
                       (schedule_body host (dom w)))) = Ok res ->
  get_prop host res (lit "summary") = Ok sm ->
  truthy sm = false ->
  get_prop host res (lit "solution") = Ok sol ->
  nullish sol = true ->
  Forall (fun k => inherited host (JObj []) k = None) summary_fields ->
  Main.btnSchedule_click host net BASE w
  = (Ok tt,
     mkWorld (Main.set_assignmentsWrap [Markup no_assignments]
                (Main.set_summary
                   [Markup (summary_text (lit "?") (lit "?") (lit "?")
                                         (lit "") (lit "?"))]
                   (dom w)))
             (events w ++ post_trace host BASE Main.schedule_path
                                     (schedule_body host (dom w)))).
Proof.
  intros H Hsm Ht Hsol Hn Hi.
  rewrite (schedule_no_solution host net BASE res _ sol w H
             (summary_markup_unknown host res sm Hsm Ht Hi) Hsol Hn).
  now rewrite summary_text_markup.
Qed.

Lemma schedule_reply_without_parts_witness :
  let net := fun _ : Request => Responded (mkResponse 200 (Ok (lit "{}"))) in
  let w := snd (Main.btnSchedule_click Ref.host net Sample.origin
                                       Sample.scheduling) in
  Forall (fun k => inherited Ref.host (JObj []) k = None) summary_fields /\
  Main.summary (dom w)
  = [Markup (summary_text (lit "?") (lit "?") (lit "?") (lit "") (lit "?"))] /\
  Main.assignmentsWrap (dom w) = [Markup no_assignments] /\
  alerts (events w) = [].
Proof.
  cbv zeta.
  assert (Hi : Forall (fun k => inherited Ref.host (JObj []) k = None)
                      summary_fields)
    by (repeat constructor).
  split; [exact Hi|].
  rewrite (schedule_reply_without_parts Ref.host
             (fun _ => Responded (mkResponse 200 (Ok (lit "{}"))))
             Sample.origin (JObj []) JUndefined JUndefined Sample.scheduling).
  - split; [reflexivity|]. split; [reflexivity|]. vm_compute. reflexivity.
  - vm_compute. reflexivity.
  - vm_compute. reflexivity.
  - reflexivity.
  - vm_compute. reflexivity.
  - reflexivity.
  - exact Hi.
Defined.

(** X11.  The schedule button writes the summary before it renders the
    assignments, and the [catch] undoes nothing.  When the summary cannot
    be built from the reply (the reply is [null], say), the page is left as
    it was and the error is alerted.  Once the summary is built it is on
    the page when the handler ends, whatever happens next; in particular
    when an assignment cannot be rendered the handler alerts the error, and
    the page shows the new summary over an empty wrapper. *)
Theorem schedule_summary_before_assignments host net BASE res
  (w : World Main.Dom) :
  api_result host
    (net (post_request host BASE Main.schedule_path
                       (schedule_body host (dom w)))) = Ok res ->
  (forall e,
      Main.summary_markup host res = Throw e ->
      Main.btnSchedule_click host net BASE w
      = (Ok tt,
         mkWorld (dom w)
                 (events w
                  ++ post_trace host BASE Main.schedule_path
                                (schedule_body host (dom w))
                  ++ caught (lit "배정 실패: ") e))) /\
  (forall markup,
      Main.summary_markup host res = Ok markup ->
      Main.summary (dom (snd (Main.btnSchedule_click host net BASE w)))
      = innerHTML markup /\
      forall x rest e,
        Main.solution_assignments host res = Ok (JArr (x :: rest)) ->
        collect (map (Main.assignment_row host) (x :: rest)) = Throw e ->
        Main.btnSchedule_click host net BASE w
        = (Ok tt,
           mkWorld (Main.set_assignmentsWrap []
                      (Main.set_summary (innerHTML markup) (dom w)))
                   (events w
                    ++ post_trace host BASE Main.schedule_path
                                  (schedule_body host (dom w))
                    ++ caught (lit "배정 실패: ") e))).
Proof.
  intros H. split.
  - intros e. now apply schedule_summary_fails.
  - intros markup Hm. split.
    + now apply (schedule_summary_stays host net BASE res).
    + intros x rest e. now apply schedule_row_fails.
Qed.

Lemma schedule_summary_before_assignments_witness :
  let body :=
    litq "{'summary':{'courses':1},'solution':{'assignments':[null]}}" in
  let net := fun _ : Request => Responded (mkResponse 200 (Ok body)) in
  let e := mkError (lit "TypeError")
             (fault_message Ref.host
                (ReadOfNullish JNull (lit "course_id"))) in
  let w := snd (Main.btnSchedule_click Ref.host net Sample.origin
                                       Sample.scheduling) in
  JSON_parse Ref.host body
  = Ok (JObj [(lit "summary", JObj [(lit "courses", JNum (Int 1))]);
              (lit "solution", JObj [(lit "assignments", JArr [JNull])])]) /\
  Main.summary (dom w)
  = [Markup (summary_text (lit "1") (lit "?") (lit "?") (lit "") (lit "?"))] /\
  Main.assignmentsWrap (dom w) = [] /\
  alerts (events w) = [lit "배정 실패: " ++ err_message e].
Proof.
  cbv zeta.
  set (body := litq "{'summary':{'courses':1},'solution':{'assignments':[null]}}").
  set (res := JObj [(lit "summary", JObj [(lit "courses", JNum (Int 1))]);
                    (lit "solution",
                     JObj [(lit "assignments", JArr [JNull])])]).
  assert (Hp : JSON_parse Ref.host body = Ok res) by (vm_compute; reflexivity).
  split; [exact Hp|].
  assert (H : api_result Ref.host
                (Responded (mkResponse 200 (Ok body))) = Ok res).
  { cbn [api_result text rbind]. exact Hp. }
  destruct (schedule_summary_before_assignments Ref.host
              (fun _ => Responded (mkResponse 200 (Ok body)))
              Sample.origin res Sample.scheduling H) as [_ Hok].
  destruct (Hok (summary_text (lit "1") (lit "?") (lit "?") (lit "")
                              (lit "?")))
    as [Hsum Hrow]; [vm_compute; reflexivity|].
  split; [rewrite Hsum; vm_compute; reflexivity|].
  rewrite (Hrow JNull [] (mkError (lit "TypeError")
                            (fault_message Ref.host
                               (ReadOfNullish JNull (lit "course_id")))));
    [|vm_compute; reflexivity|vm_compute; reflexivity].
  split; vm_compute; reflexivity.
Defined.

(** ** What a reply to the load-all request shows *)

Section LoadFacts.

Variable host : Host.
Variable net : Request -> Outcome.
Variable BASE : jsstring.


Lemma btnAll_answered data w :
  answers host (net (get_request host BASE Main.courses_path)) data ->
  Main.btnAll_click host net BASE w
  = try_catch (Main.renderCourses host data JUndefined)
              (fun e => emit (EvError e) ;;
                        alert (lit "불러오기 실패: " ++ err_message e))
              (mkWorld (dom w)
                       (events w ++ get_trace host BASE Main.courses_path)).
Proof.
  intros H. apply api_result_answers in H.
  unfold Main.btnAll_click, try_catch.
  erewrite bind_ok; [reflexivity|].
  rewrite apiGet_eq, H. reflexivity.
Qed.

Lemma loadAll_answered res data w :
  net app_courses_request = Responded res ->
  json host res = Ok data ->
  App.loadAll host net w
  = (len <- lift (get_prop host data (lit "length")) ;;
     n <- lift (ToString host len) ;;
     update (App.set_meta (lit "표시: " ++ n ++ lit "건")) ;;
     App.render host data)
      (mkWorld (dom w) (events w ++ [EvFetch app_courses_request])).
Proof.
  intros Hnet Hj. unfold App.loadAll, fetch, app_courses_request in *.
  unfold bind at 1. unfold bind at 1. cbn [emit]. rewrite Hnet. cbn [ret].
  unfold bind at 1. unfold lift at 1. rewrite Hj. reflexivity.
Qed.

(** [render] and [renderCourses] on a value whose length is falsy. *)
Lemma render_no_length data len (w : World App.Dom) :
  get_prop host data (lit "length") = Ok len -> truthy len = false ->
  App.render host data w
  = (Ok tt, mkWorld (App.mkDom (App.q_value (dom w)) (App.meta (dom w))
                               [Markup no_data_row] [])
                    (events w)).
Proof.
  intros Hl Ht. unfold App.render.
  unfold bind at 1. cbn [update].
  unfold bind at 1. cbn [update].
  unfold bind at 1. unfold lift at 1. rewrite Hl, Ht. cbn [negb].
  rewrite (innerHTML_markup (lit "<tr><th>No data</th></tr>"))
    by (vm_compute; reflexivity).
  destruct w as [[q m th tb] evs]. unfold no_data_row. reflexivity.
Qed.

Lemma renderCourses_no_length data len n (w : World Main.Dom) :
  get_prop host data (lit "length") = Ok len -> truthy len = false ->
  ToString host len = Ok n ->
  Main.renderCourses host data JUndefined w
  = (Ok tt, mkWorld (Main.set_coursesWrap [Markup no_results]
                       (Main.set_coursesInfo (lit "총 " ++ n ++ lit "건")
                                             (dom w)))
                    (events w)).
Proof.
  intros Hl Ht Hn. unfold Main.renderCourses.
  unfold bind at 1. cbn [update].
  unfold bind at 1. unfold lift at 1.
  unfold Main.courses_info. cbn [Main.or_null nullish].
  rewrite Hl. cbn [rbind]. rewrite Hn. cbn [rbind].
  unfold bind at 1. cbn [update].
  unfold bind at 1. unfold lift at 1. rewrite Ht. cbn [negb].
  rewrite (innerHTML_markup (litq "<div class='muted'>결과 없음</div>"))
    by (vm_compute; reflexivity).
  destruct w as [[] evs]. unfold no_results. reflexivity.
Qed.

End LoadFacts.



(** X13.  A reply that is JSON but no list.  For a value whose [length] is
    falsy (an object without that field, a number, [true], the empty
    string) nothing is thrown: the count is written as the text of that
    length (the word undefined for an object) over the placeholder, and no
    alert is shown.  For app.js this is what an error response with a JSON
    body comes to, since the status is not looked at. *)
Theorem reply_without_length host net BASE res txt data len n
  (w : World Main.Dom) (wa : World App.Dom) :
  text res = Ok txt ->
  JSON_parse host txt = Ok data ->
  get_prop host data (lit "length") = Ok len ->
  truthy len = false ->
  ToString host len = Ok n ->
  (ok res = true ->
   net (get_request host BASE Main.courses_path) = Responded res ->
   Main.btnAll_click host net BASE w
   = (Ok tt,
      mkWorld (Main.set_coursesWrap [Markup no_results]
                 (Main.set_coursesInfo (lit "총 " ++ n ++ lit "건") (dom w)))
              (events w ++ get_trace host BASE Main.courses_path))) /\
  (net app_courses_request = Responded res ->
   App.loadAll host net wa
   = (Ok tt,
      mkWorld (App.mkDom (App.q_value (dom wa))
                 (lit "표시: " ++ n ++ lit "건") [Markup no_data_row] [])
              (events wa ++ [EvFetch app_courses_request]))).
Proof.
  intros Ht Hp Hl Hf Hn. split.
  - intros Hok Hnet.
    rewrite (btnAll_answered host net BASE data).
    2:{ exists res, txt. now repeat split. }
    erewrite try_ok; [reflexivity|].
    rewrite (renderCourses_no_length host data len n _ Hl Hf Hn).
    reflexivity.
  - intros Hnet.
    rewrite (loadAll_answered host net res data wa Hnet).
    2:{ unfold json. rewrite Ht. exact Hp. }
    unfold bind at 1. unfold lift at 1. rewrite Hl.
    unfold bind at 1. unfold lift at 1. rewrite Hn.
    unfold bind at 1. cbn [update dom events].
    rewrite (render_no_length host data len _ Hl Hf).
    destruct wa as [[q m th tb] evs]. reflexivity.
Qed.

Lemma reply_without_length_witness :
  JSON_parse Ref.host Sample.not_found_body
  = Ok (JObj [(lit "detail", JStr (lit "Not found"))]) /\
  App.loadAll Ref.host Sample.not_found Sample.app_page
  = (Ok tt,
     mkWorld (App.mkDom (lit "") (lit "표시: undefined건")
                        [Markup no_data_row] [])
             [EvFetch app_courses_request]).
Proof.
  assert (Hp : JSON_parse Ref.host Sample.not_found_body
               = Ok (JObj [(lit "detail", JStr (lit "Not found"))]))
    by (vm_compute; reflexivity).
  split; [exact Hp|].
  assert (Hl : get_prop Ref.host
                 (JObj [(lit "detail", JStr (lit "Not found"))])
                 (lit "length") = Ok JUndefined) by (vm_compute; reflexivity).
  assert (Hn : ToString Ref.host JUndefined = Ok (lit "undefined"))
    by reflexivity.
  destruct (reply_without_length Ref.host Sample.not_found Sample.origin
              (mkResponse 404 (Ok Sample.not_found_body))
              Sample.not_found_body _ JUndefined (lit "undefined")
              Sample.page Sample.app_page eq_refl Hp Hl eq_refl Hn)
    as [_ Happ].
  rewrite (Happ eq_refl). vm_compute. reflexivity.
Defined.

(** ** A search reply without a total *)



(** ** The parameters of a search request *)

Section QueryFacts.

Lemma delimiter_reserved c : delimiter c = true -> unreserved c = false.
Proof.
  unfold delimiter. rewrite !orb_true_iff, !N.eqb_eq.
  intros [[[->| ->]| ->]| ->]; reflexivity.
Qed.

Lemma hex_digit_plain n : delimiter (hex_digit n) = false.
Proof.
  unfold hex_digit, delimiter.
  destruct (N.ltb_spec n 10);
    repeat match goal with
           | |- context [?a =? ?b] =>
             destruct (N.eqb_spec a b); [lia|]
           end; reflexivity.
Qed.

Lemma percent_plain b : plain (percent b) = true.
Proof.
  unfold plain, percent. cbn [forallb].
  now rewrite !hex_digit_plain.
Qed.

Lemma plain_app s t : plain (s ++ t) = plain s && plain t.
Proof. apply forallb_app. Qed.

Lemma percents_plain bytes : plain (concat (map percent bytes)) = true.
Proof.
  induction bytes as [|b rest IH]; [reflexivity|].
  cbn [map concat]. now rewrite plain_app, percent_plain, IH.
Qed.

(** What [encodeURIComponent] returns holds no delimiter. *)
Lemma encoded_plain host n :
  forall s enc,
    (length s <= n)%nat ->
    encodeURIComponent host s = Ok enc -> plain enc = true.
Proof.
  induction n as [|n IH]; intros s enc Hlen H.
  - destruct s; [|cbn [length] in Hlen; lia].
    injection H as <-. reflexivity.
  - destruct s as [|c s1]; [injection H as <-; reflexivity|].
    cbn [length] in Hlen. cbn [encodeURIComponent] in H.
    destruct (unreserved c) eqn:Hu.
    + destruct (encodeURIComponent host s1) as [r|] eqn:Hr;
        cbn [rbind] in H; [|discriminate].
      apply Ok_inj in H. subst enc. unfold plain. cbn [forallb]. fold (plain r).
      rewrite (IH s1 r) by (trivial; lia).
      destruct (delimiter c) eqn:Hd; [|reflexivity].
      apply delimiter_reserved in Hd. congruence.
    + destruct (high_surrogate c).
      * destruct s1 as [|d s2]; [discriminate|].
        destruct (low_surrogate d); [|discriminate].
        destruct (encodeURIComponent host s2) as [r|] eqn:Hr;
          cbn [rbind] in H; [|discriminate].
        apply Ok_inj in H. subst enc. rewrite plain_app, percents_plain.
        apply (IH s2 r); [cbn [length] in Hlen; lia|exact Hr].
      * destruct (low_surrogate c); [discriminate|].
        destruct (encodeURIComponent host s1) as [r|] eqn:Hr;
          cbn [rbind] in H; [|discriminate].
        apply Ok_inj in H. subst enc. rewrite plain_app, percents_plain.
        apply (IH s1 r); [lia|exact Hr].
Qed.

Lemma plain_free_of s :
  plain s = true ->
  free_of 38 s = true /\ free_of 61 s = true /\ free_of 63 s = true.
Proof.
  unfold plain, free_of. rewrite !forallb_forall. intros H.
  repeat split; intros c Hc; specialize (H c Hc);
    unfold delimiter in H; rewrite !negb_orb in H;
    rewrite !andb_true_iff in H; tauto.
Qed.

Lemma free_of_app sep s t :
  free_of sep (s ++ t) = free_of sep s && free_of sep t.
Proof. apply forallb_app. Qed.

(** Cutting and splitting at the first separator. *)
Lemma cut_at sep a rest :
  free_of sep a = true -> cut sep (a ++ sep :: rest) = (a, Some rest).
Proof.
  induction a as [|c a IH]; cbn [app cut free_of forallb].
  - now rewrite N.eqb_refl.
  - rewrite andb_true_iff, negb_true_iff. intros [Hc Ha].
    rewrite Hc. fold (free_of sep a) in Ha. now rewrite (IH Ha).
Qed.

Lemma split_from_at sep cur a rest :
  free_of sep a = true ->
  split_from sep cur (a ++ sep :: rest)
  = (rev cur ++ a) :: split_from sep [] rest.
Proof.
  revert cur. induction a as [|c a IH]; intros cur;
    cbn [app split_from free_of forallb].
  - intros _. now rewrite N.eqb_refl, app_nil_r.
  - rewrite andb_true_iff, negb_true_iff. intros [Hc Ha].
    rewrite Hc. fold (free_of sep a) in Ha. rewrite (IH _ Ha).
    cbn [rev]. now rewrite <- app_assoc.
Qed.

Lemma split_from_last sep cur a :
  free_of sep a = true -> split_from sep cur a = [rev cur ++ a].
Proof.
  revert cur. induction a as [|c a IH]; intros cur;
    cbn [split_from free_of forallb].
  - intros _. now rewrite app_nil_r.
  - rewrite andb_true_iff, negb_true_iff. intros [Hc Ha].
    rewrite Hc. fold (free_of sep a) in Ha. rewrite (IH _ Ha).
    cbn [rev]. now rewrite <- app_assoc.
Qed.

Lemma query_params_search enc tail :
  free_of 38 enc = true ->
  query_params (lit "/search?q=" ++ enc ++ 38 :: tail)
  = (lit "q", enc)
      :: map (fun piece =>
                let (name, value) := cut 61 piece in
                (name, match value with Some v => v | None => [] end))
             (split 38 tail).
Proof.
  intros Henc. unfold query_params.
  assert (E : lit "/search?q=" ++ enc ++ 38 :: tail
              = lit "/search" ++ 63 :: (lit "q" ++ 61 :: enc) ++ 38 :: tail).
  { assert (E0 : lit "/search?q=" = lit "/search" ++ 63 :: lit "q" ++ [61])
      by (vm_compute; reflexivity).
    rewrite E0. rewrite <- !app_assoc. cbn [app].
    rewrite <- !app_assoc. reflexivity. }
  rewrite E.
  rewrite (cut_at 63 (lit "/search")) by (vm_compute; reflexivity).
  cbn [snd]. unfold split.
  rewrite (split_from_at 38 [] (lit "q" ++ 61 :: enc)).
  2:{ rewrite free_of_app. cbn [free_of forallb]. fold (free_of 38 enc).
      rewrite Henc. vm_compute. reflexivity. }
  cbn [map rev app].
  rewrite (cut_at 61 (lit "q")) by (vm_compute; reflexivity).
  reflexivity.
Qed.

End QueryFacts.

(** X15.  The keyword of a search cannot add to the query or change it:
    what [encodeURIComponent] returns holds none of [& = ? #], so the query
    of the request has exactly the parameters the template names, [q] with
    the encoded keyword as its value, then [limit=100], and in the page
    script [offset=0]. *)
Theorem search_request_parameters host kw enc :
  encodeURIComponent host kw = Ok enc ->
  plain enc = true /\
  query_params (Main.search_path enc)
  = [(lit "q", enc); (lit "limit", lit "100"); (lit "offset", lit "0")] /\
  query_params (App.search_url enc)
  = [(lit "q", enc); (lit "limit", lit "100")].
Proof.
  intros He.
  assert (Hp : plain enc = true)
    by exact (encoded_plain host (length kw) kw enc (le_n _) He).
  destruct (plain_free_of enc Hp) as (H38 & _ & _).
  split; [exact Hp|]. split.
  - unfold Main.search_path.
    replace (lit "&limit=100&offset=0")
      with (38 :: lit "limit=100&offset=0") by (vm_compute; reflexivity).
    rewrite (query_params_search enc _ H38).
    apply f_equal. vm_compute. reflexivity.
  - unfold App.search_url, App.API.
    replace (lit "&limit=100") with (38 :: lit "limit=100")
      by (vm_compute; reflexivity).
    replace (lit "") with (@nil N) by reflexivity. cbn [app].
    rewrite (query_params_search enc _ H38).
    apply f_equal. vm_compute. reflexivity.
Qed.

Lemma search_request_parameters_witness :
  encodeURIComponent Ref.host (lit "a&limit=1#") = Ok (lit "a%26limit%3D1%23") /\
  query_params (Main.search_path (lit "a%26limit%3D1%23"))
  = [(lit "q", lit "a%26limit%3D1%23"); (lit "limit", lit "100");
     (lit "offset", lit "0")].
Proof.
  assert (He : encodeURIComponent Ref.host (lit "a&limit=1#")
               = Ok (lit "a%26limit%3D1%23")) by (vm_compute; reflexivity).
  split; [exact He|].
  exact (proj1 (proj2 (search_request_parameters Ref.host _ _ He))).
Defined.

(** ** The days of the grid *)

Section DaysFacts.

Lemma free_of_rev sep s : free_of sep (rev s) = free_of sep s.
Proof.
  induction s as [|c s IH]; [reflexivity|].
  cbn [rev]. rewrite free_of_app. cbn [free_of forallb].
  fold (free_of sep s). fold (free_of sep (rev s)). rewrite IH.
  rewrite andb_true_r. apply andb_comm.
Qed.

Lemma free_of_drop_ws sep s :
  free_of sep s = true -> free_of sep (drop_ws s) = true.
Proof.
  induction s as [|c s IH]; [reflexivity|].
  cbn [drop_ws]. destruct (is_ws c); [|trivial].
  cbn [free_of forallb]. rewrite andb_true_iff. intros [_ H]. now apply IH.
Qed.

Lemma free_of_trim sep s : free_of sep s = true -> free_of sep (trim s) = true.
Proof.
  intros H. unfold trim. rewrite free_of_rev. apply free_of_drop_ws.
  rewrite free_of_rev. now apply free_of_drop_ws.
Qed.

(** What [drop_ws] removes is a prefix. *)
Lemma drop_ws_suffix s : exists p, s = p ++ drop_ws s.
Proof.
  induction s as [|c s [p IH]]; [now exists []|].
  cbn [drop_ws]. destruct (is_ws c).
  - exists (c :: p). cbn [app]. now rewrite <- IH.
  - now exists [].
Qed.

Lemma drop_ws_fixed c s : is_ws c = false -> drop_ws (c :: s) = c :: s.
Proof. intros H. cbn [drop_ws]. now rewrite H. Qed.

Lemma trim_idempotent s : trim (trim s) = trim s.
Proof.
  unfold trim.
  destruct (drop_ws (rev (drop_ws s))) as [|c u] eqn:E; [reflexivity|].
  pose proof (drop_ws_head _ _ _ E) as Hc.
  destruct (drop_ws_suffix (rev (drop_ws s))) as [p Hp]. rewrite E in Hp.
  apply (f_equal (@rev N)) in Hp. rewrite rev_involutive, rev_app_distr in Hp.
  destruct (rev (c :: u)) as [|a r] eqn:Er.
  - apply (f_equal (@length N)) in Er. rewrite length_rev in Er. discriminate.
  - cbn [app] in Hp. pose proof (drop_ws_head _ _ _ Hp) as Ha.
    rewrite (drop_ws_fixed a r Ha). rewrite <- Er, rev_involutive.
    now rewrite (drop_ws_fixed c u Hc).
Qed.

(** The pieces of a split hold no separator. *)
Lemma split_from_free sep cur s :
  free_of sep cur = true ->
  Forall (fun p => free_of sep p = true) (split_from sep cur s).
Proof.
  revert cur. induction s as [|c s IH]; intros cur Hcur; cbn [split_from].
  - constructor; [now rewrite free_of_rev|constructor].
  - destruct (c =? sep) eqn:Hc.
    + constructor; [now rewrite free_of_rev|]. now apply IH.
    + apply IH. cbn [free_of forallb]. rewrite Hc. exact Hcur.
Qed.

(** Splitting what was joined gives the pieces back. *)
Lemma split_join sep x rest :
  Forall (fun p => free_of sep p = true) (x :: rest) ->
  split sep (join [sep] (x :: rest)) = x :: rest.
Proof.
  revert x. induction rest as [|y rest IH]; intros x H.
  - cbn [join]. unfold split. rewrite split_from_last; [reflexivity|].
    now inversion H.
  - change (join [sep] (x :: y :: rest))
      with (x ++ sep :: join [sep] (y :: rest)).
    unfold split. rewrite split_from_at by (now inversion H).
    cbn [rev app]. f_equal. apply IH. now inversion H.
Qed.

Lemma grid_days_clean days : Forall clean_day (Main.grid_days days).
Proof.
  apply Forall_forall. intros s H. unfold Main.grid_days in H.
  apply filter_In in H. destruct H as [Hin Ht].
  apply in_map_iff in Hin. destruct Hin as (t & <- & Hin).
  split; [|split].
  - intros E. rewrite E in Ht. discriminate.
  - apply free_of_trim.
    pose proof (split_from_free 44 [] days eq_refl) as Hf.
    rewrite Forall_forall in Hf. now apply Hf.
  - apply trim_idempotent.
Qed.

Lemma clean_days_kept ds :
  Forall clean_day ds ->
  filter (fun s => truthy (JStr s)) (map trim ds) = ds.
Proof.
  intros H. induction H as [|s l (Hne & _ & Htrim) _ IH]; [reflexivity|].
  assert (Ht : truthy (JStr s) = true)
    by (destruct s; [now destruct Hne|reflexivity]).
  cbn [map]. rewrite Htrim. cbn [filter]. rewrite Ht. now rewrite IH.
Qed.

Lemma grid_days_join ds :
  Forall clean_day ds -> Main.grid_days (join (lit ",") ds) = ds.
Proof.
  intros H. destruct ds as [|x rest]; [reflexivity|].
  unfold Main.grid_days. change (lit ",") with [44].
  rewrite split_join.
  2:{ eapply Forall_impl; [|exact H]. now intros s (_ & Hs & _). }
  now apply clean_days_kept.
Qed.

End DaysFacts.

(** X16.  The days of the grid survive the trip through the text box.
    Whatever the box holds, every day of the payload is clean: not empty,
    without a comma and with no whitespace around it.  A list of clean days
    typed as their join with commas is read back as that very list; so
    reading is stable: joining what was read and reading it again gives the
    same days. *)
Theorem grid_days_round_trip :
  (forall days, Forall clean_day (Main.grid_days days)) /\
  (forall ds,
      Forall clean_day ds -> Main.grid_days (join (lit ",") ds) = ds) /\
  (forall days,
      Main.grid_days (join (lit ",") (Main.grid_days days))
      = Main.grid_days days).
Proof.
  split; [apply grid_days_clean|].
  split; [apply grid_days_join|].
  intros days. apply grid_days_join, grid_days_clean.
Qed.

Lemma grid_days_round_trip_witness :
  Forall clean_day [lit "Mon"; lit "Tue"; lit "Wed"] /\
  Main.grid_days (lit "Mon,Tue,Wed") = [lit "Mon"; lit "Tue"; lit "Wed"] /\
  Main.grid_days (lit "Mon, Tue ,,  ,Wed") = [lit "Mon"; lit "Tue"; lit "Wed"].
Proof.
  assert (H : Forall clean_day [lit "Mon"; lit "Tue"; lit "Wed"]).
  { repeat constructor; try (vm_compute; reflexivity);
      vm_compute; discriminate. }
  split; [exact H|].
  destruct grid_days_round_trip as (_ & Hjoin & _).
  split.
  - replace (lit "Mon,Tue,Wed")
      with (join (lit ",") [lit "Mon"; lit "Tue"; lit "Wed"])
      by (vm_compute; reflexivity).
    exact (Hjoin _ H).
  - vm_compute. reflexivity.
Defined.

(** ** A schedule, end to end *)

(** X17.  A click on the schedule button answered with a reply that has a
    summary and a non-empty list of assignments that are row objects: the
    handler ends normally without an alert, with the summary written and
    one table in the wrapper of the assignments, holding one row per
    assignment in the order of the reply. *)
Theorem schedule_shows_the_assignments host net BASE res markup a rest
  (w : World Main.Dom) :
  answers host
    (net (post_request host BASE Main.schedule_path
                       (schedule_body host (dom w)))) res ->
  Main.summary_markup host res = Ok markup ->
  Main.solution_assignments host res = Ok (JArr (a :: rest)) ->
  Forall (row_object host) (a :: rest) ->
  exists rows,
    Forall2 (shown_as host) (a :: rest) rows /\
    Main.btnSchedule_click host net BASE w
    = (Ok tt,
       mkWorld (Main.set_assignmentsWrap [assignments_table rows]
                  (Main.set_summary (innerHTML markup) (dom w)))
               (events w ++ post_trace host BASE Main.schedule_path
                                       (schedule_body host (dom w)))).
Proof.
  intros H Hm Hs Hrows. apply api_result_answers in H.
  destruct (collect_map_ok (Main.assignment_row host) (a :: rest))
    as (rows & Hc & Hf).
  { intros x Hx. apply assignment_row_object.
    rewrite Forall_forall in Hrows. now apply Hrows. }
  exists rows. split.
  - clear - Hf. induction Hf as [|x row l rows Hx _ IH]; constructor.
    + now apply assignment_row_shown.
    + exact IH.
  - rewrite (btnSchedule_answered host net BASE res w H).
    erewrite try_ok; [reflexivity|].
    unfold bind at 1. unfold lift at 1. rewrite Hm.
    unfold bind at 1. cbn [update].
    unfold bind at 1. unfold lift at 1. rewrite Hs.
    rewrite (renderAssignments_rows host a rest rows _ Hc).
    destruct w as [[] evs]. reflexivity.
Qed.

Lemma schedule_shows_the_assignments_witness :
  let w := snd (Main.btnSchedule_click Ref.host Sample.schedules
                                       Sample.origin Sample.scheduling) in
  exists rows,
    length rows = 1%nat /\
    Main.assignmentsWrap (dom w) = [assignments_table rows] /\
    alerts (events w) = [].
Proof.
  cbv zeta.
  set (a := JObj [(lit "course_id", JStr (lit "C1"));
                  (lit "session_index", JNum (Int 0));
                  (lit "day", JStr (lit "Mon"));
                  (lit "block", JNum (Int 1));
                  (lit "room_id", JStr (lit "R1"))]).
  set (res := JObj [(lit "summary",
                     JObj [(lit "courses", JNum (Int 1));
                           (lit "rooms", JNum (Int 1));
                           (lit "days", JArr [JStr (lit "Mon");
                                              JStr (lit "Tue")])]);
                    (lit "solution", JObj [(lit "assignments", JArr [a])])]).
  assert (Hp : JSON_parse Ref.host Sample.schedule_reply = Ok res)
    by (vm_compute; reflexivity).
  assert (H : answers Ref.host
                (Sample.schedules
                   (post_request Ref.host Sample.origin Main.schedule_path
                      (schedule_body Ref.host (dom Sample.scheduling))))
                res).
  { exists (mkResponse 200 (Ok Sample.schedule_reply)), Sample.schedule_reply.
    split; [reflexivity|]. split; [reflexivity|]. split; [reflexivity|].
    exact Hp. }
  assert (Hm : Main.summary_markup Ref.host res
               = Ok (summary_text (lit "1") (lit "1") (lit "?")
                                  (lit "Mon,Tue") (lit "?")))
    by (vm_compute; reflexivity).
  assert (Hs : Main.solution_assignments Ref.host res = Ok (JArr [a]))
    by (vm_compute; reflexivity).
  assert (Hrows : Forall (row_object Ref.host) [a]).
  { repeat constructor; eexists; (split; [reflexivity|]);
      repeat constructor; eexists; vm_compute; reflexivity. }
  destruct (schedule_shows_the_assignments Ref.host Sample.schedules
              Sample.origin res _ a [] Sample.scheduling H Hm Hs Hrows)
    as (rows & Hf & Hrun).
  exists rows. split; [symmetry; exact (Forall2_length Hf)|].
  rewrite Hrun. cbn [snd dom events].
  split; [destruct (dom Sample.scheduling); reflexivity|].
  vm_compute. reflexivity.
Defined.

(** ** A search reply without results *)

Section NoResults.

Variable host : Host.



End NoResults.


